(** * Playwright/TypeScript test harness: lifecycle, reporting and utilities

    A shallow embedding of the TypeScript sources of the harness
    (logger, reporters, action utilities, lifecycle hooks, global
    teardown, random-data and test-data helpers) together with the
    properties its specification states about them.

    Every call that leaves the program (the browser driver, the file
    system, the child process, winston, allure, [Math.random],
    [Date.now]) is recorded, with the answer it got, in a trace; the
    answers come from an environment the theorems quantify over. *)

From Stdlib Require Import ZArith Lia List Ascii String Bool.
From Stdlib Require SpecFloat.
From stdpp Require Import base option gmap strings list.

Local Open Scope string_scope.
Local Open Scope list_scope.
Local Open Scope Z_scope.

(* ===================================================================== *)
(** * JavaScript values used by the harness                               *)
(* ===================================================================== *)

Module JS.

(** The decimal digit [d] (0..9) as a character. *)
Definition digitChar (d : Z) : ascii :=
  ascii_of_nat (48 + Z.to_nat d).

(** Decimal digits of a non-negative integer, most significant first,
    in front of [acc]; [fuel] bounds the number of digits written. *)
Fixpoint digitsFrom (fuel : nat) (n : Z) (acc : string) : string :=
  match fuel with
  | O => acc
  | S fuel' =>
      let acc' := String (digitChar (n mod 10)) acc in
      if n <? 10 then acc' else digitsFrom fuel' (n / 10) acc'
  end.

(** [Number.prototype.toString()] on an integer-valued number (below
    1e21, where JavaScript prints plain decimal). *)
Definition Number_toString (n : Z) : string :=
  if n <? 0
  then "-" +:+ digitsFrom (S (Z.to_nat (Z.log2 (- n)))) (- n) ""
  else digitsFrom (S (Z.to_nat (Z.log2 n))) n "".

(** A JavaScript [Error]: its [name], [message] and optional [stack]. *)
Record Error := mkError {
  err_name : string;
  err_message : string;
  err_stack : option string
}.

(** [new Error(message)] *)
Definition new_Error (message : string) : Error :=
  mkError "Error" message None.

(** [s || d] on an optional string: an absent or empty string is falsy. *)
Definition str_or (s : option string) (d : string) : string :=
  match s with
  | Some v => if String.eqb v "" then d else v
  | None => d
  end.

(** [n || d] on an optional number: absent or 0 is falsy. *)
Definition num_or (n : option Z) (d : Z) : Z :=
  match n with
  | Some v => if v =? 0 then d else v
  | None => d
  end.

(** [s || undefined] on an optional string. *)
Definition str_or_undefined (s : option string) : option string :=
  match s with
  | Some v => if String.eqb v "" then None else Some v
  | None => None
  end.

(** [if (s)] on an optional string. *)
Definition str_truthy (s : option string) : bool :=
  match s with
  | Some v => negb (String.eqb v "")
  | None => false
  end.

(** [s.replace(/[:.]/g, '-')] *)
Fixpoint replace_colon_dot (s : string) : string :=
  match s with
  | EmptyString => EmptyString
  | String c s' =>
      String (if (Ascii.eqb c ":" || Ascii.eqb c ".")%bool then "-"%char else c)
             (replace_colon_dot s')
  end.

End JS.



(* ===================================================================== *)
(** * Data model                                                          *)
(* ===================================================================== *)

(** Levels of the winston logger. *)
Inductive Level := DEBUG | INFO | WARN | ERROR.

(** [TestResult.status] (base-reporter.ts). *)
Inductive Status := PASSED | FAILED | SKIPPED | BROKEN.

(** [test.info().status] of the test runner. *)
Inductive RunnerStatus := passed | failed | timedOut | skipped | interrupted.

(** [interface TestResult] (base-reporter.ts). *)
Record TestResult := mkTestResult {
  testId : string;
  testName : string;
  suite : string;
  status : Status;
  startTime : Z;
  endTime : Z;
  duration : Z;
  error_ : option string
}.

(** Handles of the browser driver. *)
Definition Page := nat.

(** A locator: made by [page.locator(selector)], or handed in by the caller. *)
Inductive Locator :=
| locatorOf (page : Page) (selector : string)
| handle (id : nat).

(** The [options] bag of the action utilities (typed [any] in the source):
    the properties the code reads. *)
Record Options := mkOptions {
  opt_page : option Page;
  opt_timeout : option Z;
  opt_additionalText : option string
}.

(** Content of a report attachment: a string, a buffer, or the string
    [JSON.stringify(obj, null, 2)] of a flat object, kept as its fields. *)
Inductive Content :=
| text (s : string)
| buffer (id : nat)
| json (fields : list (string * option string)).

(** The functions the harness passes to [evaluate]. *)
Inductive PageFunction :=
| element_click
| clear_value_and_dispatch_input
| element_outerHTML
| dispatch_custom_event (type : string) (data : option string)
| clear_local_and_session_storage.

(** Argument of [locator.selectOption]. *)
Inductive SelectArg :=
| by_value (v : string)
| by_values (vs : list string)
| by_label (l : string)
| by_index (i : Z).

(** Methods called on a locator, with the arguments the harness passes. *)
Inductive LocatorMethod :=
| l_click (o : option Options)
| l_click_noWaitAfter_false (o : Options)
| l_evaluate (f : PageFunction)
| l_fill (value : string) (o : option Options)
| l_press (key : string)
| l_type (s : string) (o : Options)
| l_pressSequentially (value : string) (o : Options)
| l_clear (o : Options)
| l_check (o : Options)
| l_uncheck (o : Options)
| l_selectOption (a : SelectArg) (o : Options)
| l_hover (o : Options)
| l_focus (o : Options)
| l_dragTo (dest : Locator) (o : Options)
| l_dblclick (o : Options)
| l_setInputFiles (paths : list string)
| l_scrollIntoViewIfNeeded (o : Options)
| l_textContent
| l_innerHTML
| l_inputValue.

(** What a registered dialog handler does. *)
Inductive DialogHandler := dialog_accept | dialog_dismiss | dialog_message_then_accept.

(** Calls that leave the program. *)
Inductive Call :=
(* JavaScript built-ins *)
| Math_random
| Date_now
| Date_toISOString
| process_env (name : string)
(* winston, through the Logger class *)
| winston_createLogger
| winston_log (lvl : Level) (message : string) (meta : option JS.Error)
(* allure-playwright *)
| allure_step (name : string)
| allure_attachment (name : string) (content : Content) (type : string)
(* the browser driver *)
| page_locator (p : Page) (selector : string)
| page_screenshot (p : Page) (path : option string) (fullPage : bool)
| page_evaluate (p : Page) (f : PageFunction)
| page_waitForLoadState (p : Page) (state : string)
| page_waitForEvent (p : Page) (event : string)
| await_event (p : Page) (event : string)
| page_setDefaultTimeout (p : Page) (timeout : Z)
| page_setDefaultNavigationTimeout (p : Page) (timeout : Z)
| page_setViewportSize (p : Page) (width height : Z)
| page_on_dialog (p : Page) (h : DialogHandler)
| page_keyboard_press (p : Page) (key : string)
| page_close (p : Page)
| context_clearCookies
| context_close
| browser_close
| download_saveAs (path : string)
| locator_waitFor (l : Locator) (state : string) (timeout : Z)
| locator_call (l : Locator) (m : LocatorMethod)
(* fs, child_process, dotenv *)
| fs_existsSync (path : string)
| fs_mkdirSync (path : string)
| fs_rmSync (path : string) (recursive force : bool)
| fs_renameSync (src dst : string)
| fs_readdirSync (path : string)
| fs_statSync_mtime (path : string)
| fs_unlinkSync (path : string)
| fs_readFileSync (path : string)
| exec (command : string)
| dotenv_config (path : string).

(** What the outside answers to a call. *)
Inductive Answer :=
| done
| raise (e : JS.Error)
| number (z : Z)
| boolean (b : bool)
| str (s : string)
| null
| names (l : list string)
| bytes (id : nat).

Definition Event : Type := Call * Answer.

(** The outside world: its answer to a call, given the number of calls
    the program has made before it. *)
Definition Env := nat -> Call -> Answer.

(** The state of the program: the calls made so far with their answers
    (oldest first) and their number, the [TestResult] objects allocated
    by [startTest], the [currentTest] field of the reporter in use, the
    static [Logger.instance], and the number of objects allocated so far. *)
Record World := mkWorld {
  trace : list Event;
  clock : nat;
  records : gmap nat TestResult;
  currentTest : option nat;
  Logger_instance : option nat;
  allocated : nat
}.

Definition emptyWorld : World := mkWorld [] 0 ∅ None None 0.

(** Outcome of running a piece of code: it returns or it throws. *)
Inductive Outcome (A : Type) :=
| Ok (a : A)
| Thrown (e : JS.Error).
Arguments Ok {A} a.
Arguments Thrown {A} e.

(** Code of the harness: given the outside world and the current state,
    a new state and an outcome. *)
Definition M (A : Type) : Type := Env -> World -> World * Outcome A.

Definition ret {A} (a : A) : M A := fun _ w => (w, Ok a).

Definition bind {A B} (m : M A) (k : A -> M B) : M B :=
  fun env w =>
    match m env w with
    | (w', Ok a) => k a env w'
    | (w', Thrown e) => (w', Thrown e)
    end.

Definition throw {A} (e : JS.Error) : M A := fun _ w => (w, Thrown e).

(** [try { body } catch (error) { handler(error) }] *)
Definition try_catch {A} (body : M A) (handler : JS.Error -> M A) : M A :=
  fun env w =>
    match body env w with
    | (w', Ok a) => (w', Ok a)
    | (w', Thrown e) => handler e env w'
    end.

Declare Scope js_scope.
Delimit Scope js_scope with js.
Notation "x <- m ;; k" := (bind m (fun x => k))
  (at level 20, m at level 99, k at level 200, only parsing) : js_scope.
Notation "m ;; k" := (bind m (fun _ => k))
  (at level 100, k at level 200, only parsing, right associativity) : js_scope.
Local Open Scope js_scope.

Definition record_event (c : Call) (a : Answer) (w : World) : World :=
  mkWorld (trace w ++ [(c, a)]) (S (clock w)) (records w) (currentTest w)
          (Logger_instance w) (allocated w).

(** The error an answer carries, if it is a [raise]. *)
Definition thrown (a : Answer) : option JS.Error :=
  match a with
  | raise e => Some e
  | _ => None
  end.

(** A call that may throw: the answer [raise e] makes it throw [e]. *)
Definition call (c : Call) : M Answer :=
  fun env w =>
    let a := env (clock w) c in
    let w' := record_event c a w in
    match thrown a with
    | Some e => (w', Thrown e)
    | None => (w', Ok a)
    end.

(** A call that does not throw (built-ins, loggers, report recorders). *)
Definition query (c : Call) : M Answer :=
  fun env w =>
    let a := env (clock w) c in
    (record_event c a w, Ok a).

Definition get_world : M World := fun _ w => (w, Ok w).
Definition put_world (w : World) : M unit := fun _ _ => (w, Ok tt).

(** Reading an answer at the type the caller expects. *)
Definition as_number (a : Answer) : Z :=
  match a with number z => z | _ => 0 end.
Definition as_boolean (a : Answer) : bool :=
  match a with boolean b => b | _ => false end.
Definition as_string (a : Answer) : string :=
  match a with str s => s | _ => "" end.
Definition as_optional_string (a : Answer) : option string :=
  match a with str s => Some s | _ => None end.
Definition as_names (a : Answer) : list string :=
  match a with names l => l | _ => [] end.
Definition as_content (a : Answer) : Content :=
  match a with bytes id => buffer id | str s => text s | _ => text "" end.

(** [for (const x of xs) body(x)] *)
Fixpoint for_of {X} (xs : list X) (body : X -> M unit) : M unit :=
  match xs with
  | [] => ret tt
  | x :: xs' => body x ;; for_of xs' body
  end.

(** [for (let i = ...; ...; i++) acc = body(acc)], [n] iterations. *)
Fixpoint for_times {A} (n : nat) (body : A -> M A) (acc : A) : M A :=
  match n with
  | O => ret acc
  | S n' => acc' <- body acc ;; for_times n' body acc'
  end.

Definition set_Logger_instance (l : nat) : M unit :=
  fun _ w => (mkWorld (trace w) (clock w) (records w) (currentTest w) (Some l) (allocated w), Ok tt).

Definition set_currentTest (c : option nat) : M unit :=
  fun _ w => (mkWorld (trace w) (clock w) (records w) c (Logger_instance w) (allocated w), Ok tt).

Definition set_record (l : nat) (r : TestResult) : M unit :=
  fun _ w => (mkWorld (trace w) (clock w) (<[l := r]> (records w)) (currentTest w)
                      (Logger_instance w) (allocated w), Ok tt).

(** Allocation of a fresh object: its identity. *)
Definition new_object : M nat :=
  fun _ w => (mkWorld (trace w) (clock w) (records w) (currentTest w) (Logger_instance w)
                      (S (allocated w)), Ok (allocated w)).

(* ===================================================================== *)
(** * Logger (logger.ts)                                                  *)
(* ===================================================================== *)

Module Logger.

(** [ensureLogsDirectory()] *)
Definition ensureLogsDirectory : M unit :=
  let logsDir := "logs" in
  e <- query (fs_existsSync logsDir) ;;
  if negb (as_boolean e)
  then call (fs_mkdirSync logsDir) ;; ret tt
  else ret tt.

(** [createLogger()]: the directory, then [winston.createLogger]. *)
Definition createLogger : M unit :=
  ensureLogsDirectory ;;
  query winston_createLogger ;;
  ret tt.

(** [new Logger()]: the constructor runs [createLogger]; the result is
    a fresh object. *)
Definition new : M nat :=
  createLogger ;;
  new_object.

(** [static getInstance()] *)
Definition getInstance : M nat :=
  w <- get_world ;;
  match Logger_instance w with
  | None =>
      l <- new ;;
      set_Logger_instance l ;;
      ret l
  | Some l => ret l
  end.

Definition debug (message : string) (meta : option JS.Error) : M unit :=
  query (winston_log DEBUG message meta) ;; ret tt.

Definition info (message : string) (meta : option JS.Error) : M unit :=
  query (winston_log INFO message meta) ;; ret tt.

Definition warn (message : string) (meta : option JS.Error) : M unit :=
  query (winston_log WARN message meta) ;; ret tt.

Definition error (message : string) (meta : option JS.Error) : M unit :=
  query (winston_log ERROR message meta) ;; ret tt.

Definition pass (message : string) (meta : option JS.Error) : M unit :=
  query (winston_log INFO ("[PASS] " +:+ message) meta) ;; ret tt.

Definition fail (message : string) (meta : option JS.Error) : M unit :=
  query (winston_log ERROR ("[FAIL] " +:+ message) meta) ;; ret tt.

End Logger.

(* ===================================================================== *)
(** * BaseReporter (base-reporter.ts)                                     *)
(* ===================================================================== *)

Definition Status_toString (s : Status) : string :=
  match s with
  | PASSED => "PASSED"
  | FAILED => "FAILED"
  | SKIPPED => "SKIPPED"
  | BROKEN => "BROKEN"
  end.

Module BaseReporter.

(** [startTest(testId, testName, suiteName)] *)
Definition startTest (testId testName suiteName : string) : M unit :=
  now <- query Date_now ;;
  l <- new_object ;;
  set_record l (mkTestResult testId testName suiteName PASSED (as_number now) 0 0 None) ;;
  set_currentTest (Some l) ;;
  Logger.info ("Test started: " +:+ testName) None.

(** [endTest(status, error?)] *)
Definition endTest (status : Status) (err : option string) : M unit :=
  w <- get_world ;;
  match currentTest w with
  | None => ret tt
  | Some l =>
      match records w !! l with
      | None => ret tt
      | Some r =>
          now <- query Date_now ;;
          let endTime := as_number now in
          let r' := mkTestResult (testId r) (testName r) (suite r) status
                      (startTime r) endTime (endTime - startTime r)
                      (JS.str_or_undefined err) in
          set_record l r' ;;
          Logger.info ("Test ended: " +:+ testName r +:+ " - Status: "
                       +:+ Status_toString status) None ;;
          set_currentTest None
      end
  end.

(** [addAttachment(name, content, type, filePath?)] *)
Definition addAttachment (name : string) (content : Content) (type : string)
    (filePath : option string) : M unit :=
  Logger.debug ("Attachment added: " +:+ name +:+ " (" +:+ type +:+ ")") None ;;
  if JS.str_truthy filePath
  then Logger.debug ("File path: " +:+ default "" filePath) None
  else ret tt.

(** [getCurrentTest()] *)
Definition getCurrentTest : M (option TestResult) :=
  w <- get_world ;;
  ret (l ← currentTest w; records w !! l).

End BaseReporter.

(* ===================================================================== *)
(** * AllureReporter (allure-reporter.ts)                                 *)
(* ===================================================================== *)

Module AllureReporter.

(** [addStep(stepName, stepDetails?)]: [allure.step] runs the step body,
    which logs the details when there are any. *)
Definition addStep (stepName : string) (stepDetails : option string) : M unit :=
  Logger.info ("ALLURE: Adding step: " +:+ stepName) None ;;
  query (allure_step stepName) ;;
  if JS.str_truthy stepDetails
  then Logger.debug (default "" stepDetails) None
  else ret tt.

(** [override addAttachment(name, content, type)] *)
Definition addAttachment (name : string) (content : Content) (type : string) : M unit :=
  Logger.debug ("ALLURE: Adding attachment: " +:+ name +:+ " (" +:+ type +:+ ")") None ;;
  query (allure_attachment name content type) ;;
  ret tt.

(** [addScreenshot(name, screenshotPath)] *)
Definition addScreenshot (name screenshotPath : string) : M unit :=
  Logger.debug ("ALLURE: Adding screenshot: " +:+ name +:+ " - " +:+ screenshotPath) None ;;
  try_catch
    (content <- call (fs_readFileSync screenshotPath) ;;
     query (allure_attachment name (as_content content) "image/png") ;;
     ret tt)
    (fun e => Logger.error ("Failed to add screenshot: " +:+ screenshotPath) (Some e)).

(** [addJSONAttachment(name, data)] for a flat object [data]. *)
Definition addJSONAttachment (name : string) (data : list (string * option string)) : M unit :=
  Logger.debug ("ALLURE: Adding JSON attachment: " +:+ name) None ;;
  let jsonString := json data in
  query (allure_attachment name jsonString "application/json") ;;
  ret tt.

(** [addErrorDetails(error)] *)
Definition addErrorDetails (e : JS.Error) : M unit :=
  Logger.debug ("ALLURE: Adding error details: " +:+ JS.err_message e) None ;;
  timestamp <- query Date_toISOString ;;
  let errorData :=
    [("name", Some (JS.err_name e));
     ("message", Some (JS.err_message e));
     ("stack", JS.err_stack e);
     ("timestamp", Some (as_string timestamp))] in
  addJSONAttachment "Error Details" errorData.

End AllureReporter.

(* ===================================================================== *)
(** * CommonUtils (common-utils.ts)                                       *)
(* ===================================================================== *)

(** Numbers that are not integers: IEEE 754 binary64, with the
    operations of the standard's specification ([SpecFloat]), rounding
    to nearest, ties to even. *)
Module Double.

Import SpecFloat.

Definition prec : Z := 53.
Definition emax : Z := 1024.

Definition t : Type := spec_float.

(** The non-negative double of bit pattern [b]: the biased exponent is
    [b / 2^52], the fraction [b mod 2^52]; exponent 0 holds zero and the
    subnormal numbers. *)
Definition of_bits (b : Z) : t :=
  let E := b / 2 ^ 52 in
  let F := b mod 2 ^ 52 in
  if E =? 0 then
    if F =? 0 then S754_zero false else S754_finite false (Z.to_pos F) (-1074)
  else S754_finite false (Z.to_pos (2 ^ 52 + F)) (E - 1075).

(** The bit pattern of 1.0: the doubles of [0, 1) are those of the bit
    patterns below it. *)
Definition one_bits : Z := 1023 * 2 ^ 52.

(** The double nearest to the integer [n]. *)
Definition of_Z (n : Z) : t := binary_normalize prec emax n 0 false.

(** [x * y] *)
Definition mul (x y : t) : t := SFmul prec emax x y.

(** [Math.floor(x)] of a finite [x], as an integer; the numbers it is
    taken of here are all finite. *)
Definition floor (x : t) : Z :=
  match x with
  | S754_finite s m e => Z.shiftl (cond_Zopp s (Zpos m)) e
  | _ => 0
  end.

(** The doubles of [0, 1). *)
Definition in_unit_interval (x : t) : Prop :=
  match x with
  | S754_zero false => True
  | S754_finite false m e => Zpos m < 2 ^ 53 /\ e <= -53
  | _ => False
  end.

End Double.

Module CommonUtils.

(** What [Math.random()] returns when the outside answers [a]: a double
    of [0, 1), any of them, read off its bit pattern. *)
Definition random_of (a : Answer) : Double.t :=
  Double.of_bits (as_number a mod Double.one_bits).

(** [Math.random()] *)
Definition Math_random_draw : M Double.t :=
  a <- query Math_random ;;
  ret (random_of a).

(** [Math.floor(x * n)] for a double [x] and an integer [n]: the
    product is the binary64 one, rounded, and [Math.floor] is taken of
    the rounded product. *)
Definition Math_floor_times (x : Double.t) (n : Z) : Z :=
  Double.floor (Double.mul x (Double.of_Z n)).

(** [generateRandomNumber(count)] *)
Definition generateRandomNumber (count : Z) : M string :=
  Logger.debug ("Generating random number of " +:+ JS.Number_toString count +:+ " digits") None ;;
  AllureReporter.addStep
    ("Generate random number of " +:+ JS.Number_toString count +:+ " digits") None ;;
  if count <=? 0 then
    Logger.warn "Count must be greater than 0" None ;;
    ret ""
  else
    (* First digit (1-9) *)
    x <- Math_random_draw ;;
    let result := Math_floor_times x 9 + 1 in
    (* Remaining digits (0-9) *)
    result <- for_times (Z.to_nat (count - 1))
                (fun result =>
                   x <- Math_random_draw ;;
                   ret (result + Math_floor_times x 10))
                result ;;
    let numberString := JS.Number_toString result in
    Logger.debug ("Generated random number: " +:+ numberString) None ;;
    ret numberString.

(** [generateRandomNumeric(length)] *)
Definition generateRandomNumeric (length : Z) : M string :=
  Logger.debug ("Generating random numeric string of length: "
                +:+ JS.Number_toString length) None ;;
  AllureReporter.addStep
    ("Generate random numeric string of length: " +:+ JS.Number_toString length) None ;;
  if length <=? 0 then
    Logger.warn "Length must be greater than 0" None ;;
    ret ""
  else
    let result := "" in
    result <- for_times (Z.to_nat length)
                (fun result =>
                   x <- Math_random_draw ;;
                   ret (result +:+ JS.Number_toString (Math_floor_times x 10)))
                result ;;
    Logger.debug ("Generated random numeric string: " +:+ result) None ;;
    ret result.

End CommonUtils.

(** The [Math.random()] draws recorded in a trace. *)
Definition draw_of (e : Event) : option Double.t :=
  match e with
  | (Math_random, a) => Some (CommonUtils.random_of a)
  | _ => None
  end.

Definition draws (tr : list Event) : list Double.t := omap draw_of tr.

(** The events a run added to the trace. *)
Definition added (w w' : World) : list Event := drop (length (trace w)) (trace w').

(** The digits [generateRandomNumber] makes of its draws: the first in
    1..9, the others in 0..9. *)
Definition digits_of_draws (xs : list Double.t) : list Z :=
  match xs with
  | [] => []
  | x0 :: xs' =>
      (CommonUtils.Math_floor_times x0 9 + 1)
        :: map (fun x => CommonUtils.Math_floor_times x 10) xs'
  end.

Definition sumZ (l : list Z) : Z := fold_right Z.add 0 l.

Definition is_digit_char (c : ascii) : bool :=
  ((48 <=? nat_of_ascii c)%nat && (nat_of_ascii c <=? 57)%nat)%bool.

Fixpoint all_digits (s : string) : bool :=
  match s with
  | EmptyString => true
  | String c s' => (is_digit_char c && all_digits s')%bool
  end.

(** A fixed outside world for examples: every draw is the double of
    bit pattern [k]. *)
Definition env_const_draw (k : Z) : Env :=
  fun _ c => match c with Math_random => number k | _ => done end.

(** The world after the events [evs] have been recorded on top of [w]. *)
Definition add_events (evs : list Event) (w : World) : World :=
  mkWorld (trace w ++ evs) (length evs + clock w) (records w) (currentTest w)
          (Logger_instance w) (allocated w).

(* ===================================================================== *)
(** * TestDataUtils (test-data-utils.ts)                                  *)
(* ===================================================================== *)

(** Values found in the imported [test-data.json] object: primitives, and
    references to objects, arrays or (on the prototype) functions. *)
Inductive JsValue :=
| v_undefined
| v_null
| v_boolean (b : bool)
| v_number (n : Z)
| v_string (s : string)
| v_object (id : nat).

(** Truthiness of a value, as [!value] tests it. *)
Definition truthy (v : JsValue) : bool :=
  match v with
  | v_undefined => false
  | v_null => false
  | v_boolean b => b
  | v_number n => negb (n =? 0)
  | v_string s => negb (String.eqb s "")
  | v_object _ => true
  end.

(** An object: its own properties and the ones it inherits. *)
Record JsObject := mkJsObject {
  own : gmap string JsValue;
  inherited : gmap string JsValue
}.

(** [obj[key]] *)
Definition js_get (obj : JsObject) (key : string) : JsValue :=
  match own obj !! key with
  | Some v => v
  | None =>
      match inherited obj !! key with
      | Some v => v
      | None => v_undefined
      end
  end.

(** [key in obj] *)
Definition js_in (key : string) (obj : JsObject) : bool :=
  match own obj !! key with
  | Some _ => true
  | None =>
      match inherited obj !! key with
      | Some _ => true
      | None => false
      end
  end.

Module TestDataUtils.

(** [getTestData(key)], for the imported object [testDataJson]. *)
Definition getTestData (testDataJson : JsObject) (key : string) : M JsValue :=
  Logger.debug ("Getting test data for key: " +:+ key) None ;;
  AllureReporter.addStep ("Getting test data for key: " +:+ key) None ;;
  if negb (truthy (js_get testDataJson key)) then
    Logger.error ("Test data not found for key: " +:+ key) None ;;
    AllureReporter.addStep ("Test data not found for key: " +:+ key) None ;;
    throw (JS.new_Error ("Test data not found for key: " +:+ key))
  else
    let data := js_get testDataJson key in
    Logger.debug ("Successfully retrieved test data for key: " +:+ key) None ;;
    AllureReporter.addStep ("Successfully retrieved test data for key: " +:+ key) None ;;
    ret data.

(** [getAllTestData()] *)
Definition getAllTestData (testDataJson : JsObject) : M JsObject :=
  Logger.debug "Getting all test data" None ;;
  AllureReporter.addStep "Getting all test data" None ;;
  ret testDataJson.

(** [hasTestDataKey(key)] *)
Definition hasTestDataKey (testDataJson : JsObject) (key : string) : M bool :=
  Logger.debug ("Checking if test data key exists: " +:+ key) None ;;
  AllureReporter.addStep ("Checking if test data key exists: " +:+ key) None ;;
  let exists_ := js_in key testDataJson in
  Logger.debug ("Test data key '" +:+ key +:+ "' exists: "
                +:+ (if exists_ then "true" else "false")) None ;;
  ret exists_.

End TestDataUtils.

(* ===================================================================== *)
(** * Per-test hooks (fixtures.ts)                                        *)
(* ===================================================================== *)

Definition RunnerStatus_toString (s : RunnerStatus) : string :=
  match s with
  | passed => "passed"
  | failed => "failed"
  | timedOut => "timedOut"
  | skipped => "skipped"
  | interrupted => "interrupted"
  end.

(** [config.timeouts] and [config.viewport] (config/env). *)
Record Config := mkConfig {
  timeouts_default : Z;
  timeouts_short : Z;
  timeouts_long : Z;
  viewport_width : Z;
  viewport_height : Z
}.

(** [qaConfig] (config/env/env.qa.ts). *)
Definition qaConfig : Config := mkConfig 30000 10000 60000 1280 720.

Module Fixtures.

(** [test.beforeEach], for the test titled [testName]. *)
Definition beforeEach (config : Config) (page : Page) (testName : string) : M unit :=
  call (page_setDefaultTimeout page (timeouts_default config)) ;;
  call (page_setDefaultNavigationTimeout page (timeouts_long config)) ;;
  call (page_setViewportSize page (viewport_width config) (viewport_height config)) ;;
  Logger.info ("Starting test: " +:+ testName) None ;;
  AllureReporter.addStep ("Test started: " +:+ testName) None.

(** [test.afterEach], for the test titled [testName] that ended with
    [testResult]. *)
Definition afterEach (page : Page) (testName : string) (testResult : RunnerStatus) : M unit :=
  (match testResult with
   | passed =>
       Logger.pass ("Test passed: " +:+ testName) None ;;
       AllureReporter.addStep ("Test passed: " +:+ testName) None
   | failed =>
       Logger.fail ("Test failed: " +:+ testName) None ;;
       AllureReporter.addStep ("Test failed: " +:+ testName) None ;;
       (* Take screenshot on failure *)
       now <- query Date_now ;;
       let screenshotName := "failure_" +:+ JS.Number_toString (as_number now) in
       call (page_screenshot page
               (Some ("reports/screenshots/" +:+ screenshotName +:+ ".png")) true) ;;
       AllureReporter.addAttachment
         ("Screenshot - " +:+ screenshotName)
         (text ("reports/screenshots/" +:+ screenshotName +:+ ".png"))
         "image/png"
   | _ =>
       Logger.info ("Test " +:+ RunnerStatus_toString testResult +:+ ": " +:+ testName) None
   end) ;;
  (* Clear browser storage after each test *)
  call context_clearCookies ;;
  call (page_evaluate page clear_local_and_session_storage) ;;
  ret tt.

End Fixtures.

(* ===================================================================== *)
(** * TestBase (testBase.ts)                                              *)
(* ===================================================================== *)

(** The fields of a [TestBase] object: which handles it holds. *)
Record TestBase := mkTestBase {
  tb_browser : bool;
  tb_context : bool;
  tb_page : option Page
}.

Module TestBase.

(** [new TestBase()]: the constructor and the [AllureReporter] it makes
    both call [Logger.getInstance()]. *)
Definition new : M TestBase :=
  Logger.getInstance ;;
  Logger.getInstance ;;
  ret (mkTestBase false false None).

(** [initializeForTest(page?, context?, browser?)] *)
Definition initializeForTest (this : TestBase) (page : option Page)
    (context browser : bool) : TestBase :=
  mkTestBase (if browser then true else tb_browser this)
             (if context then true else tb_context this)
             (match page with Some p => Some p | None => tb_page this end).

Definition logPass (message : string) : M unit :=
  Logger.info ("PASS: " +:+ message) None ;;
  AllureReporter.addStep message (Some "passed").

Definition logFail (message : string) : M unit :=
  Logger.error ("FAIL: " +:+ message) None ;;
  AllureReporter.addStep message (Some "failed").

Definition addAttachment (name : string) (content : Content) (mimeType : string) : M unit :=
  AllureReporter.addAttachment name content mimeType.

Definition attachToAllure (name : string) (content : Content) (mimeType : string) : M unit :=
  AllureReporter.addAttachment name content mimeType.

(** [takeScreenshot(name)] *)
Definition takeScreenshot (this : TestBase) (name : string) : M (option string) :=
  match tb_page this with
  | None => ret None
  | Some page =>
      iso <- query Date_toISOString ;;
      let timestamp := JS.replace_colon_dot (as_string iso) in
      let path := "reports/screenshots/" +:+ name +:+ "-" +:+ timestamp +:+ ".png" in
      call (page_screenshot page (Some path) false) ;;
      addAttachment name (text path) "image/png" ;;
      logPass ("Screenshot taken: " +:+ name) ;;
      ret (Some path)
  end.

(** [handleTestFailure(error)] *)
Definition handleTestFailure (this : TestBase) (e : JS.Error) : M unit :=
  logFail ("Test failed: " +:+ JS.err_message e) ;;
  (match tb_page this with
   | Some _ => takeScreenshot this "failure-screenshot" ;; ret tt
   | None => ret tt
   end) ;;
  AllureReporter.addErrorDetails e ;;
  attachToAllure "Error Stack Trace"
    (text (JS.str_or (JS.err_stack e) (JS.err_message e))) "text/plain".

(** [clearCookiesAndStorage()] *)
Definition clearCookiesAndStorage (this : TestBase) : M unit :=
  if negb (tb_context this) then ret tt
  else
    call context_clearCookies ;;
    (match tb_page this with
     | Some page => call (page_evaluate page clear_local_and_session_storage) ;; ret tt
     | None => ret tt
     end) ;;
    logPass "Cookies and storage cleared".

(** [closePage()]: returns the object with its field cleared. *)
Definition closePage (this : TestBase) : M TestBase :=
  match tb_page this with
  | None => ret this
  | Some page =>
      call (page_close page) ;;
      logPass "Page closed" ;;
      ret (mkTestBase (tb_browser this) (tb_context this) None)
  end.

(** [closeContext()] *)
Definition closeContext (this : TestBase) : M TestBase :=
  if negb (tb_context this) then ret this
  else
    call context_close ;;
    logPass "Browser context closed" ;;
    ret (mkTestBase (tb_browser this) false (tb_page this)).

(** [closeBrowser()] *)
Definition closeBrowser (this : TestBase) : M TestBase :=
  if negb (tb_browser this) then ret this
  else
    call browser_close ;;
    logPass "Browser closed" ;;
    ret (mkTestBase false (tb_context this) (tb_page this)).

(** [teardownAfterTest()] *)
Definition teardownAfterTest (this : TestBase) : M TestBase :=
  logPass "TestBase teardown started" ;;
  this <- (match tb_page this with Some _ => closePage this | None => ret this end) ;;
  this <- (if tb_context this then closeContext this else ret this) ;;
  this <- (if tb_browser this then closeBrowser this else ret this) ;;
  logPass "TestBase teardown completed" ;;
  ret this.

End TestBase.

(* ===================================================================== *)
(** * ActionUtils (action-utils.ts)                                       *)
(* ===================================================================== *)

(** The [input] of an action: [string | Locator]. *)
Inductive Input :=
| selector (s : string)
| element (l : Locator).

Module ActionUtils.

(** [getLocatorWithStableAndVisibleOptions(input, options)] *)
Definition getLocatorWithStableAndVisibleOptions (input : Input) (options : Options)
    : M Locator :=
  match opt_page options with
  | None => throw (JS.new_Error "Page is required for locator operations")
  | Some page =>
      locator <- (match input with
                  | selector s => query (page_locator page s) ;; ret (locatorOf page s)
                  | element l => ret l
                  end) ;;
      (* Wait for element to be visible using Playwright's built-in wait *)
      call (locator_waitFor locator "visible" (JS.num_or (opt_timeout options) 30000)) ;;
      ret locator
  end.

Definition click (input : Input) (options : Options) : M unit :=
  Logger.info ("Click: " +:+ match input with selector s => s | element _ => "locator" end)
              None ;;
  AllureReporter.addStep "Click element" None ;;
  locator <- getLocatorWithStableAndVisibleOptions input options ;;
  call (locator_call locator (l_click (Some options))) ;;
  ret tt.

Definition clickAndNavigate (input : Input) (options : Options) : M unit :=
  locator <- getLocatorWithStableAndVisibleOptions input options ;;
  call (locator_call locator (l_click_noWaitAfter_false options)) ;;
  match opt_page options with
  | Some page => call (page_waitForLoadState page "networkidle") ;; ret tt
  | None => ret tt
  end.

Definition clickByJS (input : Input) (options : Options) : M unit :=
  locator <- getLocatorWithStableAndVisibleOptions input options ;;
  call (locator_call locator (l_evaluate element_click)) ;;
  ret tt.

Definition fill (input : Input) (value : string) (options : Options) : M unit :=
  Logger.info ("Fill: " +:+ value) None ;;
  AllureReporter.addStep ("Fill input: " +:+ value) None ;;
  locator <- getLocatorWithStableAndVisibleOptions input options ;;
  call (locator_call locator (l_fill value (Some options))) ;;
  ret tt.

Definition fillAndEnter (input : Input) (value : string) (options : Options) : M unit :=
  locator <- getLocatorWithStableAndVisibleOptions input options ;;
  call (locator_call locator (l_fill value None)) ;;
  call (locator_call locator (l_press "Enter")) ;;
  ret tt.

Definition fillAndTab (input : Input) (value : string) (options : Options) : M unit :=
  locator <- getLocatorWithStableAndVisibleOptions input options ;;
  call (locator_call locator (l_fill value None)) ;;
  call (locator_call locator (l_press "Tab")) ;;
  ret tt.

Definition fillAndType (input : Input) (value : string) (options : Options) : M unit :=
  locator <- getLocatorWithStableAndVisibleOptions input options ;;
  call (locator_call locator (l_fill value None)) ;;
  call (locator_call locator (l_type (JS.str_or (opt_additionalText options) "") options)) ;;
  ret tt.

Definition pressSequentially (input : Input) (value : string) (options : Options) : M unit :=
  locator <- getLocatorWithStableAndVisibleOptions input options ;;
  call (locator_call locator (l_pressSequentially value options)) ;;
  ret tt.

Definition pressPageKeyboard (key : string) (options : Options) : M unit :=
  match opt_page options with
  | None => throw (JS.new_Error "Page is required for keyboard operations")
  | Some page => call (page_keyboard_press page key) ;; ret tt
  end.

Definition clear (input : Input) (options : Options) : M unit :=
  locator <- getLocatorWithStableAndVisibleOptions input options ;;
  call (locator_call locator (l_clear options)) ;;
  ret tt.

Definition clearByJS (input : Input) (options : Options) : M unit :=
  locator <- getLocatorWithStableAndVisibleOptions input options ;;
  call (locator_call locator (l_evaluate clear_value_and_dispatch_input)) ;;
  ret tt.

Definition check (input : Input) (options : Options) : M unit :=
  Logger.info "Check element" None ;;
  locator <- getLocatorWithStableAndVisibleOptions input options ;;
  call (locator_call locator (l_check options)) ;;
  ret tt.

Definition uncheck (input : Input) (options : Options) : M unit :=
  locator <- getLocatorWithStableAndVisibleOptions input options ;;
  call (locator_call locator (l_uncheck options)) ;;
  ret tt.

Definition selectByValue (input : Input) (value : string) (options : Options) : M unit :=
  Logger.info ("Select: " +:+ value) None ;;
  AllureReporter.addStep ("Select option: " +:+ value) None ;;
  locator <- getLocatorWithStableAndVisibleOptions input options ;;
  call (locator_call locator (l_selectOption (by_value value) options)) ;;
  ret tt.

Definition selectByValues (input : Input) (values : list string) (options : Options)
    : M unit :=
  locator <- getLocatorWithStableAndVisibleOptions input options ;;
  call (locator_call locator (l_selectOption (by_values values) options)) ;;
  ret tt.

Definition selectByText (input : Input) (text : string) (options : Options) : M unit :=
  locator <- getLocatorWithStableAndVisibleOptions input options ;;
  call (locator_call locator (l_selectOption (by_label text) options)) ;;
  ret tt.

Definition selectByIndex (input : Input) (index : Z) (options : Options) : M unit :=
  locator <- getLocatorWithStableAndVisibleOptions input options ;;
  call (locator_call locator (l_selectOption (by_index index) options)) ;;
  ret tt.

Definition acceptAlert (input : Input) (options : Options) : M unit :=
  match opt_page options with
  | None => throw (JS.new_Error "Page is required for alert operations")
  | Some page => query (page_on_dialog page dialog_accept) ;; ret tt
  end.

Definition dismissAlert (input : Input) (options : Options) : M unit :=
  match opt_page options with
  | None => throw (JS.new_Error "Page is required for alert operations")
  | Some page => query (page_on_dialog page dialog_dismiss) ;; ret tt
  end.

(** [getAlertText]: the promise it returns resolves, with the message,
    when a dialog appears. *)
Definition getAlertText (input : Input) (options : Options) : M string :=
  match opt_page options with
  | None => throw (JS.new_Error "Page is required for alert operations")
  | Some page =>
      query (page_on_dialog page dialog_message_then_accept) ;;
      message <- query (await_event page "dialog") ;;
      ret (as_string message)
  end.

Definition hover (input : Input) (options : Options) : M unit :=
  Logger.info "Hover element" None ;;
  locator <- getLocatorWithStableAndVisibleOptions input options ;;
  call (locator_call locator (l_hover options)) ;;
  ret tt.

Definition focus (input : Input) (options : Options) : M unit :=
  locator <- getLocatorWithStableAndVisibleOptions input options ;;
  call (locator_call locator (l_focus options)) ;;
  ret tt.

Definition dragAndDrop (input dest : Input) (options : Options) : M unit :=
  sourceLocator <- getLocatorWithStableAndVisibleOptions input options ;;
  destLocator <- (match dest with
                  | selector s =>
                      match opt_page options with
                      | Some page => query (page_locator page s) ;; ret (locatorOf page s)
                      | None => throw (JS.mkError "TypeError"
                                         "Cannot read properties of undefined (reading 'locator')"
                                         None)
                      end
                  | element l => ret l
                  end) ;;
  call (locator_call sourceLocator (l_dragTo destLocator options)) ;;
  ret tt.

Definition doubleClick (input : Input) (options : Options) : M unit :=
  locator <- getLocatorWithStableAndVisibleOptions input options ;;
  call (locator_call locator (l_dblclick options)) ;;
  ret tt.

Definition uploadFiles (input : Input) (path : list string) (options : Options) : M unit :=
  locator <- getLocatorWithStableAndVisibleOptions input options ;;
  call (locator_call locator (l_setInputFiles path)) ;;
  ret tt.

Definition downloadFile (input : Input) (path : string) (options : Options) : M unit :=
  locator <- getLocatorWithStableAndVisibleOptions input options ;;
  match opt_page options with
  | None => throw (JS.mkError "TypeError"
                     "Cannot read properties of undefined (reading 'waitForEvent')" None)
  | Some page =>
      (* the wait for the download starts before the click and is awaited after it *)
      query (page_waitForEvent page "download") ;;
      call (locator_call locator (l_click None)) ;;
      call (await_event page "download") ;;
      call (download_saveAs path) ;;
      ret tt
  end.

Definition scrollLocatorIntoView (input : Input) (options : Options) : M unit :=
  locator <- getLocatorWithStableAndVisibleOptions input options ;;
  call (locator_call locator (l_scrollIntoViewIfNeeded options)) ;;
  ret tt.

Definition scrollToElement (input : Input) (options : Options) : M unit :=
  locator <- getLocatorWithStableAndVisibleOptions input options ;;
  call (locator_call locator (l_scrollIntoViewIfNeeded options)) ;;
  ret tt.

Definition getElementTextContent (input : Input) (options : Options) : M string :=
  Logger.info "Get text content" None ;;
  locator <- getLocatorWithStableAndVisibleOptions input options ;;
  textContent <- call (locator_call locator l_textContent) ;;
  ret (JS.str_or (as_optional_string textContent) "").

Definition getElementInnerHTML (input : Input) (options : Options) : M string :=
  locator <- getLocatorWithStableAndVisibleOptions input options ;;
  innerHTML <- call (locator_call locator l_innerHTML) ;;
  ret (as_string innerHTML).

Definition getElementOuterHTML (input : Input) (options : Options) : M string :=
  locator <- getLocatorWithStableAndVisibleOptions input options ;;
  outerHTML <- call (locator_call locator (l_evaluate element_outerHTML)) ;;
  ret (as_string outerHTML).

Definition getElementValue (input : Input) (options : Options) : M string :=
  locator <- getLocatorWithStableAndVisibleOptions input options ;;
  value <- call (locator_call locator l_inputValue) ;;
  ret (as_string value).

Definition setElementValue (input : Input) (value : string) (options : Options) : M unit :=
  locator <- getLocatorWithStableAndVisibleOptions input options ;;
  call (locator_call locator (l_fill value None)) ;;
  ret tt.

Definition triggerEvent (input : Input) (eventType : string) (eventData : option string)
    (options : Options) : M unit :=
  locator <- getLocatorWithStableAndVisibleOptions input options ;;
  call (locator_call locator (l_evaluate (dispatch_custom_event eventType eventData))) ;;
  ret tt.

End ActionUtils.

(** An invocation of an action utility that receives [input] and
    [options], with its other arguments. *)
Inductive Action :=
| a_click | a_clickAndNavigate | a_clickByJS
| a_fill (value : string) | a_fillAndEnter (value : string) | a_fillAndTab (value : string)
| a_fillAndType (value : string) | a_pressSequentially (value : string)
| a_clear | a_clearByJS | a_check | a_uncheck
| a_selectByValue (value : string) | a_selectByValues (values : list string)
| a_selectByText (text : string) | a_selectByIndex (index : Z)
| a_hover | a_focus | a_dragAndDrop (dest : Input) | a_doubleClick
| a_downloadFile (path : string) | a_uploadFiles (path : list string)
| a_scrollLocatorIntoView | a_scrollToElement
| a_getElementTextContent | a_getElementInnerHTML | a_getElementOuterHTML
| a_getElementValue | a_setElementValue (value : string)
| a_triggerEvent (eventType : string) (eventData : option string)
| a_acceptAlert | a_dismissAlert | a_getAlertText.

(** The alert helpers: they receive [input] and ignore it. *)
Definition is_alert_helper (a : Action) : bool :=
  match a with
  | a_acceptAlert | a_dismissAlert | a_getAlertText => true
  | _ => false
  end.

Definition returning_nothing (m : M unit) : M (option string) :=
  m ;; ret None.

Definition returning_string (m : M string) : M (option string) :=
  s <- m ;; ret (Some s).

(** Running an invocation: the utility it names, on its arguments. *)
Definition invoke (a : Action) (input : Input) (options : Options) : M (option string) :=
  match a with
  | a_click => returning_nothing (ActionUtils.click input options)
  | a_clickAndNavigate => returning_nothing (ActionUtils.clickAndNavigate input options)
  | a_clickByJS => returning_nothing (ActionUtils.clickByJS input options)
  | a_fill v => returning_nothing (ActionUtils.fill input v options)
  | a_fillAndEnter v => returning_nothing (ActionUtils.fillAndEnter input v options)
  | a_fillAndTab v => returning_nothing (ActionUtils.fillAndTab input v options)
  | a_fillAndType v => returning_nothing (ActionUtils.fillAndType input v options)
  | a_pressSequentially v => returning_nothing (ActionUtils.pressSequentially input v options)
  | a_clear => returning_nothing (ActionUtils.clear input options)
  | a_clearByJS => returning_nothing (ActionUtils.clearByJS input options)
  | a_check => returning_nothing (ActionUtils.check input options)
  | a_uncheck => returning_nothing (ActionUtils.uncheck input options)
  | a_selectByValue v => returning_nothing (ActionUtils.selectByValue input v options)
  | a_selectByValues vs => returning_nothing (ActionUtils.selectByValues input vs options)
  | a_selectByText t => returning_nothing (ActionUtils.selectByText input t options)
  | a_selectByIndex i => returning_nothing (ActionUtils.selectByIndex input i options)
  | a_hover => returning_nothing (ActionUtils.hover input options)
  | a_focus => returning_nothing (ActionUtils.focus input options)
  | a_dragAndDrop dest => returning_nothing (ActionUtils.dragAndDrop input dest options)
  | a_doubleClick => returning_nothing (ActionUtils.doubleClick input options)
  | a_downloadFile p => returning_nothing (ActionUtils.downloadFile input p options)
  | a_uploadFiles p => returning_nothing (ActionUtils.uploadFiles input p options)
  | a_scrollLocatorIntoView => returning_nothing (ActionUtils.scrollLocatorIntoView input options)
  | a_scrollToElement => returning_nothing (ActionUtils.scrollToElement input options)
  | a_getElementTextContent => returning_string (ActionUtils.getElementTextContent input options)
  | a_getElementInnerHTML => returning_string (ActionUtils.getElementInnerHTML input options)
  | a_getElementOuterHTML => returning_string (ActionUtils.getElementOuterHTML input options)
  | a_getElementValue => returning_string (ActionUtils.getElementValue input options)
  | a_setElementValue v => returning_nothing (ActionUtils.setElementValue input v options)
  | a_triggerEvent t d => returning_nothing (ActionUtils.triggerEvent input t d options)
  | a_acceptAlert => returning_nothing (ActionUtils.acceptAlert input options)
  | a_dismissAlert => returning_nothing (ActionUtils.dismissAlert input options)
  | a_getAlertText => returning_string (ActionUtils.getAlertText input options)
  end.

(** The locator an action works on. *)
Definition resolved (input : Input) (page : Page) : Locator :=
  match input with
  | selector s => locatorOf page s
  | element l => l
  end.

Global Instance Options_eq_dec : EqDecision Options.
Proof. solve_decision. Defined.

Global Instance Locator_eq_dec : EqDecision Locator.
Proof. solve_decision. Defined.

(** Calls made to the browser driver on an element. *)
Definition is_locator_call (c : Call) : bool :=
  match c with
  | locator_call _ _ => true
  | _ => false
  end.

(** In a trace, every call on a locator comes after a wait for the
    ['visible'] state of that locator that did not throw; [waited] are
    the locators waited for so far. *)
Fixpoint waits_before_acting (waited : list Locator) (evs : list Event) : bool :=
  match evs with
  | [] => true
  | (locator_waitFor l state _, a) :: evs' =>
      match thrown a with
      | None =>
          if String.eqb state "visible"
          then waits_before_acting (l :: waited) evs'
          else waits_before_acting waited evs'
      | Some _ => waits_before_acting waited evs'
      end
  | (locator_call l _, _) :: evs' =>
      (existsb (fun l' => bool_decide (l = l')) waited
       && waits_before_acting waited evs')%bool
  | _ :: evs' => waits_before_acting waited evs'
  end.

(** Calls to the browser driver, the file system or a child process, as
    opposed to logging, reporting and built-ins. *)
Definition is_driver (c : Call) : bool :=
  match c with
  | winston_log _ _ _ | winston_createLogger | allure_step _ | allure_attachment _ _ _
  | Math_random | Date_now | Date_toISOString | process_env _ => false
  | _ => true
  end.

Definition driver_events (evs : list Event) : list Event :=
  List.filter (fun ev => is_driver (fst ev)) evs.

(** The call that resolves [input] on [page], if it is a selector. *)
Definition resolution (input : Input) (page : Page) : list Call :=
  match input with
  | selector s => [page_locator page s]
  | element _ => []
  end.

(* ===================================================================== *)
(** * Global teardown (global-teardown.ts)                                *)
(* ===================================================================== *)

(** [path.join(dir, file)] for a directory and a plain file name. *)
Definition path_join (dir file : string) : string := dir +:+ "/" +:+ file.

Module GlobalTeardown.

(** [generateReports()] *)
Definition generateReports : M unit :=
  Logger.info "Generating test reports..." None ;;
  try_catch
    ((* Generate Allure report *)
     call (exec "npx allure generate allure-results --clean -o allure-report") ;;
     Logger.info "Allure report generated successfully" None ;;
     (* Copy reports to reports directory *)
     e1 <- query (fs_existsSync "allure-report") ;;
     if as_boolean e1 then
       e2 <- query (fs_existsSync "reports/allure-report") ;;
       (if as_boolean e2
        then call (fs_rmSync "reports/allure-report" true false) ;; ret tt
        else ret tt) ;;
       call (fs_renameSync "allure-report" "reports/allure-report") ;;
       Logger.info "Allure report moved to reports directory" None
     else ret tt)
    (fun e => Logger.warn "Failed to generate reports:" (Some e)).

Definition tempDirectories : list string :=
  ["test-results"; "playwright-report"; "allure-results"].

Definition sevenDays : Z := 7 * 24 * 60 * 60 * 1000.

(** Body of the loop over [tempDirectories] in [cleanupTempFiles()]. *)
Definition removeTempDirectory (dir : string) : M unit :=
  e <- query (fs_existsSync dir) ;;
  if as_boolean e then
    call (fs_rmSync dir true true) ;;
    Logger.info ("Cleaned up directory: " +:+ dir) None
  else ret tt.

(** Body of the loop over the files of the logs directory in
    [cleanupTempFiles()]. *)
Definition pruneLogFile (logsDir : string) (sevenDaysAgo : Z) (file : string) : M unit :=
  let filePath := path_join logsDir file in
  mtime <- call (fs_statSync_mtime filePath) ;;
  if as_number mtime <? sevenDaysAgo then
    call (fs_unlinkSync filePath) ;;
    Logger.info ("Deleted old log file: " +:+ file) None
  else ret tt.

(** [cleanupTempFiles()] *)
Definition cleanupTempFiles : M unit :=
  Logger.info "Cleaning up temporary files..." None ;;
  try_catch
    ((* Clean up test artifacts *)
     for_of tempDirectories removeTempDirectory ;;
     (* Clean up old log files (older than 7 days) *)
     let logsDir := "logs" in
     e <- query (fs_existsSync logsDir) ;;
     (if as_boolean e then
        files <- call (fs_readdirSync logsDir) ;;
        now <- query Date_now ;;
        let sevenDaysAgo := as_number now - sevenDays in
        for_of (as_names files) (pruneLogFile logsDir sevenDaysAgo)
      else ret tt) ;;
     Logger.info "Temporary files cleanup completed" None)
    (fun e => Logger.warn "Failed to cleanup temporary files:" (Some e)).

(** [globalTeardown(config)] *)
Definition globalTeardown : M unit :=
  Logger.info "Starting global teardown..." None ;;
  (* Ensure environment variables are loaded for cleanup operations *)
  environment <- query (process_env "environment") ;;
  (if JS.str_truthy (as_optional_string environment) then
     Logger.info ("Using environment variables for: " +:+ as_string environment) None ;;
     query (dotenv_config ("config/env/.env." +:+ as_string environment)) ;;
     ret tt
   else ret tt) ;;
  try_catch
    ((* Generate reports *)
     generateReports ;;
     (* Clean up temporary files *)
     cleanupTempFiles ;;
     Logger.info "Global teardown completed successfully" None)
    (fun e =>
       Logger.error "Global teardown failed:" (Some e)
       (* Don't throw error to avoid masking test failures *)).

End GlobalTeardown.

(** Calls to the file system and the child process that may throw. *)
Definition may_throw (c : Call) : bool :=
  match c with
  | exec _ | fs_rmSync _ _ _ | fs_renameSync _ _ | fs_readdirSync _
  | fs_statSync_mtime _ | fs_unlinkSync _ | fs_mkdirSync _ | fs_readFileSync _ => true
  | _ => false
  end.

(** No call of the trace that may throw did throw. *)
Definition no_throw (evs : list Event) : Prop :=
  forall c a, In (c, a) evs -> may_throw c = true -> thrown a = None.

(** A test-data object for examples: one key bound to a falsy value, one
    to a truthy value, and an inherited property. *)
Definition sampleTestData : JsObject :=
  mkJsObject (<["retries" := v_number 0]> (<["user" := v_string "qa"]> ∅))
             (<["toString" := v_object 0]> ∅).

(** An outside world for examples in which every call just returns. *)
Definition env_quiet : Env := fun _ _ => done.

(** [n] successive calls of [Logger.getInstance()]: the instances returned. *)
Fixpoint getInstance_times (n : nat) : M (list nat) :=
  match n with
  | O => ret []
  | S n' =>
      l <- Logger.getInstance ;;
      ls <- getInstance_times n' ;;
      ret (l :: ls)
  end.

(** Calls made on one reporter object. *)
Inductive ReporterCall :=
| c_startTest (testId testName suiteName : string)
| c_endTest (status : Status) (err : option string)
| c_addAttachment (name : string) (content : Content) (type : string)
                  (filePath : option string)
| c_getCurrentTest.

Definition is_startTest (c : ReporterCall) : bool :=
  match c with c_startTest _ _ _ => true | _ => false end.

Definition is_endTest (c : ReporterCall) : bool :=
  match c with c_endTest _ _ => true | _ => false end.

(** Performing a call on the reporter. *)
Definition perform (c : ReporterCall) : M unit :=
  match c with
  | c_startTest testId testName suiteName => BaseReporter.startTest testId testName suiteName
  | c_endTest status err => BaseReporter.endTest status err
  | c_addAttachment name content type filePath =>
      BaseReporter.addAttachment name content type filePath
  | c_getCurrentTest => BaseReporter.getCurrentTest ;; ret tt
  end.

(** Performing a sequence of calls, in order. *)
Definition perform_all (cs : list ReporterCall) : M unit := for_of cs perform.

(** The record [endTest(status, err)] leaves behind when it closes the
    record [r] at time [now]. *)
Definition closed_record (r : TestResult) (now : Z) (status : Status)
    (err : option string) : TestResult :=
  mkTestResult (testId r) (testName r) (suite r) status
               (startTime r) now (now - startTime r) (JS.str_or_undefined err).

(** An outside world for examples whose clock advances with every call. *)
Definition env_ticking : Env :=
  fun n c => match c with Date_now => number (1000 + Z.of_nat n) | _ => done end.

(** Does the trace contain a line logged at warning level? *)
Definition logs_warning (evs : list Event) : bool :=
  existsb (fun ev => match fst ev with winston_log WARN _ _ => true | _ => false end) evs.

(** The attachments a trace hands to allure: name, content, type. *)
Definition attachment_of (ev : Event) : option (string * Content * string) :=
  match fst ev with
  | allure_attachment name content type => Some (name, content, type)
  | _ => None
  end.

Definition attachments (evs : list Event) : list (string * Content * string) :=
  omap attachment_of evs.

(** The driver calls of the per-test teardown. *)
Definition teardown_driver_call (c : Call) : bool :=
  match c with
  | page_screenshot _ _ _ | context_clearCookies | page_evaluate _ _ => true
  | _ => false
  end.

(** An outside world in which the page is already closed when the
    failure screenshot is taken. *)
Definition page_closed_error : JS.Error :=
  JS.mkError "Error" "page.screenshot: Target page, context or browser has been closed" None.

Definition env_page_closed : Env :=
  fun n c =>
    match c with
    | page_screenshot _ _ _ => raise page_closed_error
    | Date_now => number (1000 + Z.of_nat n)
    | _ => done
    end.

(** Option bags for examples: a page with a 5 s timeout, and the same
    page with the timeout 0. *)
Definition sampleOptions : Options := mkOptions (Some 0%nat) (Some 5000) None.
Definition zeroTimeoutOptions : Options := mkOptions (Some 0%nat) (Some 0) None.

(** What the loop over the log files has done when it stops: it looked
    at the files in order, deleted the old ones, and stopped at the
    first call that threw. *)
Definition pruned (ago : Z) (files : list string) (evs : list Event)
    (out : Outcome unit) : Prop :=
  (forall c a, In (c, a) evs -> is_driver c = true ->
     exists file, In file files
                  /\ (c = fs_statSync_mtime (path_join "logs" file)
                      \/ c = fs_unlinkSync (path_join "logs" file)))
  /\ (forall c a e, In (c, a) evs -> may_throw c = true -> thrown a = Some e ->
        out = Thrown e)
  /\ (forall e, out = Thrown e ->
        exists c a, In (c, a) evs /\ may_throw c = true /\ thrown a = Some e)
  /\ (no_throw evs ->
        out = Ok tt
        /\ forall file, In file files ->
             exists ma, In (fs_statSync_mtime (path_join "logs" file), ma) evs
                        /\ (as_number ma < ago ->
                            exists a', In (fs_unlinkSync (path_join "logs" file), a') evs))
  /\ (forall p a, In (fs_unlinkSync p, a) evs ->
        exists file ma, p = path_join "logs" file /\ In file files
                        /\ In (fs_statSync_mtime p, ma) evs /\ as_number ma < ago).


(** What [cleanupTempFiles()] has done when no call of it threw: it
    looked at each temporary directory and removed the ones that exist,
    looked at the logs directory and, if it exists, at each of its files,
    deleting the ones last modified more than seven days ago, and logged
    that the cleanup is complete. *)
Definition cleaned_up (evs : list Event) : Prop :=
  (forall dir, In dir GlobalTeardown.tempDirectories ->
     exists a, In (fs_existsSync dir, a) evs
               /\ (as_boolean a = true -> exists a', In (fs_rmSync dir true true, a') evs))
  /\ (exists ea, In (fs_existsSync "logs", ea) evs
        /\ (as_boolean ea = true ->
            exists fa na,
              In (fs_readdirSync "logs", fa) evs /\ In (Date_now, na) evs
              /\ forall file, In file (as_names fa) ->
                   exists ma,
                     In (fs_statSync_mtime (path_join "logs" file), ma) evs
                     /\ (as_number ma < as_number na - GlobalTeardown.sevenDays ->
                         exists a', In (fs_unlinkSync (path_join "logs" file), a') evs)))
  /\ (exists a, In (winston_log INFO "Temporary files cleanup completed" None, a) evs).

(** An outside world in which the allure command fails, the temporary
    directories and the logs directory exist, and the logs directory
    holds a fresh file and one last modified more than seven days ago. *)
Definition allure_missing : JS.Error :=
  JS.mkError "Error" "Command failed: npx allure generate" None.

Definition env_allure_missing : Env :=
  fun _ c =>
    match c with
    | exec _ => raise allure_missing
    | fs_existsSync _ => boolean true
    | fs_readdirSync _ => names ["app.log"; "old.log"]
    | Date_now => number 1000000000000
    | fs_statSync_mtime path =>
        if String.eqb path "logs/old.log" then number 0 else number 999999999999
    | _ => done
    end.

(* ===================================================================== *)
(** * TestReporter (test-reporter.ts)                                     *)
(* ===================================================================== *)

Module TestReporter.

(** [override endTest(status, error?)] *)
Definition endTest (status : Status) (err : option string) : M unit :=
  BaseReporter.endTest status err ;;
  match err with
  | Some message =>
      if negb (String.eqb message "")
      then AllureReporter.addErrorDetails (JS.new_Error message)
      else ret tt
  | None => ret tt
  end.

(** [addStep(stepName, stepDetails?)] *)
Definition addStep (stepName : string) (stepDetails : option string) : M unit :=
  AllureReporter.addStep stepName stepDetails.

(** [override addAttachment(name, content, type, filePath?)] *)
Definition addAttachment (name : string) (content : Content) (type : string)
    (filePath : option string) : M unit :=
  BaseReporter.addAttachment name content type filePath ;;
  AllureReporter.addAttachment name content type.

(** [addScreenshot(name, screenshotPath)] *)
Definition addScreenshot (name screenshotPath : string) : M unit :=
  Logger.info ("REPORTER: Adding screenshot: " +:+ name) None ;;
  addAttachment name (text "") "image/png" (Some screenshotPath) ;;
  AllureReporter.addScreenshot name screenshotPath.

(** [addJSONData(name, data)] *)
Definition addJSONData (name : string) (data : list (string * option string)) : M unit :=
  Logger.debug ("REPORTER: Adding JSON data: " +:+ name) None ;;
  let jsonString := json data in
  addAttachment name jsonString "application/json" None.

(** [addTestData(dataType, data)] *)
Definition addTestData (dataType : string) (data : list (string * option string)) : M unit :=
  Logger.debug ("REPORTER: Adding test data: " +:+ dataType) None ;;
  addJSONData ("Test Data - " +:+ dataType) data ;;
  AllureReporter.addJSONAttachment ("Test Data - " +:+ dataType) data.

(** [addErrorDetails(error)] *)
Definition addErrorDetails (e : JS.Error) : M unit :=
  Logger.error ("REPORTER: Adding error details: " +:+ JS.err_message e) None ;;
  timestamp <- query Date_toISOString ;;
  let errorData :=
    [("name", Some (JS.err_name e));
     ("message", Some (JS.err_message e));
     ("stack", JS.err_stack e);
     ("timestamp", Some (as_string timestamp))] in
  addJSONData "Error Details" errorData ;;
  AllureReporter.addErrorDetails e.

End TestReporter.

(* ===================================================================== *)
(** * CommonUtils, continued (common-utils.ts)                            *)
(* ===================================================================== *)

Module CommonUtils2.

Definition chars : string :=
  "ABCDEFGHIJKLMNOPQRSTUVWXYZabcdefghijklmnopqrstuvwxyz0123456789".

(** [s.charAt(i)]: the character at [i] as a string, [''] out of range. *)
Definition charAt (s : string) (i : Z) : string :=
  if i <? 0 then ""
  else match String.get (Z.to_nat i) s with
       | Some c => String c ""
       | None => ""
       end.

(** [generateRandomString(length)] *)
Definition generateRandomString (length : Z) : M string :=
  Logger.debug ("Generating random string of length: " +:+ JS.Number_toString length) None ;;
  AllureReporter.addStep
    ("Generate random string of length: " +:+ JS.Number_toString length) None ;;
  let result := "" in
  result <- for_times (Z.to_nat length)
              (fun result =>
                 x <- CommonUtils.Math_random_draw ;;
                 ret (result +:+ charAt chars
                        (CommonUtils.Math_floor_times x (Z.of_nat (String.length chars)))))
              result ;;
  Logger.debug ("Generated random string: " +:+ result) None ;;
  ret result.

(** [getRandomValueFromList(list)] for a list of strings, some slots of
    which may be [undefined]. *)
Definition getRandomValueFromList (list : list (option string)) : M string :=
  Logger.debug ("Getting random value from list of "
                +:+ JS.Number_toString (Z.of_nat (length list)) +:+ " items") None ;;
  AllureReporter.addStep "Get random value from list" None ;;
  if (length list =? 0)%nat then
    let err := "List is empty or invalid" in
    Logger.error err None ;;
    throw (JS.new_Error err)
  else
    x <- CommonUtils.Math_random_draw ;;
    let randomIndex := CommonUtils.Math_floor_times x (Z.of_nat (length list)) in
    let selectedValue := mjoin (list !! Z.to_nat randomIndex) in
    match selectedValue with
    | None =>
        let err := "Selected value is undefined" in
        Logger.error err None ;;
        throw (JS.new_Error err)
    | Some v =>
        Logger.debug ("Selected random value: " +:+ v) None ;;
        ret v
    end.

(** [getRandomElement(list)] *)
Definition getRandomElement (list : list (option string)) : M string :=
  getRandomValueFromList list.

(** [randomNumber(min, max)] on integers small enough (up to 2^51 in
    absolute value) for [max - min + 1] and the final sum to be exact. *)
Definition randomNumber (min max : Z) : M Z :=
  Logger.debug ("Generating random number between " +:+ JS.Number_toString min
                +:+ " and " +:+ JS.Number_toString max) None ;;
  AllureReporter.addStep ("Generate random number between " +:+ JS.Number_toString min
                          +:+ " and " +:+ JS.Number_toString max) None ;;
  x <- CommonUtils.Math_random_draw ;;
  ret (CommonUtils.Math_floor_times x (max - min + 1) + min).

End CommonUtils2.

(** Is the character one of the 62 of [chars]? *)
Definition is_alphanumeric (c : ascii) : bool :=
  let n := nat_of_ascii c in
  ((65 <=? n) && (n <=? 90) || (97 <=? n) && (n <=? 122) || (48 <=? n) && (n <=? 57))%nat%bool.

Fixpoint all_alphanumeric (s : string) : bool :=
  match s with
  | EmptyString => true
  | String c s' => (is_alphanumeric c && all_alphanumeric s')%bool
  end.

(* ===================================================================== *)
(** * TestBase hooks (testBase.ts)                                        *)
(* ===================================================================== *)

(** What a hook reads of [testInfo]. *)
Record TestInfo := mkTestInfo {
  ti_title : string;
  ti_status : RunnerStatus;
  ti_error : option JS.Error
}.

Module TestBaseHooks.

(** The callback registered by [TestBase.beforeEach(fn)], for the
    fixtures [page], [context], [browser]; the user's [fn] may call
    methods of the [TestBase] it is given and returns its fields. *)
Definition beforeEach (fn : TestBase -> TestInfo -> M TestBase)
    (page : Page) (testInfo : TestInfo) : M TestBase :=
  testBase <- TestBase.new ;;
  let testBase := TestBase.initializeForTest testBase (Some page) true true in
  TestBase.logPass ("Starting test: " +:+ ti_title testInfo) ;;
  TestBase.clearCookiesAndStorage testBase ;;
  fn testBase testInfo.

(** The callback registered by [TestBase.afterEach(fn)]. *)
Definition afterEach (fn : TestBase -> TestInfo -> M TestBase)
    (page : Page) (testInfo : TestInfo) : M TestBase :=
  testBase <- TestBase.new ;;
  let testBase := TestBase.initializeForTest testBase (Some page) true true in
  (match ti_status testInfo, ti_error testInfo with
   | failed, Some e => TestBase.handleTestFailure testBase e
   | _, _ => TestBase.logPass ("Test passed: " +:+ ti_title testInfo)
   end) ;;
  testBase <- fn testBase testInfo ;;
  TestBase.teardownAfterTest testBase.

End TestBaseHooks.

(** The driver calls of a trace, in order. *)
Definition driver_calls (evs : list Event) : list Call := map fst (driver_events evs).

Global Instance Level_eq_dec : EqDecision Level.
Proof. solve_decision. Defined.

(** The lines logged at a level, in order. *)
Definition logged (lvl : Level) (evs : list Event) : list string :=
  omap (fun ev => match fst ev with
                  | winston_log l message _ =>
                      if bool_decide (l = lvl) then Some message else None
                  | _ => None
                  end) evs.


(* ===================================================================== *)
(** * AllureConfigManager (allure-config.ts)                              *)
(* ===================================================================== *)

(** [AllureConfig['environmentInfo']] *)
Record EnvironmentInfo := mkEnvironmentInfo {
  ei_browser : string;
  ei_browserVersion : string;
  ei_os : string;
  ei_environment : string
}.

(** An [AllureConfig] object: [environmentInfo] is a reference to an
    object of the heap. *)
Record AllureConfig := mkAllureConfig {
  resultsDir : string;
  outputDir : string;
  environmentInfo : nat
}.

(** [Partial<AllureConfig>]: a field is [None] when the object has no
    such property. *)
Record PartialAllureConfig := mkPartialAllureConfig {
  p_resultsDir : option string;
  p_outputDir : option string;
  p_environmentInfo : option nat
}.

(** The heap of [environmentInfo] objects. *)
Definition Heap := gmap nat EnvironmentInfo.

Module AllureConfigManager.

(** The object [defaultAllureConfig.environmentInfo] lives at address 0. *)
Definition defaultEnvironmentInfo : nat := 0%nat.

Definition defaultAllureConfig : AllureConfig :=
  mkAllureConfig "allure-results" "allure-report" defaultEnvironmentInfo.

(** The heap when the module has been loaded. *)
Definition initialHeap : Heap :=
  {[ defaultEnvironmentInfo := mkEnvironmentInfo "Chrome" "Latest" "Windows" "QA" ]}.

(** [{ ...base, ...updates }] *)
Definition spread (base : AllureConfig) (updates : PartialAllureConfig) : AllureConfig :=
  mkAllureConfig (default (resultsDir base) (p_resultsDir updates))
                 (default (outputDir base) (p_outputDir updates))
                 (default (environmentInfo base) (p_environmentInfo updates)).

Definition noUpdates : PartialAllureConfig := mkPartialAllureConfig None None None.

(** [new AllureConfigManager(config?)]: the [config] field of the manager. *)
Definition new (config : option PartialAllureConfig) : AllureConfig :=
  spread defaultAllureConfig (default noUpdates config).

Definition getConfig (this : AllureConfig) : AllureConfig := this.

Definition updateConfig (this : AllureConfig) (updates : PartialAllureConfig) : AllureConfig :=
  spread this updates.

Definition getResultsDir (this : AllureConfig) : string := resultsDir this.

Definition getOutputDir (this : AllureConfig) : string := outputDir this.

Definition getEnvironmentInfo (this : AllureConfig) (h : Heap) : option EnvironmentInfo :=
  h !! environmentInfo this.

(** [setBrowserInfo(browser, version)]: writes through the reference. *)
Definition setBrowserInfo (this : AllureConfig) (browser version : string) (h : Heap) : Heap :=
  match h !! environmentInfo this with
  | Some ei =>
      <[environmentInfo this :=
          mkEnvironmentInfo browser version (ei_os ei) (ei_environment ei)]> h
  | None => h
  end.

Definition setOSInfo (this : AllureConfig) (os : string) (h : Heap) : Heap :=
  match h !! environmentInfo this with
  | Some ei =>
      <[environmentInfo this :=
          mkEnvironmentInfo (ei_browser ei) (ei_browserVersion ei) os (ei_environment ei)]> h
  | None => h
  end.

Definition setEnvironment (this : AllureConfig) (environment : string) (h : Heap) : Heap :=
  match h !! environmentInfo this with
  | Some ei =>
      <[environmentInfo this :=
          mkEnvironmentInfo (ei_browser ei) (ei_browserVersion ei) (ei_os ei) environment]> h
  | None => h
  end.

End AllureConfigManager.

(** The methods called on locators in a trace. *)
Definition locator_methods (evs : list Event) : list LocatorMethod :=
  omap (fun ev => match fst ev with locator_call _ m => Some m | _ => None end) evs.
Example toString_0 : JS.Number_toString 0 = "0".
Proof. reflexivity. Qed.
Example toString_27 : JS.Number_toString 27 = "27".
Proof. reflexivity. Qed.
Example toString_1000 : JS.Number_toString 1000 = "1000".
Proof. reflexivity. Qed.
Example toString_big : JS.Number_toString 1762150000123 = "1762150000123".
Proof. reflexivity. Qed.
Example toString_neg : JS.Number_toString (-45) = "-45".
Proof. reflexivity. Qed.
Example generateRandomNumber_3_high :
  snd (CommonUtils.generateRandomNumber 3 (env_const_draw (Double.one_bits - 1)) emptyWorld)
  = Ok "27".
Proof. vm_compute. reflexivity. Qed.
Example generateRandomNumber_3_low :
  snd (CommonUtils.generateRandomNumber 3 (env_const_draw 0) emptyWorld) = Ok "1".
Proof. vm_compute. reflexivity. Qed.
Example generateRandomNumeric_3_high :
  snd (CommonUtils.generateRandomNumeric 3 (env_const_draw (Double.one_bits - 1)) emptyWorld)
  = Ok "999".
Proof. vm_compute. reflexivity. Qed.

(** Draws on which the binary64 product is rounded up to an integer:
    0.6 (bits 3FE3333333333333), 0.7, 0.8999999999999999 and
    0.2222222222222222. *)
Example Math_floor_0_6_times_10 :
  CommonUtils.Math_floor_times (Double.of_bits 0x3FE3333333333333) 10 = 6.
Proof. vm_compute. reflexivity. Qed.
Example Math_floor_0_7_times_10 :
  CommonUtils.Math_floor_times (Double.of_bits 0x3FE6666666666666) 10 = 7.
Proof. vm_compute. reflexivity. Qed.
Example Math_floor_0_8999999999999999_times_10 :
  CommonUtils.Math_floor_times (Double.of_bits 0x3FECCCCCCCCCCCCC) 10 = 9.
Proof. vm_compute. reflexivity. Qed.
Example Math_floor_0_2222222222222222_times_9 :
  CommonUtils.Math_floor_times (Double.of_bits 0x3FCC71C71C71C71C) 9 = 2.
Proof. vm_compute. reflexivity. Qed.
Example generateRandomNumeric_3_of_0_6 :
  snd (CommonUtils.generateRandomNumeric 3 (env_const_draw 0x3FE3333333333333) emptyWorld)
  = Ok "666".
Proof. vm_compute. reflexivity. Qed.

Section WorldLemmas.

Lemma add_events_nil w : add_events [] w = w.
Proof. destruct w; unfold add_events; simpl. by rewrite app_nil_r. Qed.

Lemma add_events_record c a evs w :
  add_events evs (record_event c a w) = add_events ((c, a) :: evs) w.
Proof.
  unfold add_events, record_event; simpl.
  rewrite <- app_assoc, Nat.add_succ_r. reflexivity.
Qed.

Lemma record_event_add c a w : record_event c a w = add_events [(c, a)] w.
Proof. reflexivity. Qed.

Lemma added_add_events evs w : added w (add_events evs w) = evs.
Proof. unfold added, add_events; simpl. by rewrite drop_app_length. Qed.

End WorldLemmas.

(** Binary64 arithmetic: what rounding a product does. *)
Section DoubleLemmas.

Import SpecFloat.

Lemma digits2_pos_bounds p :
  2 ^ (Zpos (digits2_pos p) - 1) <= Zpos p < 2 ^ Zpos (digits2_pos p).
Proof.
  induction p as [p IH|p IH|]; cbn [digits2_pos].
  - rewrite Pos2Z.inj_succ. replace (Z.succ (Zpos (digits2_pos p)) - 1)
      with (Z.succ (Zpos (digits2_pos p) - 1)) by lia.
    rewrite !Z.pow_succ_r by lia. lia.
  - rewrite Pos2Z.inj_succ. replace (Z.succ (Zpos (digits2_pos p)) - 1)
      with (Z.succ (Zpos (digits2_pos p) - 1)) by lia.
    rewrite !Z.pow_succ_r by lia. lia.
  - cbn. lia.
Qed.

Lemma div_pow2_pow2 m a b :
  0 <= a -> 0 <= b -> m / 2 ^ a / 2 ^ b = m / 2 ^ (a + b).
Proof.
  intros Ha Hb. rewrite Z.pow_add_r by lia.
  rewrite Zdiv.Zdiv_Zdiv; [reflexivity| |]; apply Z.pow_nonneg; lia.
Qed.

Lemma shr_1_spec mrs :
  0 <= shr_m mrs ->
  shr_m (shr_1 mrs) = shr_m mrs / 2 /\ shr_r (shr_1 mrs) = Z.odd (shr_m mrs).
Proof.
  destruct mrs as [m r s]. cbn [shr_m]. intros Hm.
  destruct m as [|[p|p|]|p]; try lia; cbn [shr_1 shr_m shr_r];
    rewrite <- ?Z.div2_div; split; reflexivity.
Qed.

Lemma iter_shr_1_spec p : forall mrs,
  0 <= shr_m mrs ->
  shr_m (iter_pos shr_1 p mrs) = shr_m mrs / 2 ^ Zpos p
  /\ shr_r (iter_pos shr_1 p mrs) = Z.odd (shr_m mrs / 2 ^ (Zpos p - 1)).
Proof.
  induction p as [p IH|p IH|]; intros mrs Hm; cbn [iter_pos].
  - destruct (shr_1_spec mrs Hm) as [H1 _].
    assert (H1' : 0 <= shr_m (shr_1 mrs)) by (rewrite H1; apply Z.div_pos; lia).
    destruct (IH _ H1') as [H2 _].
    assert (H2' : 0 <= shr_m (iter_pos shr_1 p (shr_1 mrs)))
      by (rewrite H2; apply Z.div_pos; [lia|apply Z.pow_pos_nonneg; lia]).
    destruct (IH _ H2') as [H3 H4].
    rewrite H3, H4, H2, H1.
    replace (shr_m mrs / 2) with (shr_m mrs / 2 ^ 1) by reflexivity.
    rewrite !div_pow2_pow2 by lia.
    split; f_equal; f_equal; f_equal; lia.
  - destruct (IH _ Hm) as [H2 _].
    assert (H2' : 0 <= shr_m (iter_pos shr_1 p mrs))
      by (rewrite H2; apply Z.div_pos; [lia|apply Z.pow_pos_nonneg; lia]).
    destruct (IH _ H2') as [H3 H4].
    rewrite H3, H4, H2.
    rewrite !div_pow2_pow2 by lia.
    split; f_equal; f_equal; f_equal; lia.
  - destruct (shr_1_spec mrs Hm) as [H1 H2]. rewrite H1, H2.
    change (2 ^ (1 - 1)) with 1. rewrite Z.div_1_r. split; reflexivity.
Qed.

(** Shifting an exact mantissa: what is kept, and that the round bit is
    the last bit shifted out. *)
Lemma shr_exact_spec m e s :
  0 <= m ->
  exists mrs,
    shr (Build_shr_record m false false) e s = (mrs, e + Z.max 0 s)
    /\ shr_m mrs = m / 2 ^ Z.max 0 s
    /\ (shr_r mrs = true -> 0 < s /\ Z.odd (m / 2 ^ (s - 1)) = true).
Proof.
  intros Hm. destruct s as [|p|p]; cbn [shr].
  - eexists. split; [rewrite Z.add_0_r; reflexivity|]. cbn [shr_m shr_r].
    change (Z.max 0 0) with 0. rewrite Z.div_1_r. split; [reflexivity|discriminate].
  - eexists. split; [reflexivity|].
    destruct (iter_shr_1_spec p (Build_shr_record m false false) Hm) as [H1 H2].
    cbn [shr_m] in H1, H2. split; [exact H1|]. intros Hr. split; [lia|].
    rewrite <- H2. exact Hr.
  - eexists. split; [rewrite Z.add_0_r; reflexivity|]. cbn [shr_m shr_r].
    change (Z.max 0 (Zneg p)) with 0. rewrite Z.div_1_r. split; [reflexivity|discriminate].
Qed.

Lemma round_nearest_even_bounds mrs :
  shr_m mrs <= round_nearest_even (shr_m mrs) (loc_of_shr_record mrs)
  /\ round_nearest_even (shr_m mrs) (loc_of_shr_record mrs)
     <= shr_m mrs + (if shr_r mrs then 1 else 0).
Proof.
  destruct mrs as [m [|] [|]]; cbn [shr_m shr_r loc_of_shr_record round_nearest_even];
    try destruct (Z.even m); lia.
Qed.

Lemma pow2_lt_exp a b : 0 <= b -> 2 ^ a < 2 ^ b -> a < b.
Proof. intros Hb H. apply (Z.pow_lt_mono_r_iff 2); [lia|exact Hb|exact H]. Qed.

(** Rounding a product [p * 2^eP] that is at most [(1 - 2^-53) * n],
    for an integer [n] in [1, 2^53): the result is zero or a positive
    finite double, below [n]. *)
Lemma binary_round_aux_below p eP n :
  eP <= 0 -> 1 <= n < 2 ^ 53 ->
  2 ^ 53 * Zpos p <= (2 ^ 53 - 1) * (n * 2 ^ (- eP)) ->
  let r := binary_round_aux Double.prec Double.emax false (Zpos p) eP loc_Exact in
  0 <= Double.floor r < n
  /\ (r = S754_zero false \/ exists m e, r = S754_finite false m e).
Proof.
  intros HeP Hn Hle. cbv zeta.
  set (B := n * 2 ^ (- eP)) in *.
  assert (HB : 2 ^ (- eP) <= B).
  { unfold B. assert (0 < 2 ^ (- eP)) by (apply Z.pow_pos_nonneg; lia). nia. }
  assert (HB0 : 0 < B).
  { assert (0 < 2 ^ (- eP)) by (apply Z.pow_pos_nonneg; lia). lia. }
  assert (HB53 : B < 2 ^ (53 - eP)).
  { unfold B. replace (53 - eP) with (53 + - eP) by lia. rewrite Z.pow_add_r by lia.
    assert (0 < 2 ^ (- eP)) by (apply Z.pow_pos_nonneg; lia). nia. }
  assert (HPB : Zpos p < B) by lia.
  pose proof (digits2_pos_bounds p) as Hd.
  set (d := Zpos (digits2_pos p)) in *.
  assert (Hd1 : 1 <= d) by (unfold d; lia).
  assert (HdeP : d + eP - 53 <= 0).
  { assert (d - 1 < 53 - eP); [|lia]. apply pow2_lt_exp; lia. }
  unfold binary_round_aux, shr_fexp. cbn [shr_record_of_loc Zdigits2].
  fold d. unfold fexp, emin, Double.prec, Double.emax.
  change (3 - 1024 - 53) with (-1074).
  set (s1 := Z.max (d + eP - 53) (-1074) - eP).
  destruct (shr_exact_spec (Zpos p) eP s1 ltac:(lia)) as (mrs1 & E1 & HQ & Hr).
  rewrite E1.
  set (S1 := Z.max 0 s1) in *.
  assert (HS1 : 0 <= S1) by (unfold S1; lia).
  assert (He' : eP + S1 <= 0) by (unfold S1, s1; lia).
  pose proof (round_nearest_even_bounds mrs1) as [HR0 HR1].
  set (R := round_nearest_even (shr_m mrs1) (loc_of_shr_record mrs1)) in *.
  assert (H2S1 : 0 < 2 ^ S1) by (apply Z.pow_pos_nonneg; lia).
  assert (HQ0 : 0 <= shr_m mrs1) by (rewrite HQ; apply Z.div_pos; lia).
  assert (HQle : shr_m mrs1 * 2 ^ S1 <= Zpos p).
  { rewrite HQ, Z.mul_comm. apply Z.mul_div_le. exact H2S1. }
  assert (F1 : R * 2 ^ S1 < B).
  { destruct (shr_r mrs1) eqn:Hround.
    - destruct (Hr eq_refl) as [Hs1 Hodd].
      assert (ES1 : S1 = s1) by (unfold S1; lia).
      set (T := 2 ^ (s1 - 1)) in *.
      assert (HT : 0 < T) by (apply Z.pow_pos_nonneg; lia).
      assert (E2T : 2 ^ S1 = 2 * T).
      { rewrite ES1. unfold T. replace s1 with (Z.succ (s1 - 1)) at 1 by lia.
        rewrite Z.pow_succ_r by lia. reflexivity. }
      assert (HQ' : Zpos p / T = 2 * shr_m mrs1 + 1).
      { rewrite (Zeven.Zodd_div2 (Zpos p / T)) by (apply Zeven.Zodd_bool_iff; exact Hodd).
        rewrite Z.div2_div. f_equal. f_equal. rewrite HQ, E2T, (Z.mul_comm 2 T).
        rewrite <- Zdiv.Zdiv_Zdiv by lia. reflexivity. }
      assert (HPT : (2 * shr_m mrs1 + 1) * T <= Zpos p).
      { rewrite <- HQ', Z.mul_comm. apply Z.mul_div_le. exact HT. }
      assert (HTB : Zpos p + T < B).
      { destruct (Z.max_spec (d + eP - 53) (-1074)) as [[Hlt Hmax]|[Hge Hmax]].
        - (* the subnormal range *)
          assert (Es : s1 - 1 = -1075 - eP) by (unfold s1; lia).
          assert (E : 2 ^ (- eP) = 2 ^ 1075 * T).
          { unfold T. rewrite Es. rewrite <- Z.pow_add_r by lia. f_equal. lia. }
          rewrite E in HB.
          assert (2 ^ 53 * T < 2 ^ 1075 * T).
          { apply Z.mul_lt_mono_pos_r; [exact HT|]. apply Z.pow_lt_mono_r; lia. }
          lia.
        - (* the normal range *)
          assert (Es : s1 - 1 = d - 54) by (unfold s1; lia).
          assert (E : 2 ^ (d - 1) = 2 ^ 53 * T).
          { unfold T. rewrite Es. rewrite <- Z.pow_add_r by lia. f_equal. lia. }
          rewrite E in Hd. lia. }
      rewrite E2T. nia.
    - assert (R = shr_m mrs1) by lia. nia. }
  assert (HR : 0 <= R) by lia.
  assert (HdR : Zdigits2 R + (eP + S1) - 53 <= 0).
  { destruct R as [|q|q]; cbn [Zdigits2]; [lia| |lia].
    pose proof (digits2_pos_bounds q) as Hq.
    assert (Zpos (digits2_pos q) - 1 + S1 < 53 - eP); [|lia].
    apply pow2_lt_exp; [lia|]. rewrite Z.pow_add_r by lia.
    eapply Z.le_lt_trans; [|exact (Z.lt_trans _ _ _ F1 HB53)].
    apply Z.mul_le_mono_nonneg_r; lia. }
  cbn iota beta.
  set (s2 := Z.max (Zdigits2 R + (eP + S1) - 53) (-1074) - (eP + S1)).
  destruct (shr_exact_spec R (eP + S1) s2 HR) as (mrs2 & E2 & HQ2 & _).
  rewrite E2. cbn iota beta.
  set (S2 := Z.max 0 s2) in *.
  assert (HS2 : 0 <= S2) by (unfold S2; lia).
  assert (He'' : eP + S1 + S2 <= 0) by (unfold S2, s2; lia).
  assert (H2S2 : 0 < 2 ^ S2) by (apply Z.pow_pos_nonneg; lia).
  assert (HQ2le : shr_m mrs2 * 2 ^ S2 <= R).
  { rewrite HQ2, Z.mul_comm. apply Z.mul_div_le. exact H2S2. }
  assert (HQ20 : 0 <= shr_m mrs2) by (rewrite HQ2; apply Z.div_pos; lia).
  destruct (shr_m mrs2) as [|m|m] eqn:Hm; [| |lia].
  - cbn [Double.floor]. split; [lia|]. left. reflexivity.
  - destruct (Z.leb_spec (eP + S1 + S2) (1024 - 53)) as [_|Hbig]; [|lia].
    split; [|right; eauto].
    cbn [Double.floor cond_Zopp].
    rewrite Z.shiftl_div_pow2 by lia.
    set (c := 2 ^ (- (eP + S1 + S2))).
    assert (Hc : 0 < c) by (apply Z.pow_pos_nonneg; lia).
    split; [apply Z.div_pos; lia|].
    apply Z.div_lt_upper_bound; [exact Hc|].
    assert (E : 2 ^ (- eP) = 2 ^ S1 * 2 ^ S2 * c).
    { unfold c. rewrite <- !Z.pow_add_r by lia. f_equal. lia. }
    unfold B in F1. rewrite E in F1.
    assert (Zpos m * (2 ^ S1 * 2 ^ S2) < c * n * (2 ^ S1 * 2 ^ S2)) by nia.
    apply Z.mul_lt_mono_pos_r in H; [exact H|]. apply Z.mul_pos_pos; lia.
Qed.

Lemma of_bits_in_unit_interval b :
  0 <= b < Double.one_bits -> Double.in_unit_interval (Double.of_bits b).
Proof.
  unfold Double.one_bits. intros Hb. unfold Double.of_bits.
  assert (HE : 0 <= b / 2 ^ 52 < 1023).
  { split; [apply Z.div_pos; lia|]. apply Z.div_lt_upper_bound; lia. }
  pose proof (Z.mod_pos_bound b (2 ^ 52) ltac:(lia)) as HF.
  cbv zeta.
  destruct (Z.eqb_spec (b / 2 ^ 52) 0) as [_|HE0].
  - destruct (Z.eqb_spec (b mod 2 ^ 52) 0) as [_|HF0]; cbn; [exact I|].
    split; [|lia]. rewrite Z2Pos.id by lia. lia.
  - cbn. split; [|lia]. rewrite Z2Pos.id by lia. lia.
Qed.

Lemma iter_xO q d : Zpos (Pos.iter xO q d) = Zpos q * 2 ^ Zpos d.
Proof.
  induction d as [|d IH] using Pos.peano_ind.
  - cbn [Pos.iter]. lia.
  - rewrite Pos.iter_succ, Pos2Z.inj_succ, Z.pow_succ_r by lia.
    rewrite Pos2Z.inj_xO, IH. lia.
Qed.

Lemma digits2_pos_unique q d :
  2 ^ (d - 1) <= Zpos q < 2 ^ d -> 1 <= d -> Zpos (digits2_pos q) = d.
Proof.
  intros Hq Hd. pose proof (digits2_pos_bounds q) as Hq'.
  assert (Zpos (digits2_pos q) - 1 < d) by (apply pow2_lt_exp; lia).
  assert (d - 1 < Zpos (digits2_pos q)) by (apply pow2_lt_exp; lia).
  lia.
Qed.

(** The double of an integer in [1, 2^53) is that integer exactly. *)
Lemma of_Z_exact n :
  1 <= n < 2 ^ 53 ->
  exists m k, Double.of_Z n = S754_finite false m (- k) /\ 0 <= k /\ Zpos m = n * 2 ^ k.
Proof.
  intros Hn. destruct n as [|q|q]; try lia.
  unfold Double.of_Z, binary_normalize, binary_round.
  pose proof (digits2_pos_bounds q) as Hq.
  set (d := Zpos (digits2_pos q)) in *.
  assert (Hd1 : 1 <= d) by (unfold d; lia).
  assert (Hd53 : d <= 53).
  { assert (d - 1 < 53); [|lia]. apply pow2_lt_exp; lia. }
  unfold fexp, emin, Double.prec, Double.emax. change (3 - 1024 - 53) with (-1074).
  rewrite Z.add_0_r, Z.max_l by lia.
  assert (Haligned : exists mz, shl_align q 0 (d - 53) = (mz, d - 53)
                                /\ Zpos mz = Zpos q * 2 ^ (53 - d)).
  { unfold shl_align. rewrite Z.sub_0_r.
    destruct (d - 53) as [|dd|dd] eqn:Hdd; try lia.
    - exists q. split; [reflexivity|]. replace (53 - d) with 0 by lia. lia.
    - eexists. split; [reflexivity|]. rewrite iter_xO. f_equal. f_equal. lia. }
  destruct Haligned as (mz & -> & Hmz).
  assert (Hdz : Zpos (digits2_pos mz) = 53).
  { apply digits2_pos_unique; [|lia]. rewrite Hmz.
    assert (E : 2 ^ 53 = 2 ^ d * 2 ^ (53 - d))
      by (rewrite <- Z.pow_add_r by lia; f_equal; lia).
    assert (E' : 2 ^ (53 - 1) = 2 ^ (d - 1) * 2 ^ (53 - d))
      by (rewrite <- Z.pow_add_r by lia; f_equal; lia).
    rewrite E, E'. assert (0 < 2 ^ (53 - d)) by (apply Z.pow_pos_nonneg; lia).
    split; [apply Z.mul_le_mono_nonneg_r; lia|apply Z.mul_lt_mono_pos_r; lia]. }
  unfold binary_round_aux, shr_fexp. cbn [shr_record_of_loc Zdigits2].
  rewrite Hdz. unfold fexp, emin. change (3 - 1024 - 53) with (-1074).
  replace (Z.max (53 + (d - 53) - 53) (-1074) - (d - 53)) with 0 by lia.
  cbn [shr loc_of_shr_record shr_m round_nearest_even shr_record_of_loc Zdigits2].
  rewrite Hdz.
  replace (Z.max (53 + (d - 53) - 53) (-1074) - (d - 53)) with 0 by lia.
  cbn [shr shr_m].
  destruct (Z.leb_spec (d - 53) (1024 - 53)) as [_|?]; [|lia].
  exists mz, (53 - d). split; [f_equal; lia|]. split; [lia|exact Hmz].
Qed.

(** [Math.floor(x * n)] for a double [x] of [0, 1) and an integer [n] of
    [1, 2^53) is one of 0, ..., n - 1: the product, rounded to the
    nearest double, stays below [n]. *)
Lemma Math_floor_times_bounds x n :
  Double.in_unit_interval x -> 1 <= n < 2 ^ 53 -> 0 <= CommonUtils.Math_floor_times x n < n.
Proof.
  intros Hx Hn. unfold CommonUtils.Math_floor_times.
  destruct (of_Z_exact n Hn) as (my & k & -> & Hk & Hmy).
  destruct x as [[|]|[|]| |[|] m e]; try contradiction; cbn [Double.mul SFmul xorb].
  - cbn [Double.floor]. lia.
  - cbn [Double.in_unit_interval] in Hx. destruct Hx as [Hm He].
    apply binary_round_aux_below; [lia|exact Hn|].
    rewrite Pos2Z.inj_mul, Hmy.
    replace (- (e + - k)) with (k + - e) by lia. rewrite Z.pow_add_r by lia.
    assert (2 ^ 53 <= 2 ^ (- e)) by (apply Z.pow_le_mono_r; lia).
    assert (0 < 2 ^ k) by (apply Z.pow_pos_nonneg; lia).
    assert (0 < n * 2 ^ k) by nia.
    assert (2 ^ 53 * Zpos m <= (2 ^ 53 - 1) * 2 ^ (- e)) by lia.
    replace (2 ^ 53 * (Zpos m * (n * 2 ^ k))) with ((2 ^ 53 * Zpos m) * (n * 2 ^ k)) by ring.
    replace ((2 ^ 53 - 1) * (n * (2 ^ k * 2 ^ (- e))))
      with (((2 ^ 53 - 1) * 2 ^ (- e)) * (n * 2 ^ k)) by ring.
    apply Z.mul_le_mono_nonneg_r; lia.
Qed.

(** That product is never infinite nor a NaN, so [Double.floor] is
    always taken of a finite number. *)
Lemma draw_times_finite x n :
  Double.in_unit_interval x -> 1 <= n < 2 ^ 53 ->
  Double.mul x (Double.of_Z n) = S754_zero false
  \/ exists m e, Double.mul x (Double.of_Z n) = S754_finite false m e.
Proof.
  intros Hx Hn.
  destruct (of_Z_exact n Hn) as (my & k & -> & Hk & Hmy).
  destruct x as [[|]|[|]| |[|] m e]; try contradiction; cbn [Double.mul SFmul xorb].
  - left. reflexivity.
  - cbn [Double.in_unit_interval] in Hx. destruct Hx as [Hm He].
    apply (binary_round_aux_below (m * my) (e + - k) n); [lia|exact Hn|].
    rewrite Pos2Z.inj_mul, Hmy.
    replace (- (e + - k)) with (k + - e) by lia. rewrite Z.pow_add_r by lia.
    assert (2 ^ 53 <= 2 ^ (- e)) by (apply Z.pow_le_mono_r; lia).
    assert (0 < 2 ^ k) by (apply Z.pow_pos_nonneg; lia).
    assert (0 < n * 2 ^ k) by nia.
    assert (2 ^ 53 * Zpos m <= (2 ^ 53 - 1) * 2 ^ (- e)) by lia.
    replace (2 ^ 53 * (Zpos m * (n * 2 ^ k))) with ((2 ^ 53 * Zpos m) * (n * 2 ^ k)) by ring.
    replace ((2 ^ 53 - 1) * (n * (2 ^ k * 2 ^ (- e))))
      with (((2 ^ 53 - 1) * 2 ^ (- e)) * (n * 2 ^ k)) by ring.
    apply Z.mul_le_mono_nonneg_r; lia.
Qed.

End DoubleLemmas.

Lemma draw_in_range a : Double.in_unit_interval (CommonUtils.random_of a).
Proof.
  unfold CommonUtils.random_of. apply of_bits_in_unit_interval.
  apply Z.mod_pos_bound. reflexivity.
Qed.

Lemma draws_in_range evs : Forall Double.in_unit_interval (draws evs).
Proof.
  induction evs as [|[c a] evs IH]; simpl; [constructor|].
  unfold draws in *. simpl. destruct c; simpl; try exact IH.
  constructor; [apply draw_in_range | exact IH].
Qed.

Lemma draws_cons_random a evs :
  draws ((Math_random, a) :: evs) = CommonUtils.random_of a :: draws evs.
Proof. reflexivity. Qed.

Lemma draws_app evs1 evs2 : draws (evs1 ++ evs2) = draws evs1 ++ draws evs2.
Proof. unfold draws. apply omap_app. Qed.

(** The loop of [generateRandomNumber]. *)
Lemma sum_loop env n : forall w acc, exists evs,
  for_times n
    (fun result : Z =>
       bind CommonUtils.Math_random_draw
            (fun r => ret (result + CommonUtils.Math_floor_times r 10)))
    acc env w
  = (add_events evs w,
     Ok (acc + sumZ (map (fun r => CommonUtils.Math_floor_times r 10) (draws evs))))
  /\ length (draws evs) = n.
Proof.
  induction n as [|n IH]; intros w acc.
  - exists []. simpl. rewrite add_events_nil, Z.add_0_r. auto.
  - simpl. unfold bind at 1. unfold CommonUtils.Math_random_draw at 1.
    cbn [bind query ret].
    set (a := env (clock w) Math_random).
    destruct (IH (record_event Math_random a w)
                 (acc + CommonUtils.Math_floor_times (CommonUtils.random_of a) 10))
      as (evs & Hrun & Hlen).
    exists ((Math_random, a) :: evs). rewrite Hrun, add_events_record.
    split.
    + f_equal. f_equal. rewrite draws_cons_random. simpl. lia.
    + rewrite draws_cons_random. simpl. lia.
Qed.

Lemma digitsFrom_length fuel : forall n acc (k : nat),
  (1 <= k)%nat -> 0 <= n < 10 ^ Z.of_nat k ->
  (String.length (JS.digitsFrom fuel n acc) <= k + String.length acc)%nat.
Proof.
  induction fuel as [|fuel IH]; intros n acc k Hk Hn; simpl; [lia|].
  destruct (Z.ltb_spec n 10) as [Hlt|Hge]; simpl; [lia|].
  destruct k as [|k]; [lia|].
  destruct k as [|k].
  { simpl in Hn. lia. }
  specialize (IH (n / 10) (String (JS.digitChar (n mod 10)) acc) (S k)).
  simpl String.length in IH.
  assert (0 <= n / 10 < 10 ^ Z.of_nat (S k)).
  { split; [apply Z.div_pos; lia|].
    apply Z.div_lt_upper_bound; [lia|].
    replace (Z.of_nat (S (S k))) with (Z.succ (Z.of_nat (S k))) in Hn by lia.
    rewrite Z.pow_succ_r in Hn by lia. lia. }
  specialize (IH ltac:(lia) H). lia.
Qed.

Lemma Number_toString_length n (k : nat) :
  (1 <= k)%nat -> 0 <= n < 10 ^ Z.of_nat k ->
  (String.length (JS.Number_toString n) <= k)%nat.
Proof.
  intros Hk Hn. unfold JS.Number_toString.
  destruct (Z.ltb_spec n 0); [lia|].
  pose proof (digitsFrom_length (S (Z.to_nat (Z.log2 n))) n "" k Hk Hn) as H'.
  change (String.length "") with 0%nat in H'. rewrite Nat.add_0_r in H'. exact H'.
Qed.

Lemma nine_times_lt_pow (k : nat) : (2 <= k)%nat -> 9 * (Z.of_nat k + 1) < 10 ^ Z.of_nat k.
Proof.
  induction k as [|k IH]; [lia|]. intros Hk.
  destruct (Nat.eq_dec k 1%nat) as [->|Hne]; [vm_compute; reflexivity|].
  replace (Z.of_nat (S k)) with (Z.succ (Z.of_nat k)) by lia.
  rewrite Z.pow_succ_r by lia.
  specialize (IH ltac:(lia)). lia.
Qed.

Lemma single_digit_toString d :
  0 <= d < 10 ->
  exists c, JS.Number_toString d = String c "" /\ is_digit_char c = true.
Proof.
  intros Hd.
  assert (d = 0 \/ d = 1 \/ d = 2 \/ d = 3 \/ d = 4 \/ d = 5 \/ d = 6 \/ d = 7
          \/ d = 8 \/ d = 9) as Hcases by lia.
  repeat (destruct Hcases as [->|Hcases]; [eexists; split; vm_compute; reflexivity|]).
  subst. eexists; split; vm_compute; reflexivity.
Qed.

Section StringLemmas.

Lemma append_cons c s t : String c s +:+ t = String c (s +:+ t).
Proof. reflexivity. Qed.

Lemma append_nil_l s : "" +:+ s = s.
Proof. reflexivity. Qed.

Lemma append_assoc s t u : (s +:+ t) +:+ u = s +:+ (t +:+ u).
Proof. induction s as [|c s IH]; [reflexivity|]. rewrite !append_cons. by rewrite IH. Qed.

Lemma length_append s t :
  String.length (s +:+ t) = (String.length s + String.length t)%nat.
Proof.
  induction s as [|c s IH]; [reflexivity|].
  rewrite append_cons. simpl. by rewrite IH.
Qed.

Lemma all_digits_append s t :
  all_digits (s +:+ t) = (all_digits s && all_digits t)%bool.
Proof.
  induction s as [|c s IH]; [reflexivity|].
  rewrite append_cons. simpl. rewrite IH. by rewrite andb_assoc.
Qed.

End StringLemmas.

Lemma add_events_app evs1 evs2 w :
  add_events evs2 (add_events evs1 w) = add_events (evs1 ++ evs2) w.
Proof.
  unfold add_events; simpl.
  rewrite <- app_assoc, length_app. f_equal. lia.
Qed.

(** Forget where the answers of the outside world came from. *)
Ltac abstract_answers env :=
  repeat match goal with
         | |- context [env ?k ?c] => generalize (env k c)
         end.

Lemma draws_cons (e : Event) evs :
  draws (e :: evs) =
  match draw_of e with Some r => r :: draws evs | None => draws evs end.
Proof. reflexivity. Qed.

(** The loop of [generateRandomNumeric]. *)
Lemma numeric_loop env n : forall w acc, exists evs s,
  for_times n
    (fun result : string =>
       bind CommonUtils.Math_random_draw
            (fun r => ret (result +:+ JS.Number_toString (CommonUtils.Math_floor_times r 10))))
    acc env w
  = (add_events evs w, Ok (acc +:+ s))
  /\ String.length s = n /\ all_digits s = true /\ length (draws evs) = n.
Proof.
  induction n as [|n IH]; intros w acc.
  - exists [], "". simpl. rewrite add_events_nil.
    replace (acc +:+ "") with acc; [auto|].
    induction acc as [|c acc IHacc]; [reflexivity|]. rewrite append_cons. by rewrite <- IHacc.
  - simpl. unfold bind at 1. unfold CommonUtils.Math_random_draw at 1.
    cbn [bind query ret].
    set (a := env (clock w) Math_random).
    destruct (single_digit_toString
                (CommonUtils.Math_floor_times (CommonUtils.random_of a) 10))
      as (c & Hc & Hdig).
    { apply Math_floor_times_bounds; [apply draw_in_range | lia]. }
    rewrite Hc.
    destruct (IH (record_event Math_random a w) (acc +:+ String c ""))
      as (evs & s & Hrun & Hlen & Hall & Hdraws).
    exists ((Math_random, a) :: evs), (String c s).
    rewrite Hrun, add_events_record, append_assoc, append_cons, append_nil_l.
    repeat split.
    + simpl. by rewrite Hlen.
    + simpl. by rewrite Hdig, Hall.
    + rewrite draws_cons_random. simpl. by rewrite Hdraws.
Qed.

Lemma sumZ_digits_bounds (ds : list Z) :
  Forall (fun d => 0 <= d <= 9) ds -> 0 <= sumZ ds <= 9 * Z.of_nat (length ds).
Proof.
  induction 1 as [|d ds Hd _ IH]; simpl; [lia|].
  unfold sumZ in *. simpl. lia.
Qed.

(** C8. [generateRandomNumber(count)], for [count >= 1] and whatever the
    draws of [Math.random()] are (any doubles of [0, 1)), returns the
    decimal string of the arithmetic sum of [count] digits, each the
    [Math.floor] of the binary64 product of a draw and 9 (plus 1) or 10,
    the first in 1..9 and the others in 0..9: a value between 1 and
    [9 * count], whose string is shorter than [count] characters as soon
    as [count >= 3]; [generateRandomNumeric(length)], for [length >= 1],
    returns [length] digit characters. *)
Theorem generateRandomNumber_sums_generateRandomNumeric_concatenates
    (env : Env) (w : World) (n : Z) :
  1 <= n ->
  (exists w',
     let ds := digits_of_draws (draws (added w w')) in
     let s := JS.Number_toString (sumZ ds) in
     CommonUtils.generateRandomNumber n env w = (w', Ok s)
     /\ Z.of_nat (length ds) = n
     /\ (exists d0 rest, ds = d0 :: rest /\ 1 <= d0 <= 9
                         /\ Forall (fun d => 0 <= d <= 9) rest)
     /\ 1 <= sumZ ds <= 9 * n
     /\ (3 <= n -> Z.of_nat (String.length s) < n))
  /\ (exists w' s,
        CommonUtils.generateRandomNumeric n env w = (w', Ok s)
        /\ Z.of_nat (String.length s) = n
        /\ all_digits s = true
        /\ Z.of_nat (length (draws (added w w'))) = n).
Proof.
  intros Hn. split.
  - unfold CommonUtils.generateRandomNumber.
    unfold Logger.debug, AllureReporter.addStep, Logger.info.
    cbn [bind query ret JS.str_truthy record_event clock trace].
    destruct (Z.leb_spec n 0) as [?|_]; [lia|].
    unfold bind at 1. unfold CommonUtils.Math_random_draw at 1.
    cbn [bind query ret record_event clock trace].
    abstract_answers env. intros a3 a2 a1 a0.
    rewrite !record_event_add, !add_events_app. cbn [app].
    unfold bind at 1.
    match goal with |- context [for_times ?k ?body ?acc env ?w0] =>
      destruct (sum_loop env k w0 acc) as (evs & Hrun & Hlen) end.
    rewrite Hrun. cbn [bind query ret record_event clock trace].
    abstract_answers env. intros a4.
    rewrite !record_event_add, !add_events_app. cbn [app].
    match goal with |- context [ret _ env ?w1] => exists w1 end.
    cbv zeta. rewrite added_add_events.
    rewrite !draws_cons, draws_app, draws_cons. cbn [draw_of].
    change (draws []) with (@nil Double.t). rewrite app_nil_r.
    cbn [digits_of_draws].
    set (d0 := CommonUtils.Math_floor_times (CommonUtils.random_of a0) 9 + 1).
    set (rest := map (fun r => CommonUtils.Math_floor_times r 10) (draws evs)).
    assert (Hd0 : 1 <= d0 <= 9).
    { pose proof (Math_floor_times_bounds (CommonUtils.random_of a0) 9
                    (draw_in_range a0) ltac:(lia)). unfold d0. lia. }
    assert (Hrest : Forall (fun d => 0 <= d <= 9) rest).
    { unfold rest. apply Forall_map.
      eapply Forall_impl; [apply draws_in_range|].
      intros r Hr. simpl.
      pose proof (Math_floor_times_bounds r 10 Hr ltac:(lia)). lia. }
    assert (Hlenrest : length rest = Z.to_nat (n - 1)).
    { unfold rest. by rewrite length_map. }
    pose proof (sumZ_digits_bounds rest Hrest) as Hsum.
    rewrite Hlenrest in Hsum.
    assert (Hs : sumZ (d0 :: rest) = d0 + sumZ rest) by reflexivity.
    split; [reflexivity|].
    split; [simpl; lia|].
    split; [eauto|].
    split; [lia|].
    intros H3.
    pose proof (Number_toString_length (sumZ (d0 :: rest)) (Z.to_nat (n - 1))
                  ltac:(lia)) as Hlen'.
    pose proof (nine_times_lt_pow (Z.to_nat (n - 1)) ltac:(lia)) as Hpow.
    specialize (Hlen' ltac:(lia)). lia.
  - unfold CommonUtils.generateRandomNumeric.
    unfold Logger.debug, AllureReporter.addStep, Logger.info.
    cbn [bind query ret JS.str_truthy record_event clock trace].
    destruct (Z.leb_spec n 0) as [?|_]; [lia|].
    abstract_answers env. intros a2 a1 a0.
    rewrite !record_event_add, !add_events_app. cbn [app].
    unfold bind at 1.
    match goal with |- context [for_times ?k ?body ?acc env ?w0] =>
      destruct (numeric_loop env k w0 acc) as (evs & s & Hrun & Hlen & Hall & Hdraws) end.
    rewrite Hrun. cbn [bind query ret record_event clock trace].
    abstract_answers env. intros a3.
    rewrite !record_event_add, !add_events_app. cbn [app].
    match goal with |- context [ret ?r env ?w1] => exists w1, r end.
    rewrite added_add_events.
    rewrite !draws_cons, draws_app, draws_cons. cbn [draw_of].
    change (draws []) with (@nil Double.t). rewrite app_nil_r.
    rewrite append_nil_l.
    split; [reflexivity|]. repeat split; [lia | assumption | lia].
Qed.

Lemma generateRandomNumber_sums_generateRandomNumeric_concatenates_witness :
  (1 <= 3) /\
  ((exists w',
     let ds := digits_of_draws (draws (added emptyWorld w')) in
     let s := JS.Number_toString (sumZ ds) in
     CommonUtils.generateRandomNumber 3 (env_const_draw 0) emptyWorld = (w', Ok s)
     /\ Z.of_nat (length ds) = 3
     /\ (exists d0 rest, ds = d0 :: rest /\ 1 <= d0 <= 9
                         /\ Forall (fun d => 0 <= d <= 9) rest)
     /\ 1 <= sumZ ds <= 9 * 3
     /\ (3 <= 3 -> Z.of_nat (String.length s) < 3))
  /\ (exists w' s,
        CommonUtils.generateRandomNumeric 3 (env_const_draw 0) emptyWorld = (w', Ok s)
        /\ Z.of_nat (String.length s) = 3
        /\ all_digits s = true
        /\ Z.of_nat (length (draws (added emptyWorld w'))) = 3)).
Proof.
  split; [lia|].
  apply (generateRandomNumber_sums_generateRandomNumeric_concatenates
           (env_const_draw 0) emptyWorld 3).
  lia.
Defined.


(** Unfolding of the monad and of the logger and reporter wrappers. *)
Ltac run :=
  cbv beta iota zeta delta
    [Logger.debug Logger.info Logger.warn Logger.error Logger.pass Logger.fail
     AllureReporter.addStep AllureReporter.addAttachment
     bind query call ret throw try_catch get_world put_world
     set_Logger_instance set_currentTest set_record new_object
     JS.str_truthy] in *;
  cbn [record_event clock trace records currentTest Logger_instance allocated fst snd] in *.

Lemma js_in_false_get key obj : js_in key obj = false -> js_get obj key = v_undefined.
Proof.
  unfold js_in, js_get.
  destruct (own obj !! key); [discriminate|].
  destruct (inherited obj !! key); [discriminate|reflexivity].
Qed.

(** C9. [getTestData(key)] throws [Error('Test data not found for key: <key>')]
    exactly when [testDataJson[key]] is falsy, that is when the key is
    bound to a falsy value or is not in the object; for a key that is in
    the object with a falsy value [hasTestDataKey(key)] returns [true]
    while [getTestData(key)] throws; for a key with a truthy value
    [getTestData] returns that value unchanged. *)
Theorem getTestData_throws_iff_falsy_or_missing
    (env : Env) (w : World) (testDataJson : JsObject) (key : string) :
  let notFound := JS.new_Error ("Test data not found for key: " +:+ key) in
  (snd (TestDataUtils.getTestData testDataJson key env w) = Thrown notFound
   <-> (js_in key testDataJson = true /\ truthy (js_get testDataJson key) = false)
       \/ js_in key testDataJson = false)
  /\ (js_in key testDataJson = true ->
      truthy (js_get testDataJson key) = false ->
      snd (TestDataUtils.hasTestDataKey testDataJson key env w) = Ok true
      /\ snd (TestDataUtils.getTestData testDataJson key env w) = Thrown notFound)
  /\ (truthy (js_get testDataJson key) = true ->
      snd (TestDataUtils.getTestData testDataJson key env w)
      = Ok (js_get testDataJson key)).
Proof.
  intros notFound.
  assert (Hfalsy : truthy (js_get testDataJson key) = false ->
                   snd (TestDataUtils.getTestData testDataJson key env w) = Thrown notFound).
  { intros Hf. unfold TestDataUtils.getTestData. run. rewrite Hf. reflexivity. }
  assert (Htruthy : truthy (js_get testDataJson key) = true ->
                    snd (TestDataUtils.getTestData testDataJson key env w)
                    = Ok (js_get testDataJson key)).
  { intros Ht. unfold TestDataUtils.getTestData. run. rewrite Ht. reflexivity. }
  split; [|split].
  - split.
    + intros Hthrown.
      destruct (truthy (js_get testDataJson key)) eqn:Ht.
      * rewrite (Htruthy eq_refl) in Hthrown. discriminate.
      * destruct (js_in key testDataJson); auto.
    + intros [[_ Hf]|Hmissing]; apply Hfalsy; [exact Hf|].
      rewrite (js_in_false_get _ _ Hmissing). reflexivity.
  - intros Hin Hf. split; [|apply Hfalsy, Hf].
    unfold TestDataUtils.hasTestDataKey. run. rewrite Hin. reflexivity.
  - exact Htruthy.
Qed.

Lemma getTestData_throws_iff_falsy_or_missing_witness :
  snd (TestDataUtils.hasTestDataKey sampleTestData "retries" env_quiet emptyWorld) = Ok true
  /\ snd (TestDataUtils.getTestData sampleTestData "retries" env_quiet emptyWorld)
     = Thrown (JS.new_Error "Test data not found for key: retries").
Proof.
  apply (getTestData_throws_iff_falsy_or_missing env_quiet emptyWorld sampleTestData "retries");
    vm_compute; reflexivity.
Defined.


Lemma bind_run {A B} (m : M A) (k : A -> M B) env w :
  bind m k env w =
  match m env w with
  | (w', Ok a) => k a env w'
  | (w', Thrown e) => (w', Thrown e)
  end.
Proof. reflexivity. Qed.

Lemma getInstance_stored env w l :
  Logger_instance w = Some l -> Logger.getInstance env w = (w, Ok l).
Proof.
  intros H. unfold Logger.getInstance. rewrite bind_run. cbv [get_world].
  rewrite H. reflexivity.
Qed.

Lemma getInstance_times_stored env n : forall w l,
  Logger_instance w = Some l ->
  getInstance_times n env w = (w, Ok (replicate n l)).
Proof.
  induction n as [|n IH]; intros w l H; [reflexivity|].
  cbn [getInstance_times]. rewrite bind_run, (getInstance_stored env w l H).
  rewrite bind_run, (IH w l H). reflexivity.
Qed.

Lemma getInstance_first env w :
  Logger_instance w = None ->
  forall w1 l, Logger.getInstance env w = (w1, Ok l) ->
    l = allocated w /\ Logger_instance w1 = Some l /\ allocated w1 = S (allocated w)
    /\ records w1 = records w /\ currentTest w1 = currentTest w.
Proof.
  intros Hnone w1 l. unfold Logger.getInstance. rewrite bind_run. cbv [get_world].
  rewrite Hnone.
  unfold Logger.new, Logger.createLogger, Logger.ensureLogsDirectory. run.
  destruct (as_boolean (env (clock w) (fs_existsSync "logs"))); cbn [negb]; run.
  - intros Heq. inversion Heq; subst. cbn. auto.
  - destruct (thrown (env (S (clock w)) (fs_mkdirSync "logs"))); [discriminate|].
    intros Heq. inversion Heq; subst. cbn. auto.
Qed.

Lemma getInstance_creates env w :
  Logger_instance w = None ->
  as_boolean (env (clock w) (fs_existsSync "logs")) = true
  \/ thrown (env (S (clock w)) (fs_mkdirSync "logs")) = None ->
  exists w1, Logger.getInstance env w = (w1, Ok (allocated w)).
Proof.
  intros Hnone Hfs. unfold Logger.getInstance. rewrite bind_run. cbv [get_world].
  rewrite Hnone.
  unfold Logger.new, Logger.createLogger, Logger.ensureLogsDirectory. run.
  destruct (as_boolean (env (clock w) (fs_existsSync "logs"))); cbn [negb]; run; [eauto|].
  destruct Hfs as [?|Hfs]; [discriminate|]. rewrite Hfs. eauto.
Qed.

(** C6. [Logger.getInstance()] is idempotent: once an instance is
    stored, every call returns it and changes nothing; the first call,
    made while none is stored, creates a fresh [Logger], stores it and
    returns it (it does so whenever creating the logs directory does not
    throw), and every later call, whatever the outside world does,
    returns that same instance without allocating or storing another. *)
Theorem getInstance_lazy_singleton (env : Env) (w : World) :
  (forall l, Logger_instance w = Some l -> Logger.getInstance env w = (w, Ok l))
  /\ (Logger_instance w = None ->
      (as_boolean (env (clock w) (fs_existsSync "logs")) = true
         \/ thrown (env (S (clock w)) (fs_mkdirSync "logs")) = None ->
       exists w1, Logger.getInstance env w = (w1, Ok (allocated w)))
      /\ forall w1 l, Logger.getInstance env w = (w1, Ok l) ->
           l = allocated w
           /\ Logger_instance w1 = Some l
           /\ allocated w1 = S (allocated w)
           /\ forall env' n, getInstance_times n env' w1 = (w1, Ok (replicate n l))).
Proof.
  split; [apply getInstance_stored|].
  intros Hnone. split; [apply getInstance_creates, Hnone|].
  intros w1 l Hrun.
  destruct (getInstance_first env w Hnone w1 l Hrun) as (Hl & Hinst & Halloc & _).
  repeat split; try assumption.
  intros env' n. apply getInstance_times_stored, Hinst.
Qed.

Lemma getInstance_lazy_singleton_witness :
  exists w1, Logger.getInstance env_quiet emptyWorld = (w1, Ok 0%nat)
             /\ getInstance_times 3 env_quiet w1 = (w1, Ok [0%nat; 0%nat; 0%nat]).
Proof.
  destruct (getInstance_lazy_singleton env_quiet emptyWorld) as [_ Hfirst].
  destruct (Hfirst eq_refl) as [Hcreates Hlater].
  destruct (Hcreates (or_intror eq_refl)) as [w1 Hrun].
  exists w1. split; [exact Hrun|].
  destruct (Hlater w1 0%nat Hrun) as (_ & _ & _ & Htimes).
  exact (Htimes env_quiet 3%nat).
Defined.


Section ReporterLemmas.

Variable env : Env.

Lemma for_of_app {X} (xs ys : list X) (body : X -> M unit) w :
  for_of (xs ++ ys) body env w = bind (for_of xs body) (fun _ => for_of ys body) env w.
Proof.
  revert w. induction xs as [|x xs IH]; intros w; [reflexivity|].
  cbn [app for_of]. rewrite !bind_run.
  destruct (body x env w) as [w' [[]|e]]; [|reflexivity].
  rewrite IH, bind_run. reflexivity.
Qed.

Lemma perform_all_app cs1 cs2 w w1 :
  perform_all cs1 env w = (w1, Ok tt) ->
  perform_all (cs1 ++ cs2) env w = perform_all cs2 env w1.
Proof.
  intros H. unfold perform_all in *. rewrite for_of_app, bind_run, H. reflexivity.
Qed.

Lemma endTest_closed st err w :
  currentTest w = None -> BaseReporter.endTest st err env w = (w, Ok tt).
Proof.
  intros H. unfold BaseReporter.endTest. rewrite bind_run. cbv [get_world].
  rewrite H. reflexivity.
Qed.

Lemma endTest_open st err w l r :
  currentTest w = Some l -> records w !! l = Some r ->
  exists w',
    BaseReporter.endTest st err env w = (w', Ok tt)
    /\ currentTest w' = None
    /\ records w' = <[l := closed_record r (as_number (env (clock w) Date_now)) st err]>
                      (records w)
    /\ allocated w' = allocated w
    /\ Logger_instance w' = Logger_instance w.
Proof.
  intros Hc Hr. unfold BaseReporter.endTest. rewrite bind_run. cbv [get_world].
  rewrite Hc, Hr. run. eexists. split; [reflexivity|]. cbn. auto.
Qed.

Lemma startTest_opens tid name st w :
  exists w',
    BaseReporter.startTest tid name st env w = (w', Ok tt)
    /\ currentTest w' = Some (allocated w)
    /\ records w' = <[allocated w :=
                        mkTestResult tid name st PASSED
                          (as_number (env (clock w) Date_now)) 0 0 None]> (records w)
    /\ allocated w' = S (allocated w).
Proof.
  unfold BaseReporter.startTest. run. eexists. split; [reflexivity|]. cbn. auto.
Qed.

(** A call other than [startTest] and [endTest] changes neither the
    current record nor any record. *)
Lemma perform_other_keeps c w :
  is_startTest c = false -> is_endTest c = false ->
  exists w',
    perform c env w = (w', Ok tt)
    /\ currentTest w' = currentTest w /\ records w' = records w
    /\ allocated w' = allocated w.
Proof.
  intros Hs He. destruct c as [| |name content type filePath|]; try discriminate.
  - unfold perform, BaseReporter.addAttachment. run.
    destruct filePath as [p|]; [destruct (negb (String.eqb p ""))|]; run;
      eexists; (split; [reflexivity|]); cbn; auto.
  - unfold perform, BaseReporter.getCurrentTest. run.
    eexists. split; [reflexivity|]. auto.
Qed.

Lemma perform_closed_keeps c w :
  is_startTest c = false -> currentTest w = None ->
  exists w',
    perform c env w = (w', Ok tt)
    /\ currentTest w' = None /\ records w' = records w /\ allocated w' = allocated w.
Proof.
  intros Hs Hc. destruct (is_endTest c) eqn:He.
  - destruct c; try discriminate. exists w. cbn [perform].
    rewrite endTest_closed by assumption. auto.
  - destruct (perform_other_keeps c w Hs He) as (w' & Hrun & Hc' & Hr & Ha).
    exists w'. rewrite Hc' , Hc. auto.
Qed.

Lemma perform_all_closed_keeps cs : forall w,
  forallb (fun c => negb (is_startTest c)) cs = true -> currentTest w = None ->
  exists w',
    perform_all cs env w = (w', Ok tt)
    /\ currentTest w' = None /\ records w' = records w /\ allocated w' = allocated w.
Proof.
  induction cs as [|c cs IH]; intros w Hcs Hc.
  - exists w. auto.
  - cbn [forallb] in Hcs. apply andb_true_iff in Hcs as [Hc1 Hcs].
    apply negb_true_iff in Hc1.
    destruct (perform_closed_keeps c w Hc1 Hc) as (w1 & Hrun1 & Hc1' & Hr1 & Ha1).
    destruct (IH w1 Hcs Hc1') as (w' & Hrun & Hc' & Hr & Ha).
    exists w'. unfold perform_all in *. cbn [for_of]. rewrite bind_run, Hrun1, Hrun.
    repeat split; congruence.
Qed.

Lemma perform_all_open_keeps cs : forall w,
  forallb (fun c => negb (is_startTest c) && negb (is_endTest c))%bool cs = true ->
  exists w',
    perform_all cs env w = (w', Ok tt)
    /\ currentTest w' = currentTest w /\ records w' = records w
    /\ allocated w' = allocated w.
Proof.
  induction cs as [|c cs IH]; intros w Hcs.
  - exists w. auto.
  - cbn [forallb] in Hcs. apply andb_true_iff in Hcs as [Hc1 Hcs].
    apply andb_true_iff in Hc1 as [Hs He].
    apply negb_true_iff in Hs, He.
    destruct (perform_other_keeps c w Hs He) as (w1 & Hrun1 & Hc1' & Hr1 & Ha1).
    destruct (IH w1 Hcs) as (w' & Hrun & Hc' & Hr & Ha).
    exists w'. unfold perform_all in *. cbn [for_of]. rewrite bind_run, Hrun1, Hrun.
    repeat split; congruence.
Qed.

End ReporterLemmas.

(** C3. In a sequence of calls on a reporter with exactly one
    [startTest], the record that [startTest] creates gets its terminal
    status exactly once: the first [endTest] sets [endTime], [duration =
    endTime - startTime], the given status and the optional error, then
    drops the record ([getCurrentTest()] is [null]); the calls that
    follow leave the records as they are, and every further [endTest]
    leaves the whole state unchanged. *)
Theorem one_startTest_one_terminal_status
    (env : Env) (w : World) (pre mid post : list ReporterCall)
    (tid name st : string) (status_ : Status) (err : option string) :
  currentTest w = None ->
  forallb (fun c => negb (is_startTest c)) pre = true ->
  forallb (fun c => negb (is_startTest c) && negb (is_endTest c))%bool mid = true ->
  forallb (fun c => negb (is_startTest c)) post = true ->
  exists w2 w3 w4 l r,
    perform_all (pre ++ c_startTest tid name st :: mid) env w = (w2, Ok tt)
    /\ currentTest w2 = Some l /\ records w2 !! l = Some r
    /\ testId r = tid /\ testName r = name /\ suite r = st /\ status r = PASSED
    /\ perform_all (pre ++ c_startTest tid name st :: mid ++ [c_endTest status_ err]) env w
       = (w3, Ok tt)
    /\ currentTest w3 = None
    /\ snd (BaseReporter.getCurrentTest env w3) = Ok None
    /\ records w3 !! l
       = Some (closed_record r (as_number (env (clock w2) Date_now)) status_ err)
    /\ perform_all (pre ++ c_startTest tid name st :: mid ++ c_endTest status_ err :: post)
         env w = (w4, Ok tt)
    /\ currentTest w4 = None /\ records w4 = records w3
    /\ (forall post1 post2 s' e',
          post = post1 ++ c_endTest s' e' :: post2 ->
          exists w',
            perform_all (pre ++ c_startTest tid name st :: mid
                           ++ c_endTest status_ err :: post1) env w = (w', Ok tt)
            /\ BaseReporter.endTest s' e' env w' = (w', Ok tt)).
Proof.
  intros Hc Hpre Hmid Hpost.
  destruct (perform_all_closed_keeps env pre w Hpre Hc) as (w0 & Hrun0 & Hc0 & Hr0 & Ha0).
  destruct (startTest_opens env tid name st w0) as (w1 & Hrun1 & Hc1 & Hr1 & Ha1).
  destruct (perform_all_open_keeps env mid w1 Hmid) as (w2 & Hrun2 & Hc2 & Hr2 & Ha2).
  set (l := allocated w0) in *.
  set (r := mkTestResult tid name st PASSED (as_number (env (clock w0) Date_now)) 0 0 None)
    in *.
  assert (Hl : records w2 !! l = Some r).
  { rewrite Hr2, Hr1. apply lookup_insert_eq. }
  assert (Hcur2 : currentTest w2 = Some l) by congruence.
  destruct (endTest_open env status_ err w2 l r Hcur2 Hl)
    as (w3 & Hrun3 & Hc3 & Hr3 & Ha3 & _).
  destruct (perform_all_closed_keeps env post w3 Hpost Hc3) as (w4 & Hrun4 & Hc4 & Hr4 & Ha4).
  assert (Hpre_start_mid :
            perform_all (pre ++ c_startTest tid name st :: mid) env w = (w2, Ok tt)).
  { rewrite (perform_all_app env pre _ w w0 Hrun0).
    unfold perform_all in *. cbn [for_of perform]. rewrite bind_run, Hrun1. exact Hrun2. }
  assert (Hupto : forall rest,
            perform_all (pre ++ c_startTest tid name st :: mid ++ c_endTest status_ err :: rest)
              env w = perform_all rest env w3).
  { intros rest.
    replace (pre ++ c_startTest tid name st :: mid ++ c_endTest status_ err :: rest)
      with ((pre ++ c_startTest tid name st :: mid) ++ c_endTest status_ err :: rest)
      by (rewrite <- app_assoc; reflexivity).
    rewrite (perform_all_app env _ _ w w2 Hpre_start_mid).
    unfold perform_all. cbn [for_of perform]. rewrite bind_run, Hrun3. reflexivity. }
  exists w2, w3, w4, l, r.
  split; [exact Hpre_start_mid|].
  split; [exact Hcur2|]. split; [exact Hl|].
  do 4 (split; [reflexivity|]).
  split; [rewrite (Hupto []); reflexivity|].
  split; [exact Hc3|].
  split.
  { unfold BaseReporter.getCurrentTest. run. rewrite Hc3. reflexivity. }
  split; [rewrite Hr3; apply lookup_insert_eq|].
  split; [rewrite Hupto; exact Hrun4|].
  split; [exact Hc4|]. split; [exact Hr4|].
  intros post1 post2 s' e' ->.
  rewrite forallb_app in Hpost. apply andb_true_iff in Hpost as [Hpost1 _].
  destruct (perform_all_closed_keeps env post1 w3 Hpost1 Hc3) as (w' & Hrun' & Hc' & _).
  exists w'. rewrite Hupto. split; [exact Hrun'|].
  apply endTest_closed, Hc'.
Qed.

Lemma one_startTest_one_terminal_status_witness :
  exists w3 l r,
    perform_all ([c_endTest BROKEN None]
                   ++ c_startTest "T-1" "login" "auth"
                   :: [c_addAttachment "log" (text "x") "text/plain" None]
                   ++ [c_endTest FAILED (Some "boom")]) env_ticking emptyWorld
    = (w3, Ok tt)
    /\ currentTest w3 = None
    /\ records w3 !! l = Some r
    /\ status r = FAILED /\ error_ r = Some "boom"
    /\ duration r = endTime r - startTime r.
Proof.
  destruct (one_startTest_one_terminal_status env_ticking emptyWorld
              [c_endTest BROKEN None]
              [c_addAttachment "log" (text "x") "text/plain" None]
              [c_endTest SKIPPED None; c_getCurrentTest]
              "T-1" "login" "auth" FAILED (Some "boom")
              eq_refl eq_refl eq_refl eq_refl)
    as (w2 & w3 & w4 & l & r & _ & _ & _ & _ & _ & _ & _ & Hrun & Hcur & _ & Hrec & _).
  exists w3, l, (closed_record r (as_number (env_ticking (clock w2) Date_now)) FAILED
                   (Some "boom")).
  repeat split; assumption || reflexivity.
Defined.

(** C4, as the code has it. While no record is open, [endTest] returns
    at once: it changes nothing and logs nothing. [addStep] and
    [addAttachment] do not look at the current record: they log at info
    and debug level (never a warning) and pass the step or attachment on
    to allure. None of the three throws, and none creates or changes a
    record: [getCurrentTest()] stays [null]. *)
Theorem calls_without_open_record (env : Env) (w : World)
    (st : Status) (err : option string) (stepName : string) (stepDetails : option string)
    (name : string) (content : Content) (type : string) :
  currentTest w = None ->
  BaseReporter.endTest st err env w = (w, Ok tt)
  /\ (exists a1 a2 a3,
        AllureReporter.addStep stepName stepDetails env w
        = (add_events
             ([(winston_log INFO ("ALLURE: Adding step: " +:+ stepName) None, a1);
               (allure_step stepName, a2)]
              ++ (if JS.str_truthy stepDetails
                  then [(winston_log DEBUG (default "" stepDetails) None, a3)]
                  else [])) w,
           Ok tt))
  /\ (exists a1 a2,
        AllureReporter.addAttachment name content type env w
        = (add_events
             [(winston_log DEBUG
                 ("ALLURE: Adding attachment: " +:+ name +:+ " (" +:+ type +:+ ")") None, a1);
              (allure_attachment name content type, a2)] w,
           Ok tt))
  /\ (forall evs, currentTest (add_events evs w) = None
                  /\ records (add_events evs w) = records w
                  /\ snd (BaseReporter.getCurrentTest env (add_events evs w)) = Ok None).
Proof.
  intros Hc. split; [apply endTest_closed, Hc|]. split; [|split].
  - exists (env (clock w) (winston_log INFO ("ALLURE: Adding step: " +:+ stepName) None)),
      (env (S (clock w)) (allure_step stepName)),
      (env (S (S (clock w))) (winston_log DEBUG (default "" stepDetails) None)).
    unfold AllureReporter.addStep. run.
    destruct stepDetails as [d|]; run; [destruct (negb (String.eqb d ""))|];
      rewrite !record_event_add, !add_events_app; reflexivity.
  - exists (env (clock w)
              (winston_log DEBUG
                 ("ALLURE: Adding attachment: " +:+ name +:+ " (" +:+ type +:+ ")") None)),
      (env (S (clock w)) (allure_attachment name content type)).
    unfold AllureReporter.addAttachment. run.
    rewrite !record_event_add, !add_events_app; reflexivity.
  - intros evs. cbn. split; [exact Hc|]. split; [reflexivity|].
    unfold BaseReporter.getCurrentTest. run. rewrite Hc. reflexivity.
Qed.

Lemma calls_without_open_record_witness :
  BaseReporter.endTest FAILED (Some "boom") env_quiet emptyWorld = (emptyWorld, Ok tt).
Proof.
  apply (calls_without_open_record env_quiet emptyWorld FAILED (Some "boom")
           "step" None "shot" (text "x") "image/png" eq_refl).
Defined.

(** C4 as stated fails: with no record open, [endTest] logs nothing at
    all, and [addStep] and [addAttachment] log no warning and do call
    allure. *)
Lemma calls_without_open_record_log_no_warning :
  currentTest emptyWorld = None
  /\ added emptyWorld (fst (BaseReporter.endTest FAILED (Some "boom") env_quiet emptyWorld))
     = []
  /\ logs_warning
       (added emptyWorld (fst (AllureReporter.addStep "step" None env_quiet emptyWorld)))
     = false
  /\ added emptyWorld (fst (AllureReporter.addStep "step" None env_quiet emptyWorld))
     = [(winston_log INFO "ALLURE: Adding step: step" None, done);
        (allure_step "step", done)]
  /\ added emptyWorld
       (fst (AllureReporter.addAttachment "shot" (text "x") "image/png" env_quiet emptyWorld))
     = [(winston_log DEBUG "ALLURE: Adding attachment: shot (image/png)" None, done);
        (allure_attachment "shot" (text "x") "image/png", done)].
Proof. repeat split; vm_compute; reflexivity. Qed.


Lemma snoc_last {X} (d : X) (l : list X) :
  l <> [] -> l = List.removelast l ++ [List.last l d].
Proof. apply app_removelast_last. Qed.

(** Normal form of the world after a run: the events added to [w]. *)
Ltac worlds :=
  rewrite ?record_event_add, ?add_events_app; cbn [app];
  rewrite ?added_add_events.

(** C1, what the code does. After a failed test the [afterEach] hook of
    fixtures.ts hands allure at most one attachment, the screenshot (of
    type image/png, whose content is the path of the file), and none
    when taking the screenshot throws: it never attaches the error. *)
Theorem afterEach_failed_attaches_no_error (env : Env) (w : World)
    (page : Page) (testName : string) :
  let w' := fst (Fixtures.afterEach page testName failed env w) in
  let shot := "failure_"
              +:+ JS.Number_toString (as_number (env (3 + clock w)%nat Date_now)) in
  let path := "reports/screenshots/" +:+ shot +:+ ".png" in
  attachments (added w w')
  = match thrown (env (4 + clock w)%nat (page_screenshot page (Some path) true)) with
    | Some _ => []
    | None => [("Screenshot - " +:+ shot, text path, "image/png")]
    end.
Proof.
  unfold Fixtures.afterEach. run. cbn [Nat.add].
  destruct (thrown (env (S (S (S (S (clock w))))) _)) eqn:Hshot; run.
  - worlds. reflexivity.
  - destruct (thrown (env (S (S (S (S (S (S (S (clock w)))))))) _)) eqn:Hcookies; run.
    + worlds. reflexivity.
    + destruct (thrown (env (S (S (S (S (S (S (S (S (clock w))))))))) _)) eqn:Hstorage;
        run; worlds; reflexivity.
Qed.

(** The failing input of C1: a failed test, every driver call succeeds. *)
Lemma afterEach_failed_attaches_no_error_at_input :
  snd (Fixtures.afterEach 0%nat "login" failed env_ticking emptyWorld) = Ok tt
  /\ attachments (added emptyWorld
                    (fst (Fixtures.afterEach 0%nat "login" failed env_ticking emptyWorld)))
     = [("Screenshot - failure_1003", text "reports/screenshots/failure_1003.png",
         "image/png")].
Proof. split; vm_compute; reflexivity. Qed.

(** Closing a goal about the last event of a list that is given in full. *)
Ltac last_event :=
  match goal with
  | |- exists evs c a, ?l = evs ++ [(c, a)] /\ _ =>
      exists (List.removelast l), (fst (List.last l (Math_random, done))),
             (snd (List.last l (Math_random, done)));
      cbn [List.removelast List.last fst snd app]; repeat split; assumption || reflexivity
  end.

Ltac last_answer :=
  match goal with
  | |- exists evs a, ?l = evs ++ [(_, a)] =>
      exists (List.removelast l), (snd (List.last l (Math_random, done)));
      cbn [List.removelast List.last fst snd app]; reflexivity
  end.

Ltac in_cases :=
  cbn [In]; intros;
  repeat match goal with
         | H : _ \/ _ |- _ => destruct H
         | H : (_, _) = (_, _) |- _ => inversion H; clear H; subst
         | H : False |- _ => destruct H
         end;
  try assumption;
  try match goal with
      | H : teardown_driver_call _ = true |- _ => discriminate H
      end.

(** C2, as the code has it. The [afterEach] hook of fixtures.ts has no
    handler: when a driver step of the teardown (the failure screenshot,
    clearing the cookies, clearing the storage) throws, that call is the
    last thing the hook does and its error is thrown out of the hook;
    when none throws the hook returns after clearing the storage. The
    hook only reads the result of the test; it changes no record. *)
Theorem afterEach_propagates_teardown_errors (env : Env) (w : World)
    (page : Page) (testName : string) (testResult : RunnerStatus) :
  let w' := fst (Fixtures.afterEach page testName testResult env w) in
  records w' = records w /\ currentTest w' = currentTest w
  /\ match snd (Fixtures.afterEach page testName testResult env w) with
     | Thrown e =>
         exists evs c a, added w w' = evs ++ [(c, a)]
                         /\ teardown_driver_call c = true /\ thrown a = Some e
     | Ok _ =>
         (forall c a, In (c, a) (added w w') ->
                      teardown_driver_call c = true -> thrown a = None)
         /\ exists evs a,
              added w w' = evs ++ [(page_evaluate page clear_local_and_session_storage, a)]
     end.
Proof.
  unfold Fixtures.afterEach.
  destruct testResult; run;
    repeat match goal with
           | |- context [thrown (env ?k ?c)] =>
               let H := fresh "Hthrown" in
               destruct (thrown (env k c)) eqn:H; run
           end;
    worlds; (split; [reflexivity|]); (split; [reflexivity|]);
    first [ last_event | split; [in_cases | last_answer] ].
Qed.

(** C2 as stated fails: when the failure screenshot throws, the hook
    throws that error, logs nothing about it and skips the clearing of
    cookies and storage. *)
Lemma afterEach_throws_when_screenshot_fails :
  snd (Fixtures.afterEach 0%nat "login" failed env_page_closed emptyWorld)
  = Thrown page_closed_error
  /\ added emptyWorld (fst (Fixtures.afterEach 0%nat "login" failed env_page_closed emptyWorld))
     = [(winston_log ERROR "[FAIL] Test failed: login" None, done);
        (winston_log INFO "ALLURE: Adding step: Test failed: login" None, done);
        (allure_step "Test failed: login", done);
        (Date_now, number 1003);
        (page_screenshot 0%nat (Some "reports/screenshots/failure_1003.png") true,
         raise page_closed_error)].
Proof. split; vm_compute; reflexivity. Qed.


Lemma Locator_eq_refl (l : Locator) : bool_decide (l = l) = true.
Proof. apply bool_decide_eq_true_2. reflexivity. Qed.

(** Case analysis on every call that may throw, in program order. *)
Ltac throw_cases env :=
  repeat match goal with
         | |- context [thrown (env ?k ?c)] =>
             let H := fresh "Hthrown" in
             destruct (thrown (env k c)) eqn:H; run
         end.

Lemma added_same w : added w w = [].
Proof. unfold added. apply drop_all. Qed.

Ltac use_thrown :=
  repeat match goal with
         | H : thrown ?x = _ |- context [thrown ?x] => rewrite H
         end.

(** Witnesses for the driver events of an action: what comes before
    the wait, the answer to the wait, what comes after it. *)
Ltac around_wait :=
  match goal with
  | |- exists pre ans rest, ?l = pre ++ (_, ans) :: rest /\ _ =>
      first
        [ exists [], (snd (hd (Math_random, done) l)), (tl l);
          split; [reflexivity|]
        | exists [hd (Math_random, done) l], (snd (hd (Math_random, done) (tl l))), (tl (tl l));
          split; [reflexivity|] ]
  end.

(** C5, as the code has it. Every action utility that works on the
    element it is given (all but the alert helpers, which ignore their
    [input]) throws [Error('Page is required for locator operations')]
    when [options.page] is missing; otherwise it first resolves the
    element (a selector through [page.locator]), then waits for the
    ['visible'] state with the timeout [options.timeout || 30000]; if
    that wait throws (a TimeoutError when the element does not show in
    time) the utility throws the same error and does nothing else;
    otherwise it goes on to call the element. In every case no call on
    a locator is made before a successful wait for that locator. *)
Theorem element_actions_wait_before_acting (env : Env) (w : World)
    (a : Action) (input : Input) (options : Options) :
  is_alert_helper a = false ->
  let w' := fst (invoke a input options env w) in
  let out := snd (invoke a input options env w) in
  waits_before_acting [] (added w w') = true
  /\ match opt_page options with
     | None =>
         out = Thrown (JS.new_Error "Page is required for locator operations")
         /\ driver_events (added w w') = []
     | Some page =>
         let locator := resolved input page in
         let wait := locator_waitFor locator "visible"
                       (JS.num_or (opt_timeout options) 30000) in
         exists pre ans rest,
           driver_events (added w w') = pre ++ (wait, ans) :: rest
           /\ map fst pre = resolution input page
           /\ match thrown ans with
              | Some e => out = Thrown e /\ rest = []
              | None => exists m ans' rest', rest = (locator_call locator m, ans') :: rest'
                        \/ exists ev, rest = ev :: (locator_call locator m, ans') :: rest'
              end
     end.
Proof.
  intros Halert.
  unfold invoke, returning_nothing, returning_string.
  destruct a; try discriminate Halert; clear Halert;
    unfold ActionUtils.click, ActionUtils.clickAndNavigate, ActionUtils.clickByJS,
      ActionUtils.fill, ActionUtils.fillAndEnter, ActionUtils.fillAndTab,
      ActionUtils.fillAndType, ActionUtils.pressSequentially, ActionUtils.clear,
      ActionUtils.clearByJS, ActionUtils.check, ActionUtils.uncheck,
      ActionUtils.selectByValue, ActionUtils.selectByValues, ActionUtils.selectByText,
      ActionUtils.selectByIndex, ActionUtils.hover, ActionUtils.focus,
      ActionUtils.dragAndDrop, ActionUtils.doubleClick, ActionUtils.downloadFile,
      ActionUtils.uploadFiles, ActionUtils.scrollLocatorIntoView,
      ActionUtils.scrollToElement, ActionUtils.getElementTextContent,
      ActionUtils.getElementInnerHTML, ActionUtils.getElementOuterHTML,
      ActionUtils.getElementValue, ActionUtils.setElementValue,
      ActionUtils.triggerEvent, ActionUtils.getLocatorWithStableAndVisibleOptions;
    destruct (opt_page options) as [page|] eqn:Hpage;
    destruct input as [sel|loc];
    try match goal with dest : Input |- _ => destruct dest end;
    run; throw_cases env; worlds; rewrite ?added_same;
    cbn [waits_before_acting driver_events List.filter fst is_driver resolved];
    use_thrown; rewrite ?String.eqb_refl; cbn [existsb]; rewrite ?Locator_eq_refl;
    (split; [reflexivity|]);
    try (split; reflexivity);
    around_wait; (split; [reflexivity|]);
    cbn [hd tl snd]; use_thrown;
    first [ split; reflexivity
          | do 3 eexists; left; reflexivity
          | do 3 eexists; right; eexists; reflexivity ].
Qed.

Lemma element_actions_wait_before_acting_witness :
  waits_before_acting []
    (added emptyWorld (fst (invoke a_click (selector "#login") sampleOptions
                              env_quiet emptyWorld))) = true.
Proof.
  exact (proj1 (element_actions_wait_before_acting env_quiet emptyWorld a_click
                  (selector "#login") sampleOptions eq_refl)).
Defined.

(** C5 as stated fails: [acceptAlert], called with a selector and an
    options bag, returns without resolving the selector or waiting for
    anything; and [click], given the timeout 0, waits with 30000. *)
Lemma acceptAlert_does_not_wait_click_replaces_zero_timeout :
  invoke a_acceptAlert (selector "#ok") sampleOptions env_quiet emptyWorld
  = (add_events [(page_on_dialog 0%nat dialog_accept, done)] emptyWorld, Ok None)
  /\ map fst (driver_events
                (added emptyWorld
                   (fst (invoke a_click (selector "#ok") zeroTimeoutOptions
                           env_quiet emptyWorld))))
     = [page_locator 0%nat "#ok";
        locator_waitFor (locatorOf 0%nat "#ok") "visible" 30000;
        locator_call (locatorOf 0%nat "#ok") (l_click (Some zeroTimeoutOptions))].
Proof. split; vm_compute; reflexivity. Qed.


(** Two equations on what one answer threw give equal errors. *)
Ltac same_thrown :=
  repeat match goal with
         | H1 : thrown ?x = Some ?a, H2 : thrown ?x = Some ?b |- _ =>
             assert (a = b) by congruence; subst; clear H2
         end.

(** An event of a list that is given in full. *)
Ltac find_event :=
  try eexists; cbn [In]; repeat (first [left; reflexivity | right]).

Section GlobalTeardownLemmas.

Variable env : Env.

(** [generateReports()] never throws; whatever one of its steps throws
    is logged as a warning. *)
Lemma generateReports_swallows w :
  exists evs,
    GlobalTeardown.generateReports env w = (add_events evs w, Ok tt)
    /\ (forall c a e, In (c, a) evs -> may_throw c = true -> thrown a = Some e ->
          exists a', In (winston_log WARN "Failed to generate reports:" (Some e), a') evs)
    /\ (forall c a, In (c, a) evs -> is_driver c = true ->
          c = exec "npx allure generate allure-results --clean -o allure-report"
          \/ c = fs_existsSync "allure-report" \/ c = fs_existsSync "reports/allure-report"
          \/ c = fs_rmSync "reports/allure-report" true false
          \/ c = fs_renameSync "allure-report" "reports/allure-report").
Proof.
  unfold GlobalTeardown.generateReports. run.
  destruct (thrown (env (S (clock w)) _)) eqn:Hexec; run.
  2: destruct (as_boolean (env (S (S (S (clock w)))) _)) eqn:Hreport; run.
  2: destruct (as_boolean (env (S (S (S (S (clock w))))) _)) eqn:Hold; run.
  all: throw_cases env; worlds; eexists; (split; [reflexivity|]); split.
  all: cbn [In]; intros;
    repeat match goal with
           | H : _ \/ _ |- _ => destruct H
           | H : (_, _) = (_, _) |- _ => inversion H; clear H; subst
           | H : False |- _ => destruct H
           end;
    same_thrown; try discriminate; try congruence; auto 12; find_event.
Qed.

Lemma no_throw_app evs1 evs2 :
  no_throw (evs1 ++ evs2) -> no_throw evs1 /\ no_throw evs2.
Proof.
  unfold no_throw. intros H. split; intros c a Hin; apply H; apply in_or_app; auto.
Qed.

Lemma prune_loop ago : forall files w, exists evs out,
  for_of files (GlobalTeardown.pruneLogFile "logs" ago) env w = (add_events evs w, out)
  /\ pruned ago files evs out.
Proof.
  induction files as [|file files IH]; intros w.
  - exists [], (Ok tt). rewrite add_events_nil. split; [reflexivity|].
    unfold pruned. repeat split; try (intros; cbn [In] in *; contradiction);
      try discriminate.
  - cbn [for_of]. rewrite bind_run. unfold GlobalTeardown.pruneLogFile at 1. run.
    set (p := path_join "logs" file).
    set (ma := env (clock w) (fs_statSync_mtime p)).
    destruct (thrown ma) eqn:Hstat; run.
    { exists [(fs_statSync_mtime p, ma)], (Thrown e). split; [reflexivity|].
      unfold pruned. split; [|split; [|split; [|split]]].
      - cbn [In]. intros c a [[= <- <-]|[]] _. exists file. cbn [In]. auto.
      - cbn [In]. intros c a e' [[= <- <-]|[]] _ He'. congruence.
      - intros e' [= <-]. exists (fs_statSync_mtime p), ma. cbn [In]. auto.
      - intros Hno. specialize (Hno _ _ (or_introl eq_refl) eq_refl). congruence.
      - intros p' a Hin. cbn [In] in Hin. destruct Hin as [[=]|[]]. }
    destruct (Z.ltb_spec (as_number ma) ago) as [Hold|Hnew]; run.
    + set (ua := env (S (clock w)) (fs_unlinkSync p)).
      destruct (thrown ua) eqn:Hunlink; run.
      { exists [(fs_statSync_mtime p, ma); (fs_unlinkSync p, ua)], (Thrown e).
        split; [rewrite !record_event_add, !add_events_app; reflexivity|].
        unfold pruned. split; [|split; [|split; [|split]]].
        - cbn [In]. intros c a [[= <- <-]|[[= <- <-]|[]]] _; exists file; cbn [In]; auto.
        - cbn [In]. intros c a e' [[= <- <-]|[[= <- <-]|[]]] _ He'; congruence.
        - intros e' [= <-]. exists (fs_unlinkSync p), ua. cbn [In]. auto.
        - intros Hno. specialize (Hno _ _ (or_intror (or_introl eq_refl)) eq_refl).
          congruence.
        - intros p' a Hin. cbn [In] in Hin. destruct Hin as [[=]|[[= <- <-]|[]]].
          exists file, ma. cbn [In]. auto. }
      set (la := env (S (S (clock w))) (winston_log INFO ("Deleted old log file: " +:+ file) None)).
      set (first := [(fs_statSync_mtime p, ma); (fs_unlinkSync p, ua);
                     (winston_log INFO ("Deleted old log file: " +:+ file) None, la)]).
      destruct (IH (add_events first w))
        as (evs & out & Hrun & Hcalls & Hlast & Hthrown & Hdone & Hunlinked).
      exists (first ++ evs), out. split.
      { transitivity (add_events evs (add_events first w), out);
          [|rewrite add_events_app; reflexivity].
        rewrite <- Hrun. rewrite !record_event_add, !add_events_app. reflexivity. }
      unfold pruned. split; [|split; [|split; [|split]]].
      * intros c a Hin Hd. apply in_app_or in Hin as [Hin|Hin].
        -- exists file. unfold first in Hin. cbn [In] in *.
           destruct Hin as [[= <- <-]|[[= <- <-]|[[= <- <-]|[]]]]; auto; discriminate.
        -- destruct (Hcalls c a Hin Hd) as (f & Hf & Hc). exists f. cbn [In]. auto.
      * intros c a e Hin Hm He. apply in_app_or in Hin as [Hin|Hin]; [|eauto].
        unfold first in Hin. cbn [In] in Hin.
        destruct Hin as [[= <- <-]|[[= <- <-]|[[= <- <-]|[]]]];
          first [congruence | discriminate Hm].
      * intros e Hout. destruct (Hthrown e Hout) as (c & a & Hin & Hm & Ht).
        exists c, a. split; [apply in_or_app; auto|auto].
      * intros Hno. apply no_throw_app in Hno as [_ Hno].
        destruct (Hdone Hno) as [Hok Hfiles]. split; [exact Hok|].
        intros f [<-|Hf].
        -- exists ma. split; [apply in_or_app; left; unfold first; cbn [In]; auto|].
           intros _. exists ua. apply in_or_app; left; unfold first; cbn [In]; auto.
        -- destruct (Hfiles f Hf) as (ma' & Hin & Hdel). exists ma'.
           split; [apply in_or_app; auto|].
           intros Hlt. destruct (Hdel Hlt) as [a' Ha']. exists a'. apply in_or_app; auto.
      * intros p' a Hin. apply in_app_or in Hin as [Hin|Hin].
        -- unfold first in Hin. cbn [In] in Hin. destruct Hin as [[=]|[[= <- <-]|[[=]|[]]]].
           exists file, ma. repeat split; [cbn [In]; auto| |exact Hold].
           apply in_or_app; left; unfold first; cbn [In]; auto.
        -- destruct (Hunlinked p' a Hin) as (f & ma' & Hp & Hf & Hin' & Hlt).
           exists f, ma'. repeat split; [exact Hp|cbn [In]; auto| |exact Hlt].
           apply in_or_app; auto.
    + set (first := [(fs_statSync_mtime p, ma)]).
      destruct (IH (add_events first w))
        as (evs & out & Hrun & Hcalls & Hlast & Hthrown & Hdone & Hunlinked).
      exists (first ++ evs), out. split.
      { transitivity (add_events evs (add_events first w), out);
          [|rewrite add_events_app; reflexivity].
        rewrite <- Hrun. reflexivity. }
      unfold pruned. split; [|split; [|split; [|split]]].
      * intros c a Hin Hd. apply in_app_or in Hin as [Hin|Hin].
        -- exists file. unfold first in Hin. cbn [In] in *. destruct Hin as [[= <- <-]|[]]; auto.
        -- destruct (Hcalls c a Hin Hd) as (f & Hf & Hc). exists f. cbn [In]. auto.
      * intros c a e Hin Hm He. apply in_app_or in Hin as [Hin|Hin]; [|eauto].
        unfold first in Hin. cbn [In] in Hin.
        destruct Hin as [[= <- <-]|[]]; congruence.
      * intros e Hout. destruct (Hthrown e Hout) as (c & a & Hin & Hm & Ht).
        exists c, a. split; [apply in_or_app; auto|auto].
      * intros Hno. apply no_throw_app in Hno as [_ Hno].
        destruct (Hdone Hno) as [Hok Hfiles]. split; [exact Hok|].
        intros f [<-|Hf].
        -- exists ma. split; [apply in_or_app; left; unfold first; cbn [In]; auto|].
           intros Hlt. lia.
        -- destruct (Hfiles f Hf) as (ma' & Hin & Hdel). exists ma'.
           split; [apply in_or_app; auto|].
           intros Hlt. destruct (Hdel Hlt) as [a' Ha']. exists a'. apply in_or_app; auto.
      * intros p' a Hin. apply in_app_or in Hin as [Hin|Hin].
        -- unfold first in Hin. cbn [In] in Hin. destruct Hin as [[=]|[]].
        -- destruct (Hunlinked p' a Hin) as (f & ma' & Hp & Hf & Hin' & Hlt).
           exists f, ma'. repeat split; [exact Hp|cbn [In]; auto| |exact Hlt].
           apply in_or_app; auto.
Qed.

(** Membership in a list given as explicit events around the events of
    the loop. *)
Ltac find_in :=
  cbn [In];
  repeat first [ left; reflexivity | right ];
  try (apply in_or_app;
       first [ left; eassumption
             | right; cbn [In]; repeat first [ left; reflexivity | right ] ]).

Ltac split_in H :=
  cbn [In] in H;
  repeat match type of H with
         | _ \/ _ => destruct H as [H|H]
         end;
  try (apply in_app_or in H; destruct H as [H|H]; cbn [In] in H;
       repeat match type of H with
              | _ \/ _ => destruct H as [H|H]
              end).

Ltac cleanup_cases :=
  repeat first
    [ match goal with
      | |- context [thrown (env ?k ?c)] =>
          let H := fresh "Hthrown" in destruct (thrown (env k c)) eqn:H; run
      end
    | match goal with
      | |- context [if as_boolean (env ?k ?c) then _ else _] =>
          let H := fresh "Hbool" in destruct (as_boolean (env k c)) eqn:H; run
      end ].

(** [cleanupTempFiles()] never throws; whatever one of its steps throws
    is logged as a warning; when none throws, the cleanup is complete. *)
Lemma cleanupTempFiles_swallows w :
  exists evs,
    GlobalTeardown.cleanupTempFiles env w = (add_events evs w, Ok tt)
    /\ (forall c a e, In (c, a) evs -> may_throw c = true -> thrown a = Some e ->
          exists a', In (winston_log WARN "Failed to cleanup temporary files:" (Some e), a')
                        evs)
    /\ (no_throw evs -> cleaned_up evs).
Proof.
  unfold GlobalTeardown.cleanupTempFiles, GlobalTeardown.tempDirectories.
  cbn [for_of]. unfold GlobalTeardown.removeTempDirectory. run.
  cleanup_cases.
  all: rewrite ?record_event_add, ?add_events_app; cbn [app].
  all: try match goal with
       | |- context [for_of ?files (GlobalTeardown.pruneLogFile "logs" ?ago) env ?w0] =>
           destruct (prune_loop ago files w0)
             as (evs' & out & Hrun & Hcalls & Hlast & Hthrown' & Hdone & Hunlinked);
           rewrite Hrun; destruct out as [[]|e']; run;
           rewrite ?record_event_add, ?add_events_app; cbn [app]
       end.
  all: eexists; (split; [reflexivity|]); split.
  (* what is thrown is logged *)
  all: try (intros c a e0 Hin Hm He; split_in Hin;
            try (inversion Hin; clear Hin; subst);
            same_thrown; try discriminate; try congruence;
            try (specialize (Hlast _ _ _ Hin Hm He); inversion Hlast; subst);
            try (eexists; find_in; fail)).
  (* a call threw: the premise fails *)
  all: intros Hno.
  all: try (exfalso;
            match goal with
            | H : thrown (env ?k ?c) = Some _ |- _ =>
                assert (thrown (env k c) = None)
                  by (apply (Hno c); [find_in | reflexivity]);
                congruence
            end).
  all: try (exfalso;
            destruct (Hthrown' _ eq_refl) as (c0 & a0 & Hin0 & Hm0 & Ht0);
            assert (thrown a0 = None) by (apply (Hno c0); [find_in | exact Hm0]);
            congruence).
  (* no call threw: the cleanup is complete *)
  all: unfold cleaned_up, GlobalTeardown.tempDirectories; split; [|split].
  all: try (intros dir Hdir; cbn [In] in Hdir;
            destruct Hdir as [<-|[<-|[<-|[]]]];
            eexists; (split; [find_in|]); intros Hb;
            first [ congruence | eexists; find_in ]).
  all: try (eexists; find_in; fail).
  all: eexists; (split; [find_in|]); intros Hb; try congruence.
  all: eexists _, _; (split; [find_in|]); (split; [find_in|]).
  all: intros file Hfile.
  all: assert (Hno' : no_throw evs')
         by (intros c0 a0 Hin0 Hm0; apply (Hno c0 a0); [find_in | exact Hm0]).
  all: destruct (Hdone Hno') as [_ Hfiles].
  all: destruct (Hfiles file Hfile) as (ma & Hin & Hdel).
  all: exists ma; (split; [find_in|]); intros Hlt.
  all: destruct (Hdel Hlt) as [a' Ha']; exists a'; find_in.
Qed.

End GlobalTeardownLemmas.

(** C7. [globalTeardown] never throws. Whatever a step of the report
    generation throws (the allure command, removing or moving the
    report) is logged as a warning and swallowed; [cleanupTempFiles]
    then runs all the same, and unless one of its own calls throws
    (which is logged and swallowed too) it removes the temporary
    directories that exist and deletes the log files older than seven
    days; the teardown ends by logging its completion. *)
Theorem globalTeardown_never_throws_cleanup_still_runs (env : Env) (w : World) :
  exists evs0 evsG evsC a,
    GlobalTeardown.globalTeardown env w
    = (add_events
         [(winston_log INFO "Global teardown completed successfully" None, a)]
         (add_events evsC (add_events evsG (add_events evs0 w))),
       Ok tt)
    /\ (forall c a0, In (c, a0) evs0 -> may_throw c = false)
    /\ GlobalTeardown.generateReports env (add_events evs0 w)
       = (add_events evsG (add_events evs0 w), Ok tt)
    /\ (forall c a0 e, In (c, a0) evsG -> may_throw c = true -> thrown a0 = Some e ->
          exists a', In (winston_log WARN "Failed to generate reports:" (Some e), a') evsG)
    /\ GlobalTeardown.cleanupTempFiles env (add_events evsG (add_events evs0 w))
       = (add_events evsC (add_events evsG (add_events evs0 w)), Ok tt)
    /\ (forall c a0 e, In (c, a0) evsC -> may_throw c = true -> thrown a0 = Some e ->
          exists a', In (winston_log WARN "Failed to cleanup temporary files:" (Some e), a')
                        evsC)
    /\ (no_throw evsC -> cleaned_up evsC).
Proof.
  unfold GlobalTeardown.globalTeardown. run.
  destruct (as_optional_string (env (S (clock w)) (process_env "environment")))
    as [v|] eqn:Henv;
    [destruct (negb (String.eqb v "")) eqn:Hv|]; run.
  all: rewrite ?record_event_add, ?add_events_app; cbn [app].
  all: match goal with
       | |- context [GlobalTeardown.generateReports ?E ?w1] =>
           destruct (generateReports_swallows E w1) as (evsG & HrunG & HwarnG & _);
           rewrite HrunG
       end.
  all: match goal with
       | |- context [GlobalTeardown.cleanupTempFiles ?E ?w2] =>
           destruct (cleanupTempFiles_swallows E w2) as (evsC & HrunC & HwarnC & HdoneC);
           rewrite HrunC
       end.
  all: run; rewrite ?record_event_add.
  all: eexists _, evsG, evsC, _; split; [reflexivity|].
  all: split; [intros c a0 Hin; cbn [In] in Hin;
               repeat (destruct Hin as [Hin|Hin]; [inversion Hin; reflexivity|]);
               destruct Hin|].
  all: auto.
Qed.

Lemma globalTeardown_never_throws_cleanup_still_runs_witness :
  snd (GlobalTeardown.globalTeardown env_allure_missing emptyWorld) = Ok tt.
Proof.
  destruct (globalTeardown_never_throws_cleanup_still_runs env_allure_missing emptyWorld)
    as (evs0 & evsG & evsC & a & Hrun & _).
  rewrite Hrun. reflexivity.
Defined.

(** With the allure command failing, the teardown still returns, logs a
    warning, removes the three temporary directories and deletes the old
    log file only. *)
Example globalTeardown_when_allure_fails :
  snd (GlobalTeardown.globalTeardown env_allure_missing emptyWorld) = Ok tt
  /\ logs_warning (trace (fst (GlobalTeardown.globalTeardown env_allure_missing emptyWorld)))
     = true
  /\ map fst (driver_events
                (trace (fst (GlobalTeardown.globalTeardown env_allure_missing emptyWorld))))
     = [exec "npx allure generate allure-results --clean -o allure-report";
        fs_existsSync "test-results"; fs_rmSync "test-results" true true;
        fs_existsSync "playwright-report"; fs_rmSync "playwright-report" true true;
        fs_existsSync "allure-results"; fs_rmSync "allure-results" true true;
        fs_existsSync "logs"; fs_readdirSync "logs";
        fs_statSync_mtime "logs/app.log"; fs_statSync_mtime "logs/old.log";
        fs_unlinkSync "logs/old.log"].
Proof. repeat split; vm_compute; reflexivity. Qed.


(** Membership in a list of events given in full. *)
Ltac find_in :=
  cbn [In];
  repeat first [ left; reflexivity | right ];
  try (apply in_or_app;
       first [ left; eassumption
             | right; cbn [In]; repeat first [ left; reflexivity | right ] ]).

(** [run], deciding as well whether the step details ['passed'] and
    ['failed'] of [logPass] and [logFail] are empty. *)
Ltac run_logged :=
  run;
  repeat (first [ progress change (negb (String.eqb "passed" "")) with true in *
                | progress change (negb (String.eqb "failed" "")) with true in * ];
          run).

(** Evaluation of the observations made on an explicit list of events. *)
Ltac observe :=
  cbn [attachments attachment_of omap list_omap driver_calls driver_events List.filter
       map fst snd is_driver app].




(** Cases in which a call threw although the outside world never throws. *)
Ltac quiet_cases env Hquiet :=
  repeat match goal with
         | |- context [thrown (env ?k ?c)] => rewrite (Hquiet k c); run_logged
         end.

(** X3. [TestBase.teardownAfterTest()], when no close call throws,
    closes the page, then the context, then the browser, each only if
    the object holds it, and leaves the object holding nothing; on an
    object that holds nothing it makes no driver call. *)
Theorem teardownAfterTest_closes_what_is_held (env : Env) (w : World) (this : TestBase) :
  (forall k c, thrown (env k c) = None) ->
  let w' := fst (TestBase.teardownAfterTest this env w) in
  snd (TestBase.teardownAfterTest this env w) = Ok (mkTestBase false false None)
  /\ driver_calls (added w w')
     = match tb_page this with Some page => [page_close page] | None => [] end
       ++ (if tb_context this then [context_close] else [])
       ++ (if tb_browser this then [browser_close] else [])
  /\ (forall w0,
        driver_calls
          (added w0 (fst (TestBase.teardownAfterTest (mkTestBase false false None) env w0)))
        = []).
Proof.
  intros Hquiet. cbv zeta.
  unfold TestBase.teardownAfterTest, TestBase.closePage, TestBase.closeContext,
    TestBase.closeBrowser, TestBase.logPass.
  destruct this as [b c [page|]]; destruct b, c; cbn [tb_page tb_context tb_browser negb];
    run_logged; quiet_cases env Hquiet; cbn [tb_page tb_context tb_browser negb];
    run_logged; quiet_cases env Hquiet; cbn [tb_page tb_context tb_browser negb];
    run_logged; quiet_cases env Hquiet;
    worlds; observe; (split; [reflexivity|]); (split; [reflexivity|]);
    intros w0; run_logged; worlds; reflexivity.
Qed.

Lemma teardownAfterTest_closes_what_is_held_witness :
  snd (TestBase.teardownAfterTest (mkTestBase true true (Some 0%nat)) env_quiet emptyWorld)
  = Ok (mkTestBase false false None).
Proof.
  apply (teardownAfterTest_closes_what_is_held env_quiet emptyWorld
           (mkTestBase true true (Some 0%nat))).
  intros k c. reflexivity.
Defined.


(** X4. [AllureReporter.addScreenshot(name, path)] never throws: when
    reading the file throws, the error is logged and nothing is
    attached; otherwise the content read is attached once, as image/png. *)
Theorem addScreenshot_never_throws (env : Env) (w : World) (name path : string) :
  let w' := fst (AllureReporter.addScreenshot name path env w) in
  snd (AllureReporter.addScreenshot name path env w) = Ok tt
  /\ exists a, In (fs_readFileSync path, a) (added w w')
       /\ match thrown a with
          | Some e =>
              attachments (added w w') = []
              /\ logged ERROR (added w w') = ["Failed to add screenshot: " +:+ path]
          | None =>
              attachments (added w w') = [(name, as_content a, "image/png")]
              /\ logged ERROR (added w w') = []
          end.
Proof.
  cbv zeta. unfold AllureReporter.addScreenshot. run.
  destruct (thrown (env (S (clock w)) (fs_readFileSync path))) eqn:Hread; run; worlds;
    (split; [reflexivity|]); eexists; (split; [find_in|]); rewrite Hread;
    split; reflexivity.
Qed.

(** X5. [TestReporter.addErrorDetails(error)] attaches the error twice:
    two JSON attachments named 'Error Details' with the same name,
    message and stack (each with its own timestamp); and
    [TestReporter.addTestData(type, data)] attaches the same JSON twice
    under 'Test Data - <type>'. Neither throws. *)
Theorem TestReporter_attaches_twice (env : Env) (w : World) (e : JS.Error)
    (dataType : string) (data : list (string * option string)) :
  (exists ts1 ts2,
     let details ts :=
       ("Error Details",
        json [("name", Some (JS.err_name e)); ("message", Some (JS.err_message e));
              ("stack", JS.err_stack e); ("timestamp", Some ts)],
        "application/json") in
     snd (TestReporter.addErrorDetails e env w) = Ok tt
     /\ attachments (added w (fst (TestReporter.addErrorDetails e env w)))
        = [details ts1; details ts2])
  /\ snd (TestReporter.addTestData dataType data env w) = Ok tt
  /\ attachments (added w (fst (TestReporter.addTestData dataType data env w)))
     = [("Test Data - " +:+ dataType, json data, "application/json");
        ("Test Data - " +:+ dataType, json data, "application/json")].
Proof.
  unfold TestReporter.addErrorDetails, TestReporter.addTestData, TestReporter.addJSONData,
    TestReporter.addAttachment, BaseReporter.addAttachment,
    AllureReporter.addErrorDetails, AllureReporter.addJSONAttachment.
  run. worlds. split; [|split; reflexivity].
  eexists _, _. cbv zeta. split; reflexivity.
Qed.

(** X6. [TestReporter.endTest(status, error)] with a non-empty error
    reports the error to allure even when no test is open: the base
    class returns at once, no record is created or changed, and one
    'Error Details' attachment carrying the message is still made. *)
Theorem TestReporter_endTest_reports_error_without_open_test
    (env : Env) (w : World) (st : Status) (message : string) :
  currentTest w = None -> message <> "" ->
  let w' := fst (TestReporter.endTest st (Some message) env w) in
  snd (TestReporter.endTest st (Some message) env w) = Ok tt
  /\ currentTest w' = None /\ records w' = records w
  /\ exists ts,
       attachments (added w w')
       = [("Error Details",
           json [("name", Some "Error"); ("message", Some message);
                 ("stack", JS.err_stack (JS.new_Error message)); ("timestamp", Some ts)],
           "application/json")].
Proof.
  intros Hc Hmsg. cbv zeta. unfold TestReporter.endTest.
  rewrite bind_run, (endTest_closed env st (Some message) w Hc).
  destruct (String.eqb_spec message "") as [?|_]; [contradiction|]. cbn [negb].
  unfold AllureReporter.addErrorDetails, AllureReporter.addJSONAttachment. run. worlds.
  split; [reflexivity|]. split; [exact Hc|]. split; [reflexivity|].
  eexists. reflexivity.
Qed.

Lemma TestReporter_endTest_reports_error_without_open_test_witness :
  snd (TestReporter.endTest FAILED (Some "boom") env_quiet emptyWorld) = Ok tt.
Proof.
  apply (TestReporter_endTest_reports_error_without_open_test env_quiet emptyWorld
           FAILED "boom" eq_refl).
  discriminate.
Defined.

(** X7. A [startTest] made while a record is open replaces the current
    record: the [endTest] that follows closes the second record only,
    and the first stays as [startTest] made it (status PASSED, [endTime]
    and [duration] 0). *)
Theorem second_startTest_abandons_the_first
    (env : Env) (w : World) (id1 n1 s1 id2 n2 s2 : string)
    (st : Status) (err : option string) :
  exists w3 l1 l2 r1 r2,
    perform_all [c_startTest id1 n1 s1; c_startTest id2 n2 s2; c_endTest st err] env w
    = (w3, Ok tt)
    /\ l1 <> l2 /\ currentTest w3 = None
    /\ records w3 !! l1 = Some r1
    /\ testId r1 = id1 /\ status r1 = PASSED /\ endTime r1 = 0 /\ duration r1 = 0
    /\ records w3 !! l2 = Some r2
    /\ testId r2 = id2 /\ status r2 = st /\ error_ r2 = JS.str_or_undefined err
    /\ duration r2 = endTime r2 - startTime r2.
Proof.
  unfold perform_all. cbn [for_of perform].
  unfold BaseReporter.startTest, BaseReporter.endTest. run.
  rewrite lookup_insert_eq. run.
  eexists _, (allocated w), (S (allocated w)), _, _.
  split; [reflexivity|]. cbn [currentTest records].
  split; [lia|]. split; [reflexivity|].
  split.
  { rewrite lookup_insert_ne by lia. rewrite lookup_insert_ne by lia.
    apply lookup_insert_eq. }
  do 4 (split; [reflexivity|]).
  split; [apply lookup_insert_eq|].
  repeat split; reflexivity.
Qed.


(** X8. The [afterEach] hook of fixtures.ts takes a screenshot only
    for a test whose status is 'failed' (a full-page one, before any
    other driver call): for 'passed', 'timedOut', 'skipped' and
    'interrupted' it attaches nothing and its only driver calls are the
    clearing of cookies and of storage. *)
Theorem afterEach_screenshot_only_when_failed (env : Env) (w : World)
    (page : Page) (testName : string) (testResult : RunnerStatus) :
  let w' := fst (Fixtures.afterEach page testName testResult env w) in
  match testResult with
  | failed =>
      exists path rest,
        driver_calls (added w w') = page_screenshot page (Some path) true :: rest
  | _ =>
      attachments (added w w') = []
      /\ exists n,
           driver_calls (added w w')
           = firstn n [context_clearCookies;
                       page_evaluate page clear_local_and_session_storage]
  end.
Proof.
  cbv zeta. unfold Fixtures.afterEach.
  destruct testResult; run; throw_cases env; worlds; observe;
    first [ eexists _, _; reflexivity
          | split; [reflexivity|];
            first [ exists 1%nat; reflexivity | exists 2%nat; reflexivity ] ].
Qed.

(** X9. [ActionUtils.getElementTextContent] returns the empty string
    when the element has no text content ([textContent()] is [null]). *)
Theorem getElementTextContent_null_is_empty (env : Env) (w : World)
    (input : Input) (options : Options) (page : Page) :
  opt_page options = Some page ->
  (forall k c, thrown (env k c) = None) ->
  (forall k l, env k (locator_call l l_textContent) = null) ->
  snd (ActionUtils.getElementTextContent input options env w) = Ok "".
Proof.
  intros Hpage Hquiet Hnull.
  unfold ActionUtils.getElementTextContent,
    ActionUtils.getLocatorWithStableAndVisibleOptions.
  rewrite Hpage.
  destruct input; run; repeat (rewrite Hquiet; run); rewrite !Hnull; reflexivity.
Qed.

Lemma getElementTextContent_null_is_empty_witness :
  snd (ActionUtils.getElementTextContent (selector "#title") sampleOptions
         (fun _ _ => null) emptyWorld) = Ok "".
Proof.
  apply (getElementTextContent_null_is_empty (fun _ _ => null) emptyWorld
           (selector "#title") sampleOptions 0%nat eq_refl).
  - intros k c. reflexivity.
  - intros k l. reflexivity.
Defined.

(** X10. The script variants stay distinct from the native ones:
    [clickByJS] and [clearByJS] act on the element only through
    [evaluate] (never [click] or [clear]), while [click] and [clear]
    only call [locator.click(options)] and [locator.clear(options)]. *)
Theorem script_variants_are_not_substituted (env : Env) (w : World)
    (input : Input) (options : Options) :
  Forall (fun m => m = l_evaluate element_click)
         (locator_methods (added w (fst (ActionUtils.clickByJS input options env w))))
  /\ Forall (fun m => m = l_click (Some options))
            (locator_methods (added w (fst (ActionUtils.click input options env w))))
  /\ Forall (fun m => m = l_evaluate clear_value_and_dispatch_input)
            (locator_methods (added w (fst (ActionUtils.clearByJS input options env w))))
  /\ Forall (fun m => m = l_clear options)
            (locator_methods (added w (fst (ActionUtils.clear input options env w)))).
Proof.
  unfold ActionUtils.clickByJS, ActionUtils.click, ActionUtils.clearByJS, ActionUtils.clear,
    ActionUtils.getLocatorWithStableAndVisibleOptions.
  destruct (opt_page options) as [page|]; destruct input as [sel|loc];
    run; throw_cases env; worlds; rewrite ?added_same;
    cbn [locator_methods omap list_omap fst];
    repeat split; repeat constructor.
Qed.

(** X11. The helpers that need only the page throw their own error,
    making no call at all, when [options.page] is missing:
    [pressPageKeyboard] 'Page is required for keyboard operations',
    [acceptAlert] and [dismissAlert] 'Page is required for alert
    operations'; with a page, [pressPageKeyboard] makes exactly one
    call, the key press, without waiting for any element. *)
Theorem page_only_helpers (env : Env) (w : World) (key : string)
    (input : Input) (options : Options) :
  match opt_page options with
  | None =>
      ActionUtils.pressPageKeyboard key options env w
      = (w, Thrown (JS.new_Error "Page is required for keyboard operations"))
      /\ ActionUtils.acceptAlert input options env w
         = (w, Thrown (JS.new_Error "Page is required for alert operations"))
      /\ ActionUtils.dismissAlert input options env w
         = (w, Thrown (JS.new_Error "Page is required for alert operations"))
  | Some page =>
      let a := env (clock w) (page_keyboard_press page key) in
      ActionUtils.pressPageKeyboard key options env w
      = (add_events [(page_keyboard_press page key, a)] w,
         match thrown a with Some e => Thrown e | None => Ok tt end)
  end.
Proof.
  unfold ActionUtils.pressPageKeyboard, ActionUtils.acceptAlert, ActionUtils.dismissAlert.
  destruct (opt_page options) as [page|]; run; [|repeat split; reflexivity].
  destruct (thrown (env (clock w) (page_keyboard_press page key))); reflexivity.
Qed.


(** X12. For [count <= 0], [generateRandomNumber(count)] and
    [generateRandomNumeric(count)] return the empty string, log one
    warning and draw no random number. *)
Theorem random_digits_of_nonpositive_count (env : Env) (w : World) (count : Z) :
  count <= 0 ->
  snd (CommonUtils.generateRandomNumber count env w) = Ok ""
  /\ logged WARN (added w (fst (CommonUtils.generateRandomNumber count env w)))
     = ["Count must be greater than 0"]
  /\ draws (added w (fst (CommonUtils.generateRandomNumber count env w))) = []
  /\ snd (CommonUtils.generateRandomNumeric count env w) = Ok ""
  /\ logged WARN (added w (fst (CommonUtils.generateRandomNumeric count env w)))
     = ["Length must be greater than 0"]
  /\ draws (added w (fst (CommonUtils.generateRandomNumeric count env w))) = [].
Proof.
  intros Hcount.
  unfold CommonUtils.generateRandomNumber, CommonUtils.generateRandomNumeric. run.
  destruct (Z.leb_spec count 0) as [_|?]; [|lia]. run. worlds.
  repeat split; reflexivity.
Qed.

Lemma random_digits_of_nonpositive_count_witness :
  snd (CommonUtils.generateRandomNumber 0 env_quiet emptyWorld) = Ok "".
Proof.
  apply (random_digits_of_nonpositive_count env_quiet emptyWorld 0). lia.
Defined.

Lemma charAt_chars_alphanumeric i :
  0 <= i < 62 ->
  exists c, CommonUtils2.charAt CommonUtils2.chars i = String c ""
            /\ is_alphanumeric c = true.
Proof.
  intros Hi. unfold CommonUtils2.charAt.
  destruct (Z.ltb_spec i 0); [lia|].
  assert (Hn : (Z.to_nat i < 62)%nat) by lia.
  revert Hn. generalize (Z.to_nat i). intros n Hn.
  do 62 (destruct n as [|n]; [eexists; split; vm_compute; reflexivity|]).
  lia.
Qed.

(** The loop of [generateRandomString]. *)
Lemma string_loop env n : forall w acc, exists evs s,
  for_times n
    (fun result : string =>
       bind CommonUtils.Math_random_draw
            (fun r => ret (result +:+ CommonUtils2.charAt CommonUtils2.chars
                             (CommonUtils.Math_floor_times r
                                (Z.of_nat (String.length CommonUtils2.chars))))))
    acc env w
  = (add_events evs w, Ok (acc +:+ s))
  /\ String.length s = n /\ all_alphanumeric s = true /\ length (draws evs) = n.
Proof.
  induction n as [|n IH]; intros w acc.
  - exists [], "". simpl. rewrite add_events_nil.
    replace (acc +:+ "") with acc; [auto|].
    induction acc as [|c acc IHacc]; [reflexivity|]. rewrite append_cons. by rewrite <- IHacc.
  - cbn [for_times]. rewrite bind_run. unfold CommonUtils.Math_random_draw at 1. run.
    set (a := env (clock w) Math_random).
    destruct (charAt_chars_alphanumeric
                (CommonUtils.Math_floor_times (CommonUtils.random_of a)
                   (Z.of_nat (String.length CommonUtils2.chars))))
      as (c & Hc & Halnum).
    { apply Math_floor_times_bounds; [apply draw_in_range | vm_compute; split; congruence]. }
    rewrite Hc.
    destruct (IH (record_event Math_random a w) (acc +:+ String c ""))
      as (evs & s & Hrun & Hlen & Hall & Hdraws).
    exists ((Math_random, a) :: evs), (String c s).
    rewrite Hrun, add_events_record, append_assoc, append_cons, append_nil_l.
    repeat split.
    + simpl. by rewrite Hlen.
    + simpl. by rewrite Halnum, Hall.
    + rewrite draws_cons_random. simpl. by rewrite Hdraws.
Qed.

(** X13. [generateRandomString(length)] returns, whatever the draws
    are, a string of exactly [length] characters (none when [length] is
    negative), all of them letters or digits, using one draw per
    character. *)
Theorem generateRandomString_length_and_alphabet (env : Env) (w : World) (len : Z) :
  exists w' s,
    CommonUtils2.generateRandomString len env w = (w', Ok s)
    /\ String.length s = Z.to_nat len
    /\ all_alphanumeric s = true
    /\ length (draws (added w w')) = Z.to_nat len.
Proof.
  unfold CommonUtils2.generateRandomString. run. worlds.
  match goal with |- context [for_times ?k ?body ?acc env ?w0] =>
    destruct (string_loop env k w0 acc) as (evs & s & Hrun & Hlen & Hall & Hdraws) end.
  run. rewrite Hrun. run. worlds.
  eexists _, _. split; [reflexivity|].
  rewrite added_add_events, append_nil_l.
  rewrite !draws_cons, draws_app, draws_cons. cbn [draw_of].
  change (draws []) with (@nil Double.t). rewrite app_nil_r.
  auto.
Qed.

(** X14. [randomNumber(min, max)] on integers with [min <= max], both
    of at most 2^51 in absolute value, returns an integer between [min]
    and [max], both included: the rounding of the product never reaches
    [max - min + 1]. *)
Theorem randomNumber_in_range (env : Env) (w : World) (min max : Z) :
  - 2 ^ 51 <= min -> min <= max -> max <= 2 ^ 51 ->
  exists w' v,
    CommonUtils2.randomNumber min max env w = (w', Ok v) /\ min <= v <= max.
Proof.
  intros Hmin Hle Hmax. unfold CommonUtils2.randomNumber, CommonUtils.Math_random_draw. run.
  eexists _, _. split; [reflexivity|].
  match goal with |- context [CommonUtils.Math_floor_times (CommonUtils.random_of ?a) ?n] =>
    pose proof (Math_floor_times_bounds (CommonUtils.random_of a) n
                  (draw_in_range a) ltac:(lia)) end.
  lia.
Qed.

Lemma randomNumber_in_range_witness :
  exists w' v,
    CommonUtils2.randomNumber 3 7 (env_const_draw (Double.one_bits - 1)) emptyWorld
    = (w', Ok v)
    /\ 3 <= v <= 7.
Proof.
  apply (randomNumber_in_range (env_const_draw (Double.one_bits - 1)) emptyWorld 3 7); lia.
Defined.


(** X15. [getRandomValueFromList(list)], for an array (fewer than 2^32
    elements), throws 'List is empty or invalid', without drawing, on
    an empty list; on a non-empty list it draws once and either returns
    an element of the list or, when the slot drawn is [undefined],
    throws 'Selected value is undefined'. *)
Theorem getRandomValueFromList_returns_a_member (env : Env) (w : World)
    (list : list (option string)) :
  Z.of_nat (length list) < 2 ^ 32 ->
  let w' := fst (CommonUtils2.getRandomValueFromList list env w) in
  let out := snd (CommonUtils2.getRandomValueFromList list env w) in
  match list with
  | [] => out = Thrown (JS.new_Error "List is empty or invalid")
          /\ draws (added w w') = []
  | _ :: _ =>
      length (draws (added w w')) = 1%nat
      /\ ((exists v, out = Ok v /\ In (Some v) list)
          \/ (out = Thrown (JS.new_Error "Selected value is undefined") /\ In None list))
  end.
Proof.
  intros Hlen. cbv zeta.
  unfold CommonUtils2.getRandomValueFromList, CommonUtils.Math_random_draw.
  destruct list as [|x l]; run; cbn [length Nat.eqb]; run.
  - worlds. split; reflexivity.
  - change (S (length l)) with (length (x :: l)) in *. set (xs := x :: l) in *.
    set (a := env (S (S (S (clock w)))) Math_random).
    assert (Hidx : (Z.to_nat (CommonUtils.Math_floor_times (CommonUtils.random_of a)
                                (Z.of_nat (length xs))) < length xs)%nat).
    { assert (Hn : 1 <= Z.of_nat (length xs) < 2 ^ 53)
        by (split; [unfold xs; cbn [length]; lia | lia]).
      pose proof (Math_floor_times_bounds (CommonUtils.random_of a) (Z.of_nat (length xs))
                    (draw_in_range a) Hn). lia. }
    destruct (lookup_lt_is_Some_2 xs _ Hidx) as [slot Hslot].
    rewrite Hslot. cbn [mjoin option_join].
    assert (Hin : In slot xs).
    { apply list_elem_of_In. eapply list_elem_of_lookup_2. exact Hslot. }
    destruct slot as [v|]; run; worlds; (split; [reflexivity|]).
    + left. exists v. split; [reflexivity|exact Hin].
    + right. split; [reflexivity|exact Hin].
Qed.

Lemma getRandomValueFromList_returns_a_member_witness :
  length (draws (added emptyWorld
                   (fst (CommonUtils2.getRandomValueFromList [Some "a"; None; Some "c"]
                           (env_const_draw 0x3FE3333333333333) emptyWorld)))) = 1%nat
  /\ ((exists v, snd (CommonUtils2.getRandomValueFromList [Some "a"; None; Some "c"]
                        (env_const_draw 0x3FE3333333333333) emptyWorld) = Ok v
                 /\ In (Some v) [Some "a"; None; Some "c"])
      \/ (snd (CommonUtils2.getRandomValueFromList [Some "a"; None; Some "c"]
                 (env_const_draw 0x3FE3333333333333) emptyWorld)
          = Thrown (JS.new_Error "Selected value is undefined")
          /\ In None [Some "a"; None; Some "c"])).
Proof.
  apply (getRandomValueFromList_returns_a_member (env_const_draw 0x3FE3333333333333)
           emptyWorld [Some "a"; None; Some "c"]).
  vm_compute. reflexivity.
Defined.

(** X16. Whenever [getTestData(key)] returns, [hasTestDataKey(key)] is
    true and the value returned is the truthy value the object has for
    the key, own or inherited. *)
Theorem getTestData_returns_only_existing_keys (env : Env) (w : World)
    (testDataJson : JsObject) (key : string) (v : JsValue) :
  snd (TestDataUtils.getTestData testDataJson key env w) = Ok v ->
  snd (TestDataUtils.hasTestDataKey testDataJson key env w) = Ok true
  /\ v = js_get testDataJson key /\ truthy v = true.
Proof.
  unfold TestDataUtils.getTestData, TestDataUtils.hasTestDataKey. run.
  destruct (truthy (js_get testDataJson key)) eqn:Ht; cbn [negb]; run; [|discriminate].
  intros [= <-]. split; [|auto].
  destruct (js_in key testDataJson) eqn:Hin; [reflexivity|].
  rewrite (js_in_false_get _ _ Hin) in Ht. discriminate.
Qed.

Lemma getTestData_returns_only_existing_keys_witness :
  snd (TestDataUtils.hasTestDataKey sampleTestData "toString" env_quiet emptyWorld) = Ok true
  /\ v_object 0 = js_get sampleTestData "toString" /\ truthy (v_object 0) = true.
Proof.
  apply (getTestData_returns_only_existing_keys env_quiet emptyWorld sampleTestData
           "toString" (v_object 0)).
  vm_compute. reflexivity.
Defined.

Lemma new_Logger_fresh env w l :
  snd (Logger.new env w) = Ok l ->
  l = allocated w /\ allocated (fst (Logger.new env w)) = S (allocated w).
Proof.
  unfold Logger.new, Logger.createLogger, Logger.ensureLogsDirectory. run.
  destruct (as_boolean (env (clock w) (fs_existsSync "logs")));
    cbn [negb]; run; throw_cases env; run; cbn [fst snd allocated];
    intros Hl; try discriminate; inversion Hl; auto.
Qed.

(** X17. [new Logger()] never reads or changes the stored singleton:
    it looks for the logs directory, creates it only when it is missing,
    and, unless that creation throws, returns a fresh object each time. *)
Theorem new_Logger_is_not_the_singleton (env : Env) (w : World) :
  let w' := fst (Logger.new env w) in
  Logger_instance w' = Logger_instance w
  /\ (driver_calls (added w w') = [fs_existsSync "logs"]
      \/ driver_calls (added w w') = [fs_existsSync "logs"; fs_mkdirSync "logs"]
         /\ as_boolean (env (clock w) (fs_existsSync "logs")) = false)
  /\ (forall l, snd (Logger.new env w) = Ok l ->
        l = allocated w /\ allocated w' = S (allocated w)
        /\ forall env2 l2, snd (Logger.new env2 w') = Ok l2 -> l2 <> l).
Proof.
  cbv zeta. split; [|split].
  - unfold Logger.new, Logger.createLogger, Logger.ensureLogsDirectory. run.
    destruct (as_boolean (env (clock w) (fs_existsSync "logs")));
      cbn [negb]; run; throw_cases env; run; reflexivity.
  - unfold Logger.new, Logger.createLogger, Logger.ensureLogsDirectory. run.
    destruct (as_boolean (env (clock w) (fs_existsSync "logs"))) eqn:Hexists;
      cbn [negb]; run; throw_cases env; run; worlds;
      unfold added; cbn [trace]; rewrite <- ?app_assoc, ?drop_app_length; cbn [app];
      observe; first [ left; reflexivity | right; split; reflexivity ].
  - intros l Hl. destruct (new_Logger_fresh env w l Hl) as [-> Halloc].
    split; [reflexivity|]. split; [exact Halloc|].
    intros env2 l2 Hl2. destruct (new_Logger_fresh env2 _ l2 Hl2) as [-> _]. lia.
Qed.


Ltac split_in H :=
  cbn [In] in H;
  repeat match type of H with
         | _ \/ _ => destruct H as [H|H]
         end;
  try (apply in_app_or in H; destruct H as [H|H]; cbn [In] in H;
       repeat match type of H with
              | _ \/ _ => destruct H as [H|H]
              end).

Ltac cleanup_cases env :=
  repeat first
    [ match goal with
      | |- context [thrown (env ?k ?c)] =>
          let H := fresh "Hthrown" in destruct (thrown (env k c)) eqn:H; run
      end
    | match goal with
      | |- context [if as_boolean (env ?k ?c) then _ else _] =>
          let H := fresh "Hbool" in destruct (as_boolean (env k c)) eqn:H; run
      end ].

(** X18. What [cleanupTempFiles()] deletes. Every [fs.rmSync] it makes
    is recursive and forced, on one of the three temporary directories,
    which [fs.existsSync] has just reported as existing; every
    [fs.unlinkSync] is on a file listed by [fs.readdirSync] for the
    logs directory, whose modification time is more than seven days
    before the one reading of [Date.now()]. *)
Theorem cleanupTempFiles_deletes_only_temp_directories_and_old_logs
    (env : Env) (w : World) :
  let evs := added w (fst (GlobalTeardown.cleanupTempFiles env w)) in
  (forall p r f a, In (fs_rmSync p r f, a) evs ->
     In p GlobalTeardown.tempDirectories /\ r = true /\ f = true
     /\ exists ea, In (fs_existsSync p, ea) evs /\ as_boolean ea = true)
  /\ (forall p a, In (fs_unlinkSync p, a) evs ->
        exists file fa na ma,
          p = path_join "logs" file
          /\ In (fs_readdirSync "logs", fa) evs /\ In file (as_names fa)
          /\ In (Date_now, na) evs /\ In (fs_statSync_mtime p, ma) evs
          /\ as_number ma < as_number na - GlobalTeardown.sevenDays).
Proof.
  cbv zeta.
  unfold GlobalTeardown.cleanupTempFiles, GlobalTeardown.tempDirectories.
  cbn [for_of]. unfold GlobalTeardown.removeTempDirectory. run.
  cleanup_cases env.
  all: rewrite ?record_event_add, ?add_events_app; cbn [app].
  all: try match goal with
       | |- context [for_of ?files (GlobalTeardown.pruneLogFile "logs" ?ago) ?E ?w0] =>
           destruct (prune_loop E ago files w0)
             as (evs' & out & Hrun & Hcalls & Hlast & Hthrown' & Hdone & Hunlinked);
           rewrite Hrun; destruct out as [[]|e']; run;
           rewrite ?record_event_add, ?add_events_app; cbn [app]
       end.
  all: rewrite ?added_add_events.
  all: split.
  all: try (intros p r f a Hin; split_in Hin;
            try (inversion Hin; clear Hin; subst);
            try (destruct (Hcalls _ _ Hin eq_refl) as (f0 & _ & [Hc|Hc]); discriminate Hc);
            (split; [cbn [In]; auto|]); (split; [reflexivity|]); (split; [reflexivity|]);
            eexists; (split; [find_in | eassumption])).
  all: intros p a Hin; split_in Hin; try (inversion Hin; clear Hin; subst).
  all: destruct (Hunlinked _ _ Hin) as (file & ma & Hp & Hfile & Hstat & Hlt).
  all: eexists file, _, _, ma; (split; [exact Hp|]); (split; [find_in|]);
       (split; [exact Hfile|]); (split; [find_in|]); (split; [find_in|]); exact Hlt.
Qed.





(** X20. Managers built without an [environmentInfo] of their own share
    the one object of [defaultAllureConfig]: what [setBrowserInfo],
    [setOSInfo] or [setEnvironment] writes through one manager is read
    back through every other such manager, and through
    [defaultAllureConfig] itself; [updateConfig] of the directories
    changes what the manager reads back for them and keeps the shared
    object. *)
Theorem setters_write_the_shared_default_environmentInfo
    (c1 c2 : option PartialAllureConfig) (browser version os environment : string)
    (h : Heap) (ei : EnvironmentInfo) :
  (forall c, c1 = Some c -> p_environmentInfo c = None) ->
  (forall c, c2 = Some c -> p_environmentInfo c = None) ->
  h !! AllureConfigManager.defaultEnvironmentInfo = Some ei ->
  let m1 := AllureConfigManager.new c1 in
  let m2 := AllureConfigManager.new c2 in
  AllureConfigManager.getEnvironmentInfo m2
    (AllureConfigManager.setBrowserInfo m1 browser version h)
  = Some (mkEnvironmentInfo browser version (ei_os ei) (ei_environment ei))
  /\ AllureConfigManager.getEnvironmentInfo m2 (AllureConfigManager.setOSInfo m1 os h)
     = Some (mkEnvironmentInfo (ei_browser ei) (ei_browserVersion ei) os (ei_environment ei))
  /\ AllureConfigManager.getEnvironmentInfo m2
       (AllureConfigManager.setEnvironment m1 environment h)
     = Some (mkEnvironmentInfo (ei_browser ei) (ei_browserVersion ei) (ei_os ei) environment)
  /\ AllureConfigManager.getEnvironmentInfo AllureConfigManager.defaultAllureConfig
       (AllureConfigManager.setEnvironment m1 environment h)
     = Some (mkEnvironmentInfo (ei_browser ei) (ei_browserVersion ei) (ei_os ei) environment)
  /\ forall dir out,
       let m1' := AllureConfigManager.updateConfig m1
                    (mkPartialAllureConfig (Some dir) (Some out) None) in
       AllureConfigManager.getResultsDir m1' = dir
       /\ AllureConfigManager.getOutputDir m1' = out
       /\ environmentInfo m1' = environmentInfo m2.
Proof.
  intros H1 H2 Hei. cbv zeta.
  assert (E1 : environmentInfo (AllureConfigManager.new c1)
               = AllureConfigManager.defaultEnvironmentInfo).
  { destruct c1 as [c|]; cbn; [rewrite (H1 c eq_refl)|]; reflexivity. }
  assert (E2 : environmentInfo (AllureConfigManager.new c2)
               = AllureConfigManager.defaultEnvironmentInfo).
  { destruct c2 as [c|]; cbn; [rewrite (H2 c eq_refl)|]; reflexivity. }
  unfold AllureConfigManager.getEnvironmentInfo, AllureConfigManager.setBrowserInfo,
    AllureConfigManager.setOSInfo, AllureConfigManager.setEnvironment.
  change (environmentInfo AllureConfigManager.defaultAllureConfig)
    with AllureConfigManager.defaultEnvironmentInfo.
  rewrite E1, E2, Hei. cbv beta iota.
  repeat (split; [apply lookup_insert_eq|]).
  intros dir out. split; [reflexivity|]. split; [reflexivity|]. exact E1.
Qed.

Lemma setters_write_the_shared_default_environmentInfo_witness :
  AllureConfigManager.getEnvironmentInfo
    (AllureConfigManager.new (Some (mkPartialAllureConfig (Some "out/results") None None)))
    (AllureConfigManager.setBrowserInfo (AllureConfigManager.new None) "Firefox" "120"
       AllureConfigManager.initialHeap)
  = Some (mkEnvironmentInfo "Firefox" "120" "Windows" "QA").
Proof.
  pose proof (setters_write_the_shared_default_environmentInfo
                None (Some (mkPartialAllureConfig (Some "out/results") None None))
                "Firefox" "120" "Linux" "STAGE" AllureConfigManager.initialHeap
                (mkEnvironmentInfo "Chrome" "Latest" "Windows" "QA")) as H.
  cbv zeta in H. apply H.
  - intros c Hc. discriminate Hc.
  - intros c [= <-]. reflexivity.
  - reflexivity.
Defined.

(** X21. A manager given an [environmentInfo] object of its own is
    detached from the default: the setters called on it change what it
    reads back and leave what managers on the default read as it was,
    and the other way round. *)
Theorem own_environmentInfo_is_not_shared
    (own : nat) (c : PartialAllureConfig) (browser version : string)
    (h : Heap) (ei eo : EnvironmentInfo) :
  p_environmentInfo c = Some own ->
  own <> AllureConfigManager.defaultEnvironmentInfo ->
  h !! AllureConfigManager.defaultEnvironmentInfo = Some ei ->
  h !! own = Some eo ->
  let m1 := AllureConfigManager.new (Some c) in
  let m2 := AllureConfigManager.new None in
  let h1 := AllureConfigManager.setBrowserInfo m1 browser version h in
  let h2 := AllureConfigManager.setBrowserInfo m2 browser version h in
  AllureConfigManager.getEnvironmentInfo m1 h1
  = Some (mkEnvironmentInfo browser version (ei_os eo) (ei_environment eo))
  /\ AllureConfigManager.getEnvironmentInfo m2 h1 = Some ei
  /\ AllureConfigManager.getEnvironmentInfo m1 h2 = Some eo
  /\ AllureConfigManager.getEnvironmentInfo m2 h2
     = Some (mkEnvironmentInfo browser version (ei_os ei) (ei_environment ei)).
Proof.
  intros Hown Hne Hei Heo. cbv zeta.
  unfold AllureConfigManager.getEnvironmentInfo, AllureConfigManager.setBrowserInfo.
  assert (E1 : environmentInfo (AllureConfigManager.new (Some c)) = own).
  { cbn. rewrite Hown. reflexivity. }
  change (environmentInfo (AllureConfigManager.new None))
    with AllureConfigManager.defaultEnvironmentInfo.
  rewrite E1, Hei, Heo. cbv beta iota.
  split; [apply lookup_insert_eq|].
  split; [rewrite <- Hei; apply lookup_insert_ne; congruence|].
  split; [rewrite <- Heo; apply lookup_insert_ne; congruence|].
  apply lookup_insert_eq.
Qed.

Lemma own_environmentInfo_is_not_shared_witness :
  AllureConfigManager.getEnvironmentInfo (AllureConfigManager.new None)
    (AllureConfigManager.setBrowserInfo
       (AllureConfigManager.new (Some (mkPartialAllureConfig None None (Some 1%nat))))
       "Firefox" "120"
       (<[1%nat := mkEnvironmentInfo "Safari" "17" "macOS" "STAGE"]>
          AllureConfigManager.initialHeap))
  = Some (mkEnvironmentInfo "Chrome" "Latest" "Windows" "QA").
Proof.
  pose proof (own_environmentInfo_is_not_shared 1
                (mkPartialAllureConfig None None (Some 1%nat)) "Firefox" "120"
                (<[1%nat := mkEnvironmentInfo "Safari" "17" "macOS" "STAGE"]>
                   AllureConfigManager.initialHeap)
                (mkEnvironmentInfo "Chrome" "Latest" "Windows" "QA")
                (mkEnvironmentInfo "Safari" "17" "macOS" "STAGE")) as H.
  cbv zeta in H. apply H.
  - reflexivity.
  - unfold AllureConfigManager.defaultEnvironmentInfo. lia.
  - vm_compute. reflexivity.
  - vm_compute. reflexivity.
Defined.
